(** * WesternMeteorPyLib: the RMS correlation front end

    A shallow embedding of [wmpl/Trajectory/CorrelateRMS.py]: the JSON ledger
    of processed directories ([DatabaseJSON]), the field-of-view estimate made
    when a [MeteorObsRMS] is constructed, and the directory scan, the loader
    and the time pairing of [RMSDataHandle].

    Conventions of the embedding.
    - A Python [float] is an IEEE 754 binary64 value: [spec_float] of the
      Standard Library at 53 bits of precision.  [+], [-], [*] and [/] on
      floats are its [SFadd], [SFsub], [SFmul] and [SFdiv], so an operation
      rounds to the nearest value (ties to even), overflows to an infinity
      and propagates nan as the hardware does.
    - A number held in a record (a pixel coordinate, a frame number, an
      image size, a time offset) is given by the rational it denotes ([Q]).
      It enters float arithmetic through [float_of_Q], the binary64 value
      nearest to it, which is the number itself when that is a binary64
      value.  A float is compared with such a number by value.
    - A naive [datetime] is its number of microseconds on the proleptic
      calendar ([Z]); [timedelta.total_seconds()] is the float nearest to
      that number over 10^6.  The mean of the relative times of the picks
      is taken exactly and rounded once, to the microsecond, and the range
      limits of [timedelta] and [datetime] are left out.
    - A Python [str] is a [string]; names are compared byte by byte.
    - A [dict] keyed by strings is a [gmap string _]; the file system is a
      pair of such maps (regular files and directories).
    - A raised exception is the [Raise] case of [result]. *)

From Stdlib Require Import ZArith QArith Qabs Qround String Ascii List Bool Lia.
From Stdlib Require Import SpecFloat.
From stdpp Require Import gmap strings list fin_maps.
Import ListNotations.
Local Open Scope string_scope.

(** ** Python runtime *)

Inductive exn : Type :=
  | IndexError
  | ZeroDivisionError
  | ValueError
  | KeyError
  | OSError.

Inductive result (A : Type) : Type :=
  | Ok (a : A)
  | Raise (e : exn).

Arguments Ok {A} a.
Arguments Raise {A} e.

#[global] Instance result_ret : MRet result := λ A a, Ok a.

#[global] Instance result_bind : MBind result :=
  λ A B f m, match m with Ok a => f a | Raise e => Raise e end.

(** [l[i]] for a non-negative index. *)
Definition getitem {A} (l : list A) (i : nat) : result A :=
  match l !! i with
  | Some a => Ok a
  | None => Raise IndexError
  end.

(** [l[-1]]. *)
Definition getlast {A} (l : list A) : result A :=
  match last l with
  | Some a => Ok a
  | None => Raise IndexError
  end.

(** [a < b] on numbers; [Qle_bool] is [a <= b]. *)
Definition Qlt_bool (a b : Q) : bool := negb (Qle_bool b a).

(** *** Floats *)

Definition float : Type := spec_float.

Definition fadd : float → float → float := SFadd 53 1024.
Definition fsub : float → float → float := SFsub 53 1024.
Definition fmul : float → float → float := SFmul 53 1024.
Definition fdiv : float → float → float := SFdiv 53 1024.

(** [abs(a)]. *)
Definition fabs : float → float := SFabs.

(** [float(q)]: the float nearest to the rational [q], which is the
    quotient of its numerator by its denominator rounded once. *)
Definition float_of_Q (q : Q) : float :=
  match Qnum q with
  | Z0 => S754_zero false
  | Zpos n => fdiv (S754_finite false n 0) (S754_finite false (Qden q) 0)
  | Zneg n => fdiv (S754_finite true n 0) (S754_finite false (Qden q) 0)
  end.

(** The rational a finite float denotes; an infinity and nan denote none. *)
Definition float_value (a : float) : option Q :=
  match a with
  | S754_zero _ => Some 0%Q
  | S754_finite s m e =>
      let n := cond_Zopp s (Zpos m) in
      Some match e with
           | Zneg p => (n # 2 ^ p)%Q
           | _ => inject_Z (n * 2 ^ e)
           end
  | _ => None
  end.

(** The order of a float and a number: by value for a finite float, an
    infinity is beyond every number, nan is not ordered. *)
Definition float_compare (a : float) (b : Q) : option comparison :=
  match a with
  | S754_nan => None
  | S754_infinity s => Some (if s then Lt else Gt)
  | _ =>
      match float_value a with
      | Some v => Some (v ?= b)%Q
      | None => None
      end
  end.

(** [a < b], [a <= b] and [a > b] for a float [a] and a number [b];
    each is false when [a] is nan. *)
Definition float_lt (a : float) (b : Q) : bool :=
  match float_compare a b with
  | Some Lt => true
  | _ => false
  end.

Definition float_le (a : float) (b : Q) : bool :=
  match float_compare a b with
  | Some (Lt | Eq) => true
  | _ => false
  end.

Definition float_gt (a : float) (b : Q) : bool :=
  match float_compare a b with
  | Some Gt => true
  | _ => false
  end.

(** [a / b] under [from __future__ import division], on built-in floats:
    a zero divisor raises.  (NumPy scalars give nan or inf with a warning
    instead.) *)
Definition truediv (a b : float) : result float :=
  if SFeqb b (S754_zero false) then Raise ZeroDivisionError else Ok (fdiv a b).

(** [s.startswith(p)], [s.endswith(p)] and [p in s]. *)
Definition startswith (p s : string) : bool := String.prefix p s.

Definition endswith (p s : string) : bool :=
  let n := String.length s in
  let m := String.length p in
  (m <=? n)%nat && String.eqb (String.substring (n - m) m s) p.

Fixpoint contains (p s : string) : bool :=
  String.prefix p s ||
  match s with
  | EmptyString => false
  | String _ s' => contains p s'
  end.

(** [os.path.join(a, b)] of [posixpath]. *)
Definition path_join (a b : string) : string :=
  if startswith "/" b then b
  else if String.eqb a EmptyString || endswith "/" a then a ++ b
  else a ++ "/" ++ b.

(** ** The file system

    [files] maps the path of a regular file to its content, [dirs] the path
    of a directory to the names [os.listdir] returns for it.  Writing a
    file changes [files] only; nothing here lists a directory after a file
    was created in it. *)

Record World : Type := {
  files : gmap string string;
  dirs : gmap string (list string)
}.

Definition set_files (w : World) (f : gmap string string) : World :=
  {| files := f; dirs := dirs w |}.

(** [os.listdir(path)]. *)
Definition listdir (w : World) (path : string) : result (list string) :=
  match dirs w !! path with
  | Some names => Ok names
  | None => Raise OSError
  end.

(** [os.path.isdir(path)]. *)
Definition isdir (w : World) (path : string) : bool :=
  bool_decide (is_Some (dirs w !! path)).

(** [open(path).read()]. *)
Definition read_file (w : World) (path : string) : result string :=
  match files w !! path with
  | Some s => Ok s
  | None => Raise OSError
  end.

(** What a file object opened with mode ['w'] does to the file system:
    the open creates the file or truncates it to length zero; the written
    text reaches the file when the [with] block closes it. *)
Inductive fs_op : Type :=
  | OpenForWriting (path : string)
  | WriteAndClose (path data : string).

Definition fs_apply (w : World) (op : fs_op) : World :=
  match op with
  | OpenForWriting p => set_files w (<[p := EmptyString]> (files w))
  | WriteAndClose p d =>
      set_files w (<[p := default EmptyString (files w !! p) ++ d]> (files w))
  end.

Definition fs_run (ops : list fs_op) (w : World) : World :=
  fold_left fs_apply ops w.

(** ** json.dumps(..., indent=4, sort_keys=True) *)

Definition dq : ascii := "034"%char.
Definition nl : ascii := "010"%char.
Definition bs : ascii := "092"%char.

Definition hex_digit (n : nat) : ascii :=
  ascii_of_nat (if (n <? 10)%nat then 48 + n else 87 + n).

(** One character of a JSON string with [ensure_ascii]: printable ASCII is
    copied, the quote, the backslash and the usual control characters get
    their short escapes, anything else is a [\u00XX] escape (a byte above
    127 is read as the code point of that number). *)
Definition json_encode_char (c : ascii) : string :=
  let n := nat_of_ascii c in
  if (n =? 34)%nat then String bs (String dq EmptyString)
  else if (n =? 92)%nat then String bs (String bs EmptyString)
  else if (n =? 10)%nat then String bs "n"
  else if (n =? 13)%nat then String bs "r"
  else if (n =? 9)%nat then String bs "t"
  else if (n =? 12)%nat then String bs "f"
  else if (n =? 8)%nat then String bs "b"
  else if (32 <=? n)%nat && (n <=? 126)%nat then String c EmptyString
  else String bs ("u00" ++ String (hex_digit (n / 16)) (String (hex_digit (n mod 16)) EmptyString)).

Fixpoint json_encode (s : string) : string :=
  match s with
  | EmptyString => EmptyString
  | String c s' => json_encode_char c ++ json_encode s'
  end.

Definition json_str (s : string) : string :=
  String dq (json_encode s ++ String dq EmptyString).

Fixpoint spaces (n : nat) : string :=
  match n with
  | O => EmptyString
  | S n' => String " " (spaces n')
  end.

Definition newline_indent (level : nat) : string :=
  String nl (spaces (4 * level)).

Fixpoint join_with (sep : string) (items : list string) : string :=
  match items with
  | [] => EmptyString
  | [x] => x
  | x :: rest => x ++ sep ++ join_with sep rest
  end.

Definition json_array (level : nat) (items : list string) : string :=
  match items with
  | [] => "[]"
  | _ =>
      "[" ++ newline_indent (S level)
      ++ join_with ("," ++ newline_indent (S level)) items
      ++ newline_indent level ++ "]"
  end.

Definition json_member (kv : string * string) : string :=
  json_str kv.1 ++ ": " ++ kv.2.

Definition json_object (level : nat) (members : list (string * string)) : string :=
  match members with
  | [] => "{}"
  | _ =>
      "{" ++ newline_indent (S level)
      ++ join_with ("," ++ newline_indent (S level)) (map json_member members)
      ++ newline_indent level ++ "}"
  end.

(** The items of a dict in the order [sort_keys=True] emits them. *)
Fixpoint insert_by_key {V} (kv : string * V) (l : list (string * V)) : list (string * V) :=
  match l with
  | [] => [kv]
  | kv' :: rest =>
      if String.leb kv.1 kv'.1 then kv :: l else kv' :: insert_by_key kv rest
  end.

Definition sorted_items {V} (m : gmap string V) : list (string * V) :=
  foldr insert_by_key [] (map_to_list m).

(** ** DatabaseJSON: the ledger *)

Record DatabaseJSON : Type := {
  db_file_path : string;
  (* "List of processed directories (keys are station codes)" *)
  processed_dirs : gmap string (list string);
  (* "List of trajectories (keys are trajectory reference julian dates)" *)
  trajectories : gmap string string
}.

Definition set_processed_dirs (self : DatabaseJSON) (pd : gmap string (list string)) : DatabaseJSON :=
  {| db_file_path := db_file_path self;
     processed_dirs := pd;
     trajectories := trajectories self |}.

Definition set_trajectories (self : DatabaseJSON) (tr : gmap string string) : DatabaseJSON :=
  {| db_file_path := db_file_path self;
     processed_dirs := processed_dirs self;
     trajectories := tr |}.

(** The text [json.dumps(self2, default=lambda o: o.__dict__, indent=4,
    sort_keys=True)] produces for the ledger. *)
Definition dumps (self : DatabaseJSON) : string :=
  json_object 0
    [ ("db_file_path", json_str (db_file_path self));
      ("processed_dirs",
        json_object 1
          (map (λ kv : string * list string, (kv.1, json_array 2 (map json_str kv.2)))
               (sorted_items (processed_dirs self))));
      ("trajectories",
        json_object 1
          (map (λ kv : string * string, (kv.1, json_str kv.2))
               (sorted_items (trajectories self)))) ].

(** [DatabaseJSON.save]: [open(self.db_file_path, 'w')], then the deep copy
    and the serialisation, then the write, then the close. *)
Definition save_ops (self : DatabaseJSON) : list fs_op :=
  [ OpenForWriting (db_file_path self);
    WriteAndClose (db_file_path self) (dumps self) ].

Definition save (self : DatabaseJSON) (w : World) : World :=
  fs_run (save_ops self) w.

(** The file system left behind when the process dies after [k] of the
    file operations of [save]. *)
Definition save_interrupted (k : nat) (self : DatabaseJSON) (w : World) : World :=
  fs_run (take k (save_ops self)) w.

(** [DatabaseJSON.addProcessedDir]. *)
Definition addProcessedDir (self : DatabaseJSON) (station_name rel_proc_path : string) : DatabaseJSON :=
  match processed_dirs self !! station_name with
  | Some paths =>
      if bool_decide (rel_proc_path ∈ paths) then self
      else set_processed_dirs self
             (<[station_name := (paths ++ [rel_proc_path])%list]> (processed_dirs self))
  | None => self
  end.

(** A computed trajectory, as far as the ledger looks at it: its reference
    Julian date (the key) and its [toJSON()] text (the summary). *)
Module Trajectory.
Record t : Type := {
  jdt_ref : string;
  toJSON : string
}.
End Trajectory.

(** [DatabaseJSON.addTrajectory]: the body is [pass]. *)
Definition addTrajectory {Obs : Type} (self : DatabaseJSON) (traj : Trajectory.t)
    (met_obs_list : list Obs) : DatabaseJSON :=
  self.

(** The two lines left as a comment under that [pass]:
    [if traj.jdt_ref not in self.trajectories:
         self.trajectories[traj.jdt_ref] = traj.toJSON()]. *)
Definition addTrajectory_commented_out (self : DatabaseJSON) (traj : Trajectory.t) : DatabaseJSON :=
  match trajectories self !! Trajectory.jdt_ref traj with
  | Some _ => self
  | None =>
      set_trajectories self
        (<[Trajectory.jdt_ref traj := Trajectory.toJSON traj]> (trajectories self))
  end.

(** ** MeteorPointRMS and MeteorObsRMS *)

Module MeteorPointRMS.
(** "Container for individual meteor picks." *)
Record t : Type := {
  frame : Q;
  time_rel : Q;
  x : Q;
  y : Q;
  ra : Q;
  dec : Q;
  azim : Q;
  alt : Q;
  intensity_sum : option Q;
  mag : option Q
}.
End MeteorPointRMS.

(** The platepar object, as far as this file reads it. *)
Record PlateparDummy : Type := {
  X_res : Q;
  Y_res : Q;
  lat : Q;
  lon : Q;
  elev : Q
}.

Definition datetime : Type := Z.

(** Rounding to the nearest integer, ties to the even one. *)
Definition round_half_even (q : Q) : Z :=
  let f := Qfloor q in
  match (q - inject_Z f ?= 1 # 2)%Q with
  | Lt => f
  | Gt => (f + 1)%Z
  | Eq => if Z.even f then f else (f + 1)%Z
  end.

Definition Qsum (l : list Q) : Q := foldr Qplus 0%Q l.

(** [datetime.timedelta(seconds=np.mean(l))] in microseconds, with the
    mean taken exactly and rounded once.  The mean of an empty list is nan,
    which [timedelta] refuses with a ValueError. *)
Definition timedelta_of_mean (l : list Q) : result Z :=
  match l with
  | [] => Raise ValueError
  | _ => Ok (round_half_even (Qsum l / inject_Z (Z.of_nat (length l)) * 1000000)%Q)
  end.

(** [(x > 0) and (x <= X_res) and (y > 0) and (y < Y_res)], the test made
    on the point predicted before the first pick. *)
Definition in_fov_beg (pp : PlateparDummy) (x y : float) : bool :=
  float_gt x 0 && float_le x (X_res pp) && float_gt y 0 && float_lt y (Y_res pp).

(** [(x > 0) and (x <= X_res) and (y > 0) and (y <= Y_res)], the test made
    on the point predicted after the last pick. *)
Definition in_fov_end (pp : PlateparDummy) (x y : float) : bool :=
  float_gt x 0 && float_le x (X_res pp) && float_gt y 0 && float_le y (Y_res pp).

Module MeteorObsRMS.
Import MeteorPointRMS.

Record t : Type := {
  station_code : string;
  reference_dt : datetime;
  platepar : PlateparDummy;
  data : list MeteorPointRMS.t;
  rel_proc_path : string;
  processed : bool;
  paired : bool;
  mean_dt : datetime;
  fov_beg : bool;
  fov_end : bool
}.

(** "Find angular velocity at the beginning per every axis" and "Compute
    locations of centroids 2 frames before the beginning". *)
Definition pre_begin (data : list MeteorPointRMS.t) (half_index : nat)
    : result (float * float) :=
  ph ← getitem data half_index;
  p0 ← getitem data 0;
  dxdf_beg ← truediv (fsub (float_of_Q (x ph)) (float_of_Q (x p0)))
                     (fsub (float_of_Q (frame ph)) (float_of_Q (frame p0)));
  dydf_beg ← truediv (fsub (float_of_Q (y ph)) (float_of_Q (y p0)))
                     (fsub (float_of_Q (frame ph)) (float_of_Q (frame p0)));
  mret (fsub (float_of_Q (x p0)) (fmul (float_of_Q 2) dxdf_beg),
        fsub (float_of_Q (y p0)) (fmul (float_of_Q 2) dydf_beg)).

(** The first half of the estimate: the flag [fov_beg] and the working
    sequence, which is [data[1:]] when the flag is false. *)
Definition trim_begin (pp : PlateparDummy) (data : list MeteorPointRMS.t) (half_index : nat)
    : result (bool * list MeteorPointRMS.t) :=
  '(x_pre_begin, y_pre_begin) ← pre_begin data half_index;
  if in_fov_beg pp x_pre_begin y_pre_begin
  then mret (true, data)
  else mret (false, tail data).

(** "Find angular velocity at the ending per every axis" and "Compute
    locations of centroids 2 frames after the end". *)
Definition post_end (data : list MeteorPointRMS.t) (half_index : nat)
    : result (float * float) :=
  pl ← getlast data;
  ph ← getitem data half_index;
  dxdf_end ← truediv (fsub (float_of_Q (x pl)) (float_of_Q (x ph)))
                     (fsub (float_of_Q (frame pl)) (float_of_Q (frame ph)));
  dydf_end ← truediv (fsub (float_of_Q (y pl)) (float_of_Q (y ph)))
                     (fsub (float_of_Q (frame pl)) (float_of_Q (frame ph)));
  mret (fadd (float_of_Q (x pl)) (fmul (float_of_Q 2) dxdf_end),
        fadd (float_of_Q (y pl)) (fmul (float_of_Q 2) dydf_end)).

(** The second half: the flag [fov_end] and the sequence, which is
    [data[:-1]] when the flag is false. *)
Definition trim_end (pp : PlateparDummy) (data : list MeteorPointRMS.t) (half_index : nat)
    : result (bool * list MeteorPointRMS.t) :=
  '(x_post_end, y_post_end) ← post_end data half_index;
  if in_fov_end pp x_post_end y_post_end
  then mret (true, data)
  else mret (false, removelast data).

(** [MeteorObsRMS.__init__].  [half_index] is taken once, from the
    sequence as it was passed in. *)
Definition init (station_code : string) (reference_dt : datetime) (platepar : PlateparDummy)
    (data : list MeteorPointRMS.t) (rel_proc_path : string) : result t :=
  dt ← timedelta_of_mean (map time_rel data);
  let half_index := (length data / 2)%nat in
  '(fov_beg, data1) ← trim_begin platepar data half_index;
  '(fov_end, data2) ← trim_end platepar data1 half_index;
  mret {| station_code := station_code;
          reference_dt := reference_dt;
          platepar := platepar;
          data := data2;
          rel_proc_path := rel_proc_path;
          processed := false;
          paired := false;
          mean_dt := (reference_dt + dt)%Z;
          fov_beg := fov_beg;
          fov_end := fov_end |}.
End MeteorObsRMS.

(** ** RMSDataHandle *)

Definition OUTPUT_TRAJ_DIR : string := "trajectories".
Definition JSON_DB_NAME : string := "processed_trajectories.json".

(** What the [print] calls report. *)
Inductive diag : Type :=
  | UsingStation (dir_name : string)
  | SkippingDirectory (dir_name : string)
  | CouldNotParseDate (night_path : string)
  | SkippedProcessed (skipped_dirs : nat)
  | SkippingMissingData (rel_proc_path : string)
  | LoadedObservation (station_code : string) (reference_dt : datetime) (rel_proc_path : string).

(** *** The station name pattern [^[A-Z]{2}[A-Z0-9]{4}$] *)

Definition is_upper (c : ascii) : bool :=
  let n := nat_of_ascii c in (65 <=? n)%nat && (n <=? 90)%nat.

Definition is_digit (c : ascii) : bool :=
  let n := nat_of_ascii c in (48 <=? n)%nat && (n <=? 57)%nat.

(** [[cls]{n}] at the head of [s]: the rest of [s] after exactly [n]
    characters of the class. *)
Fixpoint re_class_times (cls : ascii → bool) (n : nat) (s : string) : option string :=
  match n with
  | O => Some s
  | S n' =>
      match s with
      | String c s' => if cls c then re_class_times cls n' s' else None
      | EmptyString => None
      end
  end.

(** [$] without [re.MULTILINE]: the end of the string, or the position
    just before a newline that is the last character of the string. *)
Definition re_dollar (s : string) : bool :=
  String.eqb s EmptyString || String.eqb s (String nl EmptyString).

(** [re.match("^[A-Z]{2}[A-Z0-9]{4}$", dir_name)] as a truth value. *)
Definition re_match_station (dir_name : string) : bool :=
  match re_class_times is_upper 2 dir_name with
  | Some rest =>
      match re_class_times (λ c, is_upper c || is_digit c) 4 rest with
      | Some rest' => re_dollar rest'
      | None => false
      end
  | None => false
  end.

(** The loop of [RMSDataHandle.loadStations] over the listing. *)
Fixpoint loadStations_loop (w : World) (dir_path : string) (names : list string)
    (out : list diag) (station_list : list string) : list diag * list string :=
  match names with
  | [] => (out, station_list)
  | dir_name :: rest =>
      if isdir w (path_join dir_path dir_name) then
        if re_match_station dir_name then
          loadStations_loop w dir_path rest
            (out ++ [UsingStation dir_name])%list (station_list ++ [dir_name])%list
        else
          loadStations_loop w dir_path rest
            (out ++ [SkippingDirectory dir_name])%list station_list
      else loadStations_loop w dir_path rest out station_list
  end.

(** [RMSDataHandle.loadStations]: what is printed and the station list. *)
Definition loadStations (w : World) (dir_path : string) : result (list diag * list string) :=
  names ← listdir w dir_path;
  mret (loadStations_loop w dir_path names [] []).

(** *** Processing units *)

(** One entry [[station_name, night_path_rel, night_path, night_dt]] of the
    processing list, with the names the loader gives to its parts. *)
Record ProcessingUnit : Type := {
  station_code : string;
  rel_proc_path : string;
  proc_path : string;
  night_dt : option datetime
}.

(** [s.split(sep)] for a one-character separator. *)
Fixpoint split_on (sep : ascii) (s : string) : list string :=
  match s with
  | EmptyString => [EmptyString]
  | String c s' =>
      if Ascii.eqb c sep then EmptyString :: split_on sep s'
      else
        match split_on sep s' with
        | h :: t => String c h :: t
        | [] => [String c EmptyString]
        end
  end.

(** ["_".join(night_name.split("_")[1:3])]. *)
Definition night_date_text (night_name : string) : string :=
  join_with "_" (take 2 (drop 1 (split_on "_"%char night_name))).

(** The detections of one FF file as [loadFTPDetectInfo] returns them; a
    row is one tuple of the [zip] over the nine data arrays. *)
Module CamsObs.
Record row : Type := {
  frames : Q;
  time_data : Q;
  x_data : Q;
  y_data : Q;
  azim_data : Q;
  elev_data : Q;
  ra_data : Q;
  dec_data : Q;
  mag_data : option Q
}.

Record t : Type := {
  ff_name : string;
  jdt_ref : Q;
  rows : list row
}.
End CamsObs.

(** [name.startswith("FTPdetectinfo") and name.endswith('.txt') and
    (not "backup" in name) and (not "uncalibrated" in name)]. *)
Definition is_ftpdetectinfo (name : string) : bool :=
  startswith "FTPdetectinfo" name && endswith ".txt" name
  && negb (contains "backup" name) && negb (contains "uncalibrated" name).

(** "Find FTPdetectinfo and platepar files": the loop over the listing of
    a data folder; a later match replaces an earlier one. *)
Fixpoint find_data_files (names : list string)
    (ftpdetectinfo_name platepar_recalibrated_name : option string)
    : option string * option string :=
  match names with
  | [] => (ftpdetectinfo_name, platepar_recalibrated_name)
  | name :: rest =>
      if is_ftpdetectinfo name then
        find_data_files rest (Some name) platepar_recalibrated_name
      else if String.eqb name "platepars_all_recalibrated.json" then
        find_data_files rest ftpdetectinfo_name (Some name)
      else find_data_files rest ftpdetectinfo_name platepar_recalibrated_name
  end.

(** "Skip all folders which are outside the limits":
    [(dt_range is not None) and (night_dt is not None)] and then
    [(night_dt < dt_beg) or (night_dt > dt_end)]. *)
Definition outside_dt_range (dt_range : option (datetime * datetime))
    (night_dt : option datetime) : bool :=
  match dt_range, night_dt with
  | Some (dt_beg, dt_end), Some t => (t <? dt_beg)%Z || (t >? dt_end)%Z
  | _, _ => false
  end.

(** The mutable things a data handle works on: the disk, its ledger
    object and the standard output. *)
Record State : Type := {
  world : World;
  db : DatabaseJSON;
  stdout : list diag
}.

Definition print (st : State) (d : diag) : State :=
  {| world := world st; db := db st; stdout := (stdout st ++ [d])%list |}.

Definition set_db (st : State) (d : DatabaseJSON) : State :=
  {| world := world st; db := d; stdout := stdout st |}.

Definition set_world (st : State) (w : World) : State :=
  {| world := w; db := db st; stdout := stdout st |}.

(** [dict[key]] on the platepar dictionary, in the order of the file. *)
Fixpoint dict_getitem {V} (d : list (string * V)) (key : string) : result V :=
  match d with
  | [] => Raise KeyError
  | (k, v) :: rest => if String.eqb k key then Ok v else dict_getitem rest key
  end.

Section Collaborators.

(** Code outside this file: [datetime.strptime(_, "%Y%m%d_%H%M%S")]
    ([None] when it raises), [json.load] on the platepar file, the
    FTPdetectinfo reader of [wmpl.Formats.CAMS], [np.radians],
    [np.degrees] and [jd2Date(_, dt_obj=True)]. *)
Variable strptime : string → option datetime.
Variable json_load_platepars : string → result (list (string * PlateparDummy)).
Variable loadFTPDetectInfo : World → string → string → Q → Q → Q → result (list CamsObs.t).
Variable np_radians np_degrees : Q → Q.
Variable jd2Date : Q → datetime.

(** The inner loop of [findUnprocessedFolders], over the night folders
    of one station. *)
Fixpoint findUnprocessedFolders_nights (dir_path station_name : string)
    (processed : list string) (night_names : list string)
    (out : list diag) (processing_list : list ProcessingUnit) (skipped_dirs : nat)
    : list diag * list ProcessingUnit * nat :=
  match night_names with
  | [] => (out, processing_list, skipped_dirs)
  | night_name :: rest =>
      let station_path := path_join dir_path station_name in
      let night_path := path_join station_path night_name in
      let night_path_rel := path_join station_name night_name in
      let night_dt := strptime (night_date_text night_name) in
      let out' :=
        match night_dt with
        | Some _ => out
        | None => (out ++ [CouldNotParseDate night_path])%list
        end in
      if bool_decide (night_path_rel ∈ processed) then
        findUnprocessedFolders_nights dir_path station_name processed rest
          out' processing_list (S skipped_dirs)
      else
        findUnprocessedFolders_nights dir_path station_name processed rest
          out'
          (processing_list ++
             [{| station_code := station_name; rel_proc_path := night_path_rel;
                 proc_path := night_path; night_dt := night_dt |}])%list
          skipped_dirs
  end.

(** "Add the station name to the database if it doesn't exist". *)
Definition register_station (self : DatabaseJSON) (station_name : string) : DatabaseJSON :=
  match processed_dirs self !! station_name with
  | Some _ => self
  | None => set_processed_dirs self (<[station_name := []]> (processed_dirs self))
  end.

(** The outer loop of [findUnprocessedFolders], over the stations. *)
Fixpoint findUnprocessedFolders_loop (dir_path : string) (station_list : list string)
    (st : State) (processing_list : list ProcessingUnit) (skipped_dirs : nat)
    : State * result (list ProcessingUnit * nat) :=
  match station_list with
  | [] => (st, Ok (processing_list, skipped_dirs))
  | station_name :: rest =>
      let st1 := set_db st (register_station (db st) station_name) in
      match listdir (world st1) (path_join dir_path station_name) with
      | Raise e => (st1, Raise e)
      | Ok night_names =>
          let '(out, pl, sk) :=
            findUnprocessedFolders_nights dir_path station_name
              (default [] (processed_dirs (db st1) !! station_name))
              night_names (stdout st1) processing_list skipped_dirs in
          findUnprocessedFolders_loop dir_path rest
            {| world := world st1; db := db st1; stdout := out |} pl sk
      end
  end.

(** [RMSDataHandle.findUnprocessedFolders]. *)
Definition findUnprocessedFolders (dir_path : string) (station_list : list string)
    (st : State) : State * result (list ProcessingUnit) :=
  match findUnprocessedFolders_loop dir_path station_list st [] 0 with
  | (st', Ok (processing_list, skipped_dirs)) =>
      (match skipped_dirs with
       | O => st'
       | S _ => print st' (SkippedProcessed skipped_dirs)
       end, Ok processing_list)
  | (st', Raise e) => (st', Raise e)
  end.

(** [RMSDataHandle.initMeteorObs]: the station coordinates come from the
    first platepar of the dictionary; with no platepar there is nothing
    to load. *)
Definition initMeteorObs (w : World) (station_code ftpdetectinfo_path : string)
    (platepars_recalibrated_dict : list (string * PlateparDummy))
    : result (list CamsObs.t) :=
  match platepars_recalibrated_dict with
  | (_, pp) :: _ =>
      loadFTPDetectInfo w ftpdetectinfo_path station_code
        (np_radians (lat pp)) (np_radians (lon pp)) (elev pp)
  | [] => Ok []
  end.

(** [MeteorPointRMS(frame, time_rel, x, y, np.degrees(ra), np.degrees(dec),
    np.degrees(azim), np.degrees(alt), mag)]. *)
Definition make_point (entry : CamsObs.row) : MeteorPointRMS.t :=
  {| MeteorPointRMS.frame := CamsObs.frames entry;
     MeteorPointRMS.time_rel := CamsObs.time_data entry;
     MeteorPointRMS.x := CamsObs.x_data entry;
     MeteorPointRMS.y := CamsObs.y_data entry;
     MeteorPointRMS.ra := np_degrees (CamsObs.ra_data entry);
     MeteorPointRMS.dec := np_degrees (CamsObs.dec_data entry);
     MeteorPointRMS.azim := np_degrees (CamsObs.azim_data entry);
     MeteorPointRMS.alt := np_degrees (CamsObs.elev_data entry);
     MeteorPointRMS.intensity_sum := None;
     MeteorPointRMS.mag := CamsObs.mag_data entry |}.

(** "Format the observation object to the one required by the trajectory
    correlator": the loop over the detections of one folder. *)
Fixpoint format_observations (unit : ProcessingUnit)
    (platepars_recalibrated_dict : list (string * PlateparDummy))
    (cams_met_obs_list : list CamsObs.t) (st : State) (acc : list MeteorObsRMS.t)
    : State * result (list MeteorObsRMS.t) :=
  match cams_met_obs_list with
  | [] => (st, Ok acc)
  | cams_met_obs :: rest =>
      match dict_getitem platepars_recalibrated_dict (CamsObs.ff_name cams_met_obs) with
      | Raise e => (st, Raise e)
      | Ok pp =>
          match MeteorObsRMS.init (station_code unit) (jd2Date (CamsObs.jdt_ref cams_met_obs))
                  pp (map make_point (CamsObs.rows cams_met_obs)) (rel_proc_path unit) with
          | Raise e => (st, Raise e)
          | Ok met_obs =>
              format_observations unit platepars_recalibrated_dict rest
                (print st (LoadedObservation (station_code unit)
                             (MeteorObsRMS.reference_dt met_obs) (rel_proc_path unit)))
                (acc ++ [met_obs])%list
          end
      end
  end.

(** The body of the loop of [loadUnprocessedObservations] for a folder
    that passed the time filter; [acc] is [met_obs_list] so far. *)
Definition load_unit (unit : ProcessingUnit) (st : State) (acc : list MeteorObsRMS.t)
    : State * result (list MeteorObsRMS.t) :=
  match listdir (world st) (proc_path unit) with
  | Raise e => (st, Raise e)
  | Ok names =>
      match find_data_files names None None with
      | (Some ftpdetectinfo_name, Some platepar_recalibrated_name) =>
          (* self.db.save() *)
          let st1 := set_world st (save (db st) (world st)) in
          match read_file (world st1) (path_join (proc_path unit) platepar_recalibrated_name)
                  ≫= json_load_platepars with
          | Raise e => (st1, Raise e)
          | Ok platepars_recalibrated_dict =>
              match initMeteorObs (world st1) (station_code unit)
                      (path_join (proc_path unit) ftpdetectinfo_name)
                      platepars_recalibrated_dict with
              | Raise e => (st1, Raise e)
              | Ok cams_met_obs_list =>
                  format_observations unit platepars_recalibrated_dict
                    cams_met_obs_list st1 acc
              end
          end
      | _ =>
          (* print, self.db.addProcessedDir(station_code, rel_proc_path), continue *)
          let st1 := print st (SkippingMissingData (rel_proc_path unit)) in
          (set_db st1 (addProcessedDir (db st1) (station_code unit) (rel_proc_path unit)),
           Ok acc)
      end
  end.

(** [RMSDataHandle.loadUnprocessedObservations]: the loop over the
    processing list. *)
Fixpoint loadUnprocessedObservations_loop (processing_list : list ProcessingUnit)
    (dt_range : option (datetime * datetime)) (st : State) (met_obs_list : list MeteorObsRMS.t)
    : State * result (list MeteorObsRMS.t) :=
  match processing_list with
  | [] => (st, Ok met_obs_list)
  | unit :: rest =>
      if outside_dt_range dt_range (night_dt unit) then
        loadUnprocessedObservations_loop rest dt_range st met_obs_list
      else
        match load_unit unit st met_obs_list with
        | (st', Ok met_obs_list') =>
            loadUnprocessedObservations_loop rest dt_range st' met_obs_list'
        | (st', Raise e) => (st', Raise e)
        end
  end.

Definition loadUnprocessedObservations (processing_list : list ProcessingUnit)
    (dt_range : option (datetime * datetime)) (st : State)
    : State * result (list MeteorObsRMS.t) :=
  loadUnprocessedObservations_loop processing_list dt_range st [].

End Collaborators.

(** [timedelta.total_seconds()] of a difference of two datetimes: the
    quotient of the microseconds by 10^6 as a float. *)
Definition total_seconds (microseconds : Z) : float :=
  float_of_Q (microseconds # 1000000).

(** The loop of [RMSDataHandle.findTimePairs]. *)
Fixpoint findTimePairs_loop (met_obs : MeteorObsRMS.t)
    (unprocessed_observations : list MeteorObsRMS.t) (max_toffset : Q)
    (found_pairs : list MeteorObsRMS.t) : list MeteorObsRMS.t :=
  match unprocessed_observations with
  | [] => found_pairs
  | met_obs2 :: rest =>
      if String.eqb (MeteorObsRMS.station_code met_obs) (MeteorObsRMS.station_code met_obs2)
      then findTimePairs_loop met_obs rest max_toffset found_pairs
      else if float_le
                (fabs (total_seconds (MeteorObsRMS.mean_dt met_obs - MeteorObsRMS.mean_dt met_obs2)))
                max_toffset
      then findTimePairs_loop met_obs rest max_toffset (found_pairs ++ [met_obs2])%list
      else findTimePairs_loop met_obs rest max_toffset found_pairs
  end.

Definition findTimePairs (met_obs : MeteorObsRMS.t)
    (unprocessed_observations : list MeteorObsRMS.t) (max_toffset : Q) : list MeteorObsRMS.t :=
  findTimePairs_loop met_obs unprocessed_observations max_toffset [].

(** [RMSDataHandle.markObservationAsProcessed]. *)
Definition markObservationAsProcessed (self_db : DatabaseJSON) (met_obs : MeteorObsRMS.t)
    : DatabaseJSON :=
  addProcessedDir self_db (MeteorObsRMS.station_code met_obs) (MeteorObsRMS.rel_proc_path met_obs).

(** [RMSDataHandle.finish]. *)
Definition finish (st : State) : State := set_world st (save (db st) (world st)).

(** ** The data model invariant and the wording of the specification *)

(** "sequence ordered by frame_index, strictly increasing". *)
Fixpoint frames_increasing (data : list MeteorPointRMS.t) : bool :=
  match data with
  | p :: (q :: _) as rest =>
      Qlt_bool (MeteorPointRMS.frame p) (MeteorPointRMS.frame q) && frames_increasing rest
  | _ => true
  end.

(** "two uppercase letters followed by four uppercase-letter-or-digit
    characters", with nothing before or after. *)
Definition is_station_code (name : string) : bool :=
  match list_ascii_of_string name with
  | [a; b; c; d; e; f] =>
      is_upper a && is_upper b
      && forallb (λ ch, is_upper ch || is_digit ch) [c; d; e; f]
  | _ => false
  end.

(** "station differs from observation's station and whose mean-timestamp
    absolute difference from observation's mean timestamp is at most
    max_time_offset seconds", the difference in seconds being the float
    that [total_seconds] gives. *)
Definition is_time_pair (met_obs : MeteorObsRMS.t) (max_time_offset : Q)
    (met_obs2 : MeteorObsRMS.t) : bool :=
  negb (String.eqb (MeteorObsRMS.station_code met_obs) (MeteorObsRMS.station_code met_obs2))
  && float_le
       (fabs (total_seconds (MeteorObsRMS.mean_dt met_obs - MeteorObsRMS.mean_dt met_obs2)))
       max_time_offset.

(** A unit the time filter lets through. *)
Definition in_dt_range (dt_range : option (datetime * datetime)) (unit : ProcessingUnit) : bool :=
  negb (outside_dt_range dt_range (night_dt unit)).

(** What the loop of [loadStations] prints for one name, and whether it
    keeps the name. *)
Definition station_diag (w : World) (dir_path dir_name : string) : list diag :=
  if isdir w (path_join dir_path dir_name) then
    if re_match_station dir_name then [UsingStation dir_name]
    else [SkippingDirectory dir_name]
  else [].

Definition station_accepted (w : World) (dir_path dir_name : string) : bool :=
  isdir w (path_join dir_path dir_name) && re_match_station dir_name.

(** ** Sample data *)

Definition db_old : DatabaseJSON :=
  {| db_file_path := "/data/processed_trajectories.json";
     processed_dirs := {[ "HR0001" := ["HR0001/HR0001_20190707_192835_241084_detected"] ]};
     trajectories := ∅ |}.

Definition db_new : DatabaseJSON :=
  addProcessedDir db_old "HR0001" "HR0001/HR0001_20190708_193001_112233_detected".

Definition world_old : World := save db_old {| files := ∅; dirs := ∅ |}.

(** A pick at frame [f] (25 frames per second) and pixel [(px, py)]. *)
Definition pick (f px py : Q) : MeteorPointRMS.t :=
  {| MeteorPointRMS.frame := f;
     MeteorPointRMS.time_rel := (f / 25)%Q;
     MeteorPointRMS.x := px;
     MeteorPointRMS.y := py;
     MeteorPointRMS.ra := 0;
     MeteorPointRMS.dec := 0;
     MeteorPointRMS.azim := 0;
     MeteorPointRMS.alt := 0;
     MeteorPointRMS.intensity_sum := None;
     MeteorPointRMS.mag := None |}.

Definition pp_720x576 : PlateparDummy :=
  {| X_res := 720; Y_res := 576; lat := 45; lon := 16; elev := 90 |}.

(** Five picks moving by (5, 5) pixels a frame from (5, 20): the point two
    frames before the first pick is (-5, 10). *)
Definition picks_from_outside : list MeteorPointRMS.t :=
  [pick 10 5 20; pick 11 10 25; pick 12 15 30; pick 13 20 35; pick 14 25 40].

(** The same motion from (110, 110): the point before the first is (100, 100). *)
Definition picks_inside : list MeteorPointRMS.t :=
  [pick 10 110 110; pick 11 115 115; pick 12 120 120; pick 13 125 125; pick 14 130 130].

(** Five picks moving by (-5, 5) a frame from (710, 20): the point before
    the first is (720, 10), on the right-hand edge [x = X_res]. *)
Definition picks_from_right_edge : list MeteorPointRMS.t :=
  [pick 10 710 20; pick 11 705 25; pick 12 700 30; pick 13 695 35; pick 14 690 40].

(** Five picks moving by (5, 5) a frame towards (720, 576): the point two
    frames after the last pick is (720, 576), the corner. *)
Definition picks_to_corner : list MeteorPointRMS.t :=
  [pick 10 690 546; pick 11 695 551; pick 12 700 556; pick 13 705 561; pick 14 710 566].

(** Five picks moving by (5, -5) a frame from (110, 566): the point before
    the first is (100, 576), on the lower edge [y = Y_res]. *)
Definition picks_from_bottom_edge : list MeteorPointRMS.t :=
  [pick 10 110 566; pick 11 115 561; pick 12 120 556; pick 13 125 551; pick 14 130 546].

(** Three picks in a row of the image, 7 frames apart, the first at the
    float nearest to 112/9, the others at 56 and 100: in exact arithmetic
    the point before the first would lie just right of [x = 0], in float
    arithmetic it lies on it. *)
Definition picks_from_left_edge : list MeteorPointRMS.t :=
  [pick 10 (7005599420354105 # 562949953421312) 100; pick 17 56 100; pick 24 100 100].

(** Two picks whose predicted point before the first is (-5, 10). *)
Definition two_picks_from_outside : list MeteorPointRMS.t :=
  [pick 10 5 20; pick 11 10 25].

(** Six picks of a track that speeds up and slows down again;
    [len(data)//2] is 3.  The point before the first pick, from the picks
    at 0 and 3, is left of the image.  After the last pick, the picks at 4
    and 5 predict (710, 55), inside the image, and the picks at 3 and 5
    would predict (800, 55), outside. *)
Definition six_picks_slowing_down : list MeteorPointRMS.t :=
  [pick 10 5 20; pick 11 10 25; pick 12 15 30; pick 13 600 35; pick 14 695 40;
   pick 15 700 45].

(** An observation of [station] whose mean time is [seconds] after the epoch. *)
Definition obs_at (station : string) (seconds : Z) : MeteorObsRMS.t :=
  {| MeteorObsRMS.station_code := station;
     MeteorObsRMS.reference_dt := (seconds * 1000000)%Z;
     MeteorObsRMS.platepar := pp_720x576;
     MeteorObsRMS.data := picks_inside;
     MeteorObsRMS.rel_proc_path := path_join station "night";
     MeteorObsRMS.processed := false;
     MeteorObsRMS.paired := false;
     MeteorObsRMS.mean_dt := (seconds * 1000000)%Z;
     MeteorObsRMS.fov_beg := true;
     MeteorObsRMS.fov_end := true |}.

Definition obs_A : MeteorObsRMS.t := obs_at "AB0001" 100.
Definition obs_B : MeteorObsRMS.t := obs_at "AB0002" 104.
Definition obs_C : MeteorObsRMS.t := obs_at "AB0003" 200.

(** An observation of a fourth station, 0.3 s after [obs_A]. *)
Definition obs_D : MeteorObsRMS.t :=
  {| MeteorObsRMS.station_code := "AB0004";
     MeteorObsRMS.reference_dt := 100000000%Z;
     MeteorObsRMS.platepar := pp_720x576;
     MeteorObsRMS.data := picks_inside;
     MeteorObsRMS.rel_proc_path := path_join "AB0004" "night";
     MeteorObsRMS.processed := false;
     MeteorObsRMS.paired := false;
     MeteorObsRMS.mean_dt := 100300000%Z;
     MeteorObsRMS.fov_beg := true;
     MeteorObsRMS.fov_end := true |}.

(** A root directory with the four names of the specification as
    directories and the ledger file next to them. *)
Definition world_stations : World :=
  {| files := {[ "/data/processed_trajectories.json" := dumps db_old ]};
     dirs := {[ "/data" := ["AB1234"; "ab1234"; "A1234"; "ABCDEFG";
                            "processed_trajectories.json"];
                "/data/AB1234" := [];
                "/data/ab1234" := [];
                "/data/A1234" := [];
                "/data/ABCDEFG" := [] ]} |}.

(** A directory name that is a station code followed by a newline. *)
Definition name_with_newline : string := "AB1234" ++ String nl EmptyString.

Definition world_newline : World :=
  {| files := ∅;
     dirs := {[ "/data" := [name_with_newline];
                path_join "/data" name_with_newline := [] ]} |}.

(** A night folder of station AB1234 that holds an FTPdetectinfo file but no
    [platepars_all_recalibrated.json]; the ledger on disk and in memory
    knows the station and none of its folders. *)
Definition db_before : DatabaseJSON :=
  {| db_file_path := "/data/processed_trajectories.json";
     processed_dirs := {[ "AB1234" := [] ]};
     trajectories := ∅ |}.

Definition broken_unit : ProcessingUnit :=
  {| station_code := "AB1234";
     rel_proc_path := "AB1234/AB1234_20190707_192835_241084_detected";
     proc_path := "/data/AB1234/AB1234_20190707_192835_241084_detected";
     night_dt := None |}.

Definition world_broken : World :=
  {| files := {[ "/data/processed_trajectories.json" := dumps db_before;
                 "/data/AB1234/AB1234_20190707_192835_241084_detected/FTPdetectinfo_AB1234_20190707_192835_241084.txt"
                   := "Meteor Count = 000000" ]};
     dirs := {[ "/data" := ["AB1234"; "processed_trajectories.json"];
                "/data/AB1234" := ["AB1234_20190707_192835_241084_detected"];
                "/data/AB1234/AB1234_20190707_192835_241084_detected"
                  := ["FTPdetectinfo_AB1234_20190707_192835_241084.txt"] ]} |}.

Definition state_broken : State :=
  {| world := world_broken; db := db_before; stdout := [] |}.

(** ** Vocabulary of the further properties *)

(** The paths the ledger holds for a station; none when the station is no
    key of [processed_dirs]. *)
Definition recorded (self : DatabaseJSON) (station_name : string) : list string :=
  default [] (processed_dirs self !! station_name).

(** The unit [findUnprocessedFolders] makes of a night folder of a station,
    and what it prints when the date of the folder does not parse. *)
Definition night_unit (strptime : string → option datetime)
    (dir_path station_name night_name : string) : ProcessingUnit :=
  {| station_code := station_name;
     rel_proc_path := path_join station_name night_name;
     proc_path := path_join (path_join dir_path station_name) night_name;
     night_dt := strptime (night_date_text night_name) |}.

Definition night_diag (strptime : string → option datetime)
    (dir_path station_name night_name : string) : list diag :=
  match strptime (night_date_text night_name) with
  | Some _ => []
  | None => [CouldNotParseDate (path_join (path_join dir_path station_name) night_name)]
  end.

(** Whether the ledger holds the relative path of a night folder. *)
Definition is_recorded (self : DatabaseJSON) (station_name night_name : string) : bool :=
  bool_decide (path_join station_name night_name ∈ recorded self station_name).

(** The listing of a station directory ([[]] when it cannot be listed). *)
Definition station_nights (w : World) (dir_path station_name : string) : list string :=
  default [] (dirs w !! path_join dir_path station_name).

(** The night folders of a station that the ledger does not hold, as units. *)
Definition station_units (strptime : string → option datetime) (w : World)
    (self : DatabaseJSON) (dir_path station_name : string) : list ProcessingUnit :=
  map (night_unit strptime dir_path station_name)
      (List.filter (λ night_name, negb (is_recorded self station_name night_name))
                   (station_nights w dir_path station_name)).

(** The number of night folders of a station that the ledger holds. *)
Definition station_skipped (w : World) (self : DatabaseJSON)
    (dir_path station_name : string) : nat :=
  length (List.filter (is_recorded self station_name)
                      (station_nights w dir_path station_name)).

(** The point two frames after the pick [pl], predicted in float
    arithmetic with the pixel velocity per frame between the picks [ph]
    and [pl]. *)
Definition end_point (pl ph : MeteorPointRMS.t) : result (float * float) :=
  dxdf ← truediv (fsub (float_of_Q (MeteorPointRMS.x pl)) (float_of_Q (MeteorPointRMS.x ph)))
                 (fsub (float_of_Q (MeteorPointRMS.frame pl))
                       (float_of_Q (MeteorPointRMS.frame ph)));
  dydf ← truediv (fsub (float_of_Q (MeteorPointRMS.y pl)) (float_of_Q (MeteorPointRMS.y ph)))
                 (fsub (float_of_Q (MeteorPointRMS.frame pl))
                       (float_of_Q (MeteorPointRMS.frame ph)));
  mret (fadd (float_of_Q (MeteorPointRMS.x pl)) (fmul (float_of_Q 2) dxdf),
        fadd (float_of_Q (MeteorPointRMS.y pl)) (fmul (float_of_Q 2) dydf)).

(** A date parser that rejects every text, for the examples. *)
Definition no_date : string → option datetime := λ _, None.

(** What the loader does with one detection of a folder: the platepar of
    its FF file, then [MeteorObsRMS.__init__] on its picks; and the line
    printed for the observation built. *)
Definition format_one (np_degrees : Q → Q) (jd2Date : Q → datetime) (unit : ProcessingUnit)
    (platepars_recalibrated_dict : list (string * PlateparDummy))
    (cams_met_obs : CamsObs.t) : result MeteorObsRMS.t :=
  pp ← dict_getitem platepars_recalibrated_dict (CamsObs.ff_name cams_met_obs);
  MeteorObsRMS.init (station_code unit) (jd2Date (CamsObs.jdt_ref cams_met_obs)) pp
    (map (make_point np_degrees) (CamsObs.rows cams_met_obs)) (rel_proc_path unit).

Definition loaded_line (unit : ProcessingUnit) (met_obs : MeteorObsRMS.t) : diag :=
  LoadedObservation (station_code unit) (MeteorObsRMS.reference_dt met_obs)
    (rel_proc_path unit).

(** Stand-ins for the collaborators of the loader, for the examples: one
    detection with the picks of [picks_inside], a platepar file that holds
    the platepar of its FF file, one that holds an empty dictionary, angles
    left as they are and a fixed reference time. *)
Definition sample_ff_name : string := "FF_AB1234_20190708_193001_112_0000000.fits".

Definition sample_row (p : MeteorPointRMS.t) : CamsObs.row :=
  {| CamsObs.frames := MeteorPointRMS.frame p;
     CamsObs.time_data := MeteorPointRMS.time_rel p;
     CamsObs.x_data := MeteorPointRMS.x p;
     CamsObs.y_data := MeteorPointRMS.y p;
     CamsObs.azim_data := 0;
     CamsObs.elev_data := 0;
     CamsObs.ra_data := 0;
     CamsObs.dec_data := 0;
     CamsObs.mag_data := None |}.

Definition sample_detection (ff_name : string) : CamsObs.t :=
  {| CamsObs.ff_name := ff_name;
     CamsObs.jdt_ref := 2458673;
     CamsObs.rows := map sample_row picks_inside |}.

Definition sample_platepars : string → result (list (string * PlateparDummy)) :=
  λ _, Ok [(sample_ff_name, pp_720x576)].

Definition empty_platepars : string → result (list (string * PlateparDummy)) :=
  λ _, Ok [].

Definition sample_loadFTPDetectInfo
    : World → string → string → Q → Q → Q → result (list CamsObs.t) :=
  λ _ _ _ _ _ _, Ok [sample_detection sample_ff_name].

Definition same_angle : Q → Q := λ q, q.

Definition sample_jd2Date : Q → datetime := λ _, 0%Z.

(** A night folder of station AB1234 with both data files, next to the one
    of [world_broken] that lacks its platepar file. *)
Definition good_unit : ProcessingUnit :=
  {| station_code := "AB1234";
     rel_proc_path := "AB1234/AB1234_20190708_193001_112233_detected";
     proc_path := "/data/AB1234/AB1234_20190708_193001_112233_detected";
     night_dt := None |}.

Definition world_two : World :=
  {| files :=
       {[ "/data/processed_trajectories.json" := dumps db_before;
          "/data/AB1234/AB1234_20190707_192835_241084_detected/FTPdetectinfo_AB1234_20190707_192835_241084.txt"
            := "Meteor Count = 000000";
          "/data/AB1234/AB1234_20190708_193001_112233_detected/FTPdetectinfo_AB1234_20190708_193001_112233.txt"
            := "Meteor Count = 000001";
          "/data/AB1234/AB1234_20190708_193001_112233_detected/platepars_all_recalibrated.json"
            := "{}" ]};
     dirs :=
       {[ "/data" := ["AB1234"; "processed_trajectories.json"];
          "/data/AB1234" := ["AB1234_20190707_192835_241084_detected";
                             "AB1234_20190708_193001_112233_detected"];
          "/data/AB1234/AB1234_20190707_192835_241084_detected"
            := ["FTPdetectinfo_AB1234_20190707_192835_241084.txt"];
          "/data/AB1234/AB1234_20190708_193001_112233_detected"
            := ["FTPdetectinfo_AB1234_20190708_193001_112233.txt";
                "platepars_all_recalibrated.json"] ]} |}.

Definition state_two : State :=
  {| world := world_two; db := db_before; stdout := [] |}.

(** A reader whose one detection names an FF file that has no platepar. *)
Definition stray_loadFTPDetectInfo
    : World → string → string → Q → Q → Q → result (list CamsObs.t) :=
  λ _ _ _ _ _ _, Ok [sample_detection "FF_AB1234_20190708_200000_000_0000000.fits"].

(** *** The time limits of the data, from the script body *)

(** [datetime.datetime(2000, 1, 1, 0, 0, 0)], counted from 0001-01-01. *)
Definition datetime_2000_01_01 : datetime := (730119 * 86400 * 1000000)%Z.

(** [min(l)] and [max(l)]; ValueError on an empty list. *)
Definition py_min (l : list Z) : result Z :=
  match l with
  | [] => Raise ValueError
  | a :: rest => Ok (foldl Z.min a rest)
  end.

Definition py_max (l : list Z) : result Z :=
  match l with
  | [] => Raise ValueError
  | a :: rest => Ok (foldl Z.max a rest)
  end.

(** "Find the range of datetimes of all folders (take only those after the
    year 2000)": the two list comprehensions on [dh.processing_list]. *)
Definition proc_dir_dts (processing_list : list ProcessingUnit) : list datetime :=
  List.filter (λ dt, (dt >? datetime_2000_01_01)%Z) (omap night_dt processing_list).

(** "Determine the limits of data": [proc_dir_dt_beg] and [proc_dir_dt_end]. *)
Definition proc_dir_dt_limits (processing_list : list ProcessingUnit)
    : result (datetime * datetime) :=
  proc_dir_dt_beg ← py_min (proc_dir_dts processing_list);
  proc_dir_dt_end ← py_max (proc_dir_dts processing_list);
  mret (proc_dir_dt_beg, proc_dir_dt_end).

(** Whether a character occurs in a string. *)
Fixpoint has_char (c : ascii) (s : string) : bool :=
  match s with
  | EmptyString => false
  | String c' s' => Ascii.eqb c' c || has_char c s'
  end.

(** A folder that lacks its FTPdetectinfo file or its platepar file. *)
Definition lacks_data_files (w : World) (unit : ProcessingUnit) : Prop :=
  ∃ names, dirs w !! proc_path unit = Some names
           ∧ ((find_data_files names None None).1 = None
              ∨ (find_data_files names None None).2 = None).

(** * Properties *)

#[local] Arguments Nat.div _ _ : simpl never.
#[local] Arguments fadd _ _ : simpl never.
#[local] Arguments fsub _ _ : simpl never.
#[local] Arguments fmul _ _ : simpl never.
#[local] Arguments fdiv _ _ : simpl never.
#[local] Arguments float_of_Q _ : simpl never.

Lemma bind_Ok {A B} (a : A) (f : A → result B) : Ok a ≫= f = f a.
Proof. reflexivity. Qed.


(** ** The ledger *)

Section Ledger.

Implicit Types (self : DatabaseJSON) (w : World).

Lemma addProcessedDir_registered self station_name rel_proc_path paths :
  processed_dirs self !! station_name = Some paths →
  ∃ paths', processed_dirs (addProcessedDir self station_name rel_proc_path) !! station_name
              = Some paths'
            ∧ rel_proc_path ∈ paths'.
Proof.
  intros Hreg. unfold addProcessedDir. rewrite Hreg.
  case_bool_decide as Hin.
  - exists paths. by rewrite Hreg.
  - exists (paths ++ [rel_proc_path])%list. simpl.
    rewrite lookup_insert_eq. split; [done|]. set_solver.
Qed.

Lemma register_station_lookup self station_name :
  is_Some (processed_dirs (register_station self station_name) !! station_name).
Proof.
  unfold register_station.
  destruct (processed_dirs self !! station_name) as [paths|] eqn:E.
  - rewrite E. by eexists.
  - simpl. rewrite lookup_insert_eq. by eexists.
Qed.

Lemma addProcessedDir_idempotent self station_name rel_proc_path :
  addProcessedDir (addProcessedDir self station_name rel_proc_path) station_name rel_proc_path
  = addProcessedDir self station_name rel_proc_path.
Proof.
  destruct (processed_dirs self !! station_name) as [paths|] eqn:E.
  - destruct (decide (rel_proc_path ∈ paths)) as [Hin|Hin].
    + unfold addProcessedDir. rewrite E, bool_decide_eq_true_2 by done.
      by rewrite E, bool_decide_eq_true_2.
    + unfold addProcessedDir. rewrite E, bool_decide_eq_false_2 by done.
      simpl. rewrite lookup_insert_eq.
      rewrite bool_decide_eq_true_2; [done|]. set_solver.
  - unfold addProcessedDir. by rewrite !E.
Qed.

Lemma dumps_nonempty self : dumps self ≠ EmptyString.
Proof. unfold dumps, json_object. simpl. discriminate. Qed.

Lemma save_file self w :
  files (save self w) !! db_file_path self = Some (dumps self).
Proof.
  unfold save, save_ops, fs_run. simpl.
  rewrite lookup_insert_eq. simpl. by rewrite lookup_insert_eq.
Qed.

Lemma save_other_files self w p :
  p ≠ db_file_path self → files (save self w) !! p = files w !! p.
Proof.
  intros Hne. unfold save, save_ops, fs_run. simpl.
  by rewrite !lookup_insert_ne.
Qed.

(** What the commented-out body of [addTrajectory] would do: an insert
    that keeps the value already stored under the key. *)
Lemma addTrajectory_commented_out_spec self traj :
  trajectories (addTrajectory_commented_out self traj) !! Trajectory.jdt_ref traj
  = Some (default (Trajectory.toJSON traj) (trajectories self !! Trajectory.jdt_ref traj)).
Proof.
  unfold addTrajectory_commented_out.
  destruct (trajectories self !! Trajectory.jdt_ref traj) as [v|] eqn:E.
  - by rewrite E.
  - simpl. by rewrite lookup_insert_eq.
Qed.

End Ledger.

(** C1, as stated, fails: with the old ledger file on disk, a [save] of the
    new state that is cut short after its [open(..., 'w')] leaves a ledger
    file that is neither the old complete file nor the new complete one. *)
Lemma save_not_atomic :
  files world_old !! db_file_path db_new = Some (dumps db_old)
  ∧ files (save db_new world_old) !! db_file_path db_new = Some (dumps db_new)
  ∧ files (save_interrupted 1 db_new world_old) !! db_file_path db_new ≠ Some (dumps db_old)
  ∧ files (save_interrupted 1 db_new world_old) !! db_file_path db_new ≠ Some (dumps db_new).
Proof.
  assert (Hcut : files (save_interrupted 1 db_new world_old) !! db_file_path db_new
                 = Some EmptyString).
  { unfold save_interrupted, save_ops, fs_run. simpl. by rewrite lookup_insert_eq. }
  split; [apply (save_file db_old)|].
  split; [apply save_file|].
  rewrite Hcut. split; intros [= H]; symmetry in H; revert H; apply dumps_nonempty.
Qed.

(** C1, amended: [save] works in place on the ledger path.  It opens that
    path for writing, which empties the file, and then writes the
    serialised state into it; there is no temporary file and no rename.  A
    [save] that runs to its end leaves exactly the new serialisation in the
    ledger file; at no point is another file or a directory touched; one
    cut short after the open leaves the ledger file empty, which is never
    the new complete file, and not the old one unless that was empty. *)
Theorem save_in_place (self : DatabaseJSON) (w : World) :
  save_ops self = [OpenForWriting (db_file_path self);
                   WriteAndClose (db_file_path self) (dumps self)]
  ∧ save_interrupted 0 self w = w
  ∧ files (save_interrupted 1 self w) !! db_file_path self = Some EmptyString
  ∧ save_interrupted 2 self w = save self w
  ∧ files (save self w) !! db_file_path self = Some (dumps self)
  ∧ (∀ k p, p ≠ db_file_path self →
       files (save_interrupted k self w) !! p = files w !! p)
  ∧ (∀ k, dirs (save_interrupted k self w) = dirs w)
  ∧ dumps self ≠ EmptyString
  ∧ (∀ old, files w !! db_file_path self = Some old → old ≠ EmptyString →
       files (save_interrupted 1 self w) !! db_file_path self
       ≠ files w !! db_file_path self).
Proof.
  assert (Hcut : files (save_interrupted 1 self w) !! db_file_path self = Some EmptyString).
  { unfold save_interrupted, save_ops, fs_run. simpl. by rewrite lookup_insert_eq. }
  split; [done|]. split; [done|]. split; [exact Hcut|]. split; [done|].
  split; [apply save_file|].
  split.
  { intros k p Hp. destruct k as [|[|[|k]]]; [done| |by apply save_other_files..].
    unfold save_interrupted, save_ops, fs_run. simpl. by rewrite lookup_insert_ne. }
  split; [by intros [|[|[|k]]]|].
  split; [apply dumps_nonempty|].
  intros old Hold Hne. rewrite Hcut, Hold. by intros [= <-].
Qed.

(** C2 (recording a trajectory inserts its key and keeps a value already
    stored under it): the code does not insert.  [addTrajectory], whose
    docstring is "Add a computed trajectory to the list", returns the
    ledger as it got it, so a key that was absent is still absent after the
    call; the two lines left as a comment would have stored it. *)
Theorem addTrajectory_records_nothing :
  (∀ (self : DatabaseJSON) (traj : Trajectory.t) (met_obs_list : list MeteorObsRMS.t),
     addTrajectory self traj met_obs_list = self)
  ∧ (let self := {| db_file_path := "/data/processed_trajectories.json";
                    processed_dirs := ∅; trajectories := ∅ |} in
     let traj := {| Trajectory.jdt_ref := "2458672.311458"; Trajectory.toJSON := "{}" |} in
     trajectories (addTrajectory self traj ([] : list MeteorObsRMS.t)) !! Trajectory.jdt_ref traj
     = None
     ∧ trajectories (addTrajectory_commented_out self traj) !! Trajectory.jdt_ref traj
       = Some "{}").
Proof.
  split; [done|]. simpl. split; [done|].
  by vm_compute.
Qed.

(** C9: [addProcessedDir] with a station that is not a key of
    [processed_dirs] leaves the whole ledger as it was: no key is created,
    the path is not recorded, nothing is raised.  After the registration
    that [findUnprocessedFolders] makes, the same call records the path. *)
Theorem addProcessedDir_unregistered_station
    (self : DatabaseJSON) (station_name rel_proc_path : string) :
  processed_dirs self !! station_name = None →
  addProcessedDir self station_name rel_proc_path = self
  ∧ processed_dirs (addProcessedDir self station_name rel_proc_path) !! station_name = None
  ∧ ∃ paths,
      processed_dirs (addProcessedDir (register_station self station_name)
                        station_name rel_proc_path) !! station_name = Some paths
      ∧ rel_proc_path ∈ paths.
Proof.
  intros Hnone.
  assert (Hsame : addProcessedDir self station_name rel_proc_path = self).
  { unfold addProcessedDir. by rewrite Hnone. }
  rewrite Hsame. split; [done|]. split; [done|].
  destruct (register_station_lookup self station_name) as [paths Hreg].
  by eapply addProcessedDir_registered.
Qed.

Lemma addProcessedDir_unregistered_station_witness :
  processed_dirs db_old !! "AB1234" = None
  ∧ addProcessedDir db_old "AB1234" "AB1234/AB1234_20190707_192835_241084_detected" = db_old.
Proof.
  split; [reflexivity|].
  apply (addProcessedDir_unregistered_station db_old "AB1234"
           "AB1234/AB1234_20190707_192835_241084_detected").
  reflexivity.
Defined.

(** ** Floats *)

Section Floats.

Implicit Types (a : float) (b v : Q).

Lemma float_compare_value a v b :
  float_value a = Some v → float_compare a b = Some (v ?= b)%Q.
Proof. destruct a; simpl; intros H; try done; by injection H as <-. Qed.

Lemma float_gt_value a v b : float_value a = Some v → float_gt a b = true ↔ (b < v)%Q.
Proof.
  intros Hv. unfold float_gt. rewrite (float_compare_value a v b Hv).
  change (b < v)%Q with (v > b)%Q. rewrite Qgt_alt. by destruct (v ?= b)%Q.
Qed.

Lemma float_lt_value a v b : float_value a = Some v → float_lt a b = true ↔ (v < b)%Q.
Proof.
  intros Hv. unfold float_lt. rewrite (float_compare_value a v b Hv).
  rewrite Qlt_alt. by destruct (v ?= b)%Q.
Qed.

Lemma float_le_value a v b : float_value a = Some v → float_le a b = true ↔ (v <= b)%Q.
Proof.
  intros Hv. unfold float_le. rewrite (float_compare_value a v b Hv).
  rewrite Qle_alt. by destruct (v ?= b)%Q.
Qed.

(** An infinity or nan is on no side of two bounds at once. *)
Lemma float_gt_le_None a b b' : float_value a = None → float_gt a b && float_le a b' = false.
Proof. by destruct a as [?|[]| |]. Qed.

Lemma float_gt_lt_None a b b' : float_value a = None → float_gt a b && float_lt a b' = false.
Proof. by destruct a as [?|[]| |]. Qed.

(** [a - a] is zero, or nan when [a] is an infinity or nan. *)
Lemma fsub_diag a : fsub a a = S754_zero false ∨ fsub a a = S754_nan.
Proof.
  destruct a as [[]|[]| |s m e]; try (by left); try (by right).
  left. unfold fsub, SFsub. by rewrite Z.sub_diag.
Qed.

Lemma fdiv_nan_r a : fdiv a S754_nan = S754_nan.
Proof. by destruct a. Qed.

Lemma fmul_nan_r a : fmul a S754_nan = S754_nan.
Proof. by destruct a. Qed.

Lemma fsub_nan_r a : fsub a S754_nan = S754_nan.
Proof. by destruct a. Qed.

(** The sign of a rounded result does not enter its absolute value. *)
Lemma fabs_binary_round_aux (s s' : bool) (m e : Z) (l : location) :
  fabs (binary_round_aux 53 1024 s m e l) = fabs (binary_round_aux 53 1024 s' m e l).
Proof.
  unfold binary_round_aux.
  destruct (shr_fexp 53 1024 m e l) as [mrs' e'].
  destruct (shr_fexp 53 1024 _ e' loc_Exact) as [mrs'' e''].
  destruct (shr_m mrs'') as [|p|p]; try done.
  by destruct (e'' <=? 1024 - 53)%Z.
Qed.

Lemma fabs_float_of_Q_opp (n : Z) (d : positive) :
  fabs (float_of_Q (- n # d)) = fabs (float_of_Q (n # d)).
Proof.
  destruct n as [|p|p]; [done| |].
  - change (- Z.pos p)%Z with (Z.neg p). unfold float_of_Q, fdiv, SFdiv. cbn [Qnum Qden].
    destruct (SFdiv_core_binary 53 1024 (Z.pos p) 0 (Z.pos d) 0) as [[mz ez] lz].
    apply fabs_binary_round_aux.
  - change (- Z.neg p)%Z with (Z.pos p). unfold float_of_Q, fdiv, SFdiv. cbn [Qnum Qden].
    destruct (SFdiv_core_binary 53 1024 (Z.pos p) 0 (Z.pos d) 0) as [[mz ez] lz].
    apply fabs_binary_round_aux.
Qed.

(** The absolute value of a finite float denotes the absolute value. *)
Lemma float_value_fabs a :
  float_value (fabs a) = match float_value a with Some v => Some (Qabs v) | None => None end.
Proof.
  destruct a as [s|s| |s m e]; try done.
  cbn [float_value fabs SFabs]. f_equal.
  assert (Hneg : ∀ z : Z, (0 < z)%Z → Z.abs (cond_Zopp s z) = cond_Zopp false z).
  { intros z Hz. destruct s; simpl; lia. }
  destruct e as [|p|p]; unfold inject_Z, Qabs; f_equal.
  - destruct s; simpl; lia.
  - destruct s; cbn [cond_Zopp]; [|by rewrite Z.abs_eq by lia].
    rewrite Z.mul_opp_l, Z.abs_opp. by rewrite Z.abs_eq by lia.
  - symmetry. by apply Hneg.
Qed.

End Floats.

(** ** The field-of-view estimate *)

Section FieldOfView.

Import MeteorPointRMS.
Implicit Types (pp : PlateparDummy) (data : list MeteorPointRMS.t) (x y : float).

(** The test at the start holds of the finite points with
    [0 < x <= X_res] and [0 < y < Y_res], and of no other. *)
Lemma in_fov_beg_iff pp x y :
  in_fov_beg pp x y = true
  ↔ ∃ px py : Q,
      float_value x = Some px ∧ float_value y = Some py
      ∧ (0 < px)%Q ∧ (px <= X_res pp)%Q ∧ (0 < py)%Q ∧ (py < Y_res pp)%Q.
Proof.
  unfold in_fov_beg. rewrite <- andb_assoc.
  destruct (float_value x) as [px|] eqn:Ex.
  2:{ rewrite (float_gt_le_None x _ _ Ex). simpl.
      split; [done|]. by intros (? & ? & ? & _). }
  destruct (float_value y) as [py|] eqn:Ey.
  2:{ rewrite (float_gt_lt_None y _ _ Ey), andb_false_r.
      split; [done|]. by intros (? & ? & ? & ? & _). }
  rewrite !andb_true_iff, (float_gt_value x px), (float_le_value x px),
    (float_gt_value y py), (float_lt_value y py) by done.
  split.
  - intros [[? ?] [? ?]]. by exists px, py.
  - intros (px' & py' & [= <-] & [= <-] & ?). tauto.
Qed.

(** The test at the end holds of the finite points with
    [0 < x <= X_res] and [0 < y <= Y_res], and of no other. *)
Lemma in_fov_end_iff pp x y :
  in_fov_end pp x y = true
  ↔ ∃ px py : Q,
      float_value x = Some px ∧ float_value y = Some py
      ∧ (0 < px)%Q ∧ (px <= X_res pp)%Q ∧ (0 < py)%Q ∧ (py <= Y_res pp)%Q.
Proof.
  unfold in_fov_end. rewrite <- andb_assoc.
  destruct (float_value x) as [px|] eqn:Ex.
  2:{ rewrite (float_gt_le_None x _ _ Ex). simpl.
      split; [done|]. by intros (? & ? & ? & _). }
  destruct (float_value y) as [py|] eqn:Ey.
  2:{ rewrite (float_gt_le_None y _ _ Ey), andb_false_r.
      split; [done|]. by intros (? & ? & ? & ? & _). }
  rewrite !andb_true_iff, (float_gt_value x px), (float_le_value x px),
    (float_gt_value y py), (float_le_value y py) by done.
  split.
  - intros [[? ?] [? ?]]. by exists px, py.
  - intros (px' & py' & [= <-] & [= <-] & ?). tauto.
Qed.

(** [trim_begin] and [trim_end] once the predicted point is known. *)
Lemma trim_begin_eq pp data (half_index : nat) x y :
  MeteorObsRMS.pre_begin data half_index = Ok (x, y) →
  MeteorObsRMS.trim_begin pp data half_index
  = Ok (in_fov_beg pp x y, if in_fov_beg pp x y then data else tail data).
Proof.
  intros Hpre. unfold MeteorObsRMS.trim_begin. rewrite Hpre, bind_Ok.
  by destruct (in_fov_beg pp x y).
Qed.

Lemma trim_end_eq pp data (half_index : nat) x y :
  MeteorObsRMS.post_end data half_index = Ok (x, y) →
  MeteorObsRMS.trim_end pp data half_index
  = Ok (in_fov_end pp x y, if in_fov_end pp x y then data else removelast data).
Proof.
  intros Hpost. unfold MeteorObsRMS.trim_end. rewrite Hpost, bind_Ok.
  by destruct (in_fov_end pp x y).
Qed.

Lemma trim_begin_inv pp data (half_index : nat) (fb : bool) data1 :
  MeteorObsRMS.trim_begin pp data half_index = Ok (fb, data1) →
  ∃ xb yb, MeteorObsRMS.pre_begin data half_index = Ok (xb, yb)
           ∧ fb = in_fov_beg pp xb yb
           ∧ data1 = if fb then data else tail data.
Proof.
  unfold MeteorObsRMS.trim_begin.
  destruct (MeteorObsRMS.pre_begin data half_index) as [[xb yb]|e]; [|done].
  rewrite bind_Ok. intros H. exists xb, yb. split; [done|].
  destruct (in_fov_beg pp xb yb); injection H as <- <-; done.
Qed.

Lemma trim_end_inv pp data (half_index : nat) (fe : bool) data2 :
  MeteorObsRMS.trim_end pp data half_index = Ok (fe, data2) →
  ∃ xe ye, MeteorObsRMS.post_end data half_index = Ok (xe, ye)
           ∧ fe = in_fov_end pp xe ye
           ∧ data2 = if fe then data else removelast data.
Proof.
  unfold MeteorObsRMS.trim_end.
  destruct (MeteorObsRMS.post_end data half_index) as [[xe ye]|e]; [|done].
  rewrite bind_Ok. intros H. exists xe, ye. split; [done|].
  destruct (in_fov_end pp xe ye); injection H as <- <-; done.
Qed.

Lemma init_inv (sc : string) (ref : datetime) pp data (rel : string)
    (met_obs : MeteorObsRMS.t) :
  MeteorObsRMS.init sc ref pp data rel = Ok met_obs →
  ∃ dt fb data1 fe data2,
    timedelta_of_mean (map time_rel data) = Ok dt
    ∧ MeteorObsRMS.trim_begin pp data (length data / 2) = Ok (fb, data1)
    ∧ MeteorObsRMS.trim_end pp data1 (length data / 2) = Ok (fe, data2)
    ∧ met_obs = {| MeteorObsRMS.station_code := sc;
                   MeteorObsRMS.reference_dt := ref;
                   MeteorObsRMS.platepar := pp;
                   MeteorObsRMS.data := data2;
                   MeteorObsRMS.rel_proc_path := rel;
                   MeteorObsRMS.processed := false;
                   MeteorObsRMS.paired := false;
                   MeteorObsRMS.mean_dt := (ref + dt)%Z;
                   MeteorObsRMS.fov_beg := fb;
                   MeteorObsRMS.fov_end := fe |}.
Proof.
  unfold MeteorObsRMS.init. intros H.
  destruct (timedelta_of_mean (map time_rel data)) as [dt|e] eqn:Edt; [|done].
  rewrite bind_Ok in H.
  destruct (MeteorObsRMS.trim_begin pp data (length data / 2))
    as [[fb data1]|e] eqn:Eb; [|done].
  rewrite bind_Ok in H.
  destruct (MeteorObsRMS.trim_end pp data1 (length data / 2))
    as [[fe data2]|e] eqn:Ee; [|done].
  rewrite bind_Ok in H. injection H as <-.
  by exists dt, fb, data1, fe, data2.
Qed.

(** The two predicted points behind an object that [__init__] returned,
    and how its flags and its picks come from them. *)
Lemma init_points (sc : string) (ref : datetime) pp data (rel : string)
    (met_obs : MeteorObsRMS.t) :
  MeteorObsRMS.init sc ref pp data rel = Ok met_obs →
  ∃ xb yb xe ye,
    let working := if MeteorObsRMS.fov_beg met_obs then data else tail data in
    MeteorObsRMS.pre_begin data (length data / 2) = Ok (xb, yb)
    ∧ MeteorObsRMS.post_end working (length data / 2) = Ok (xe, ye)
    ∧ MeteorObsRMS.fov_beg met_obs = in_fov_beg pp xb yb
    ∧ MeteorObsRMS.fov_end met_obs = in_fov_end pp xe ye
    ∧ MeteorObsRMS.data met_obs
      = if MeteorObsRMS.fov_end met_obs then working else removelast working.
Proof.
  intros (dt & fb & data1 & fe & data2 & _ & Hb & He & ->)%init_inv.
  apply trim_begin_inv in Hb as (xb & yb & Hpre & Hfb & ->).
  apply trim_end_inv in He as (xe & ye & Hpost & Hfe & ->).
  exists xb, yb, xe, ye. simpl. done.
Qed.

End FieldOfView.

(** C4, as stated, fails: the test on the point predicted before the first
    pick accepts [x = X_res].  The picks of [picks_from_right_edge] predict
    (720, 10) on a 720 by 576 frame; 720 is not below 720, yet the point
    counts as inside, the first pick stays and [__init__] sets [fov_beg].
    The upper bound that is strict at the start is the one on y:
    [picks_from_bottom_edge] predict (100, 576) before the first pick and
    lose it, while [picks_to_corner], which predict (720, 576) after the
    last pick, keep that one. *)
Lemma start_check_accepts_right_edge :
  (∃ (x_pre_begin y_pre_begin : float) (px py : Q),
     MeteorObsRMS.pre_begin picks_from_right_edge (length picks_from_right_edge / 2)
     = Ok (x_pre_begin, y_pre_begin)
     ∧ float_value x_pre_begin = Some px
     ∧ float_value y_pre_begin = Some py
     ∧ (px == 720)%Q ∧ (py == 10)%Q
     ∧ (px == X_res pp_720x576)%Q
     ∧ ¬ (px < X_res pp_720x576)%Q)
  ∧ MeteorObsRMS.trim_begin pp_720x576 picks_from_right_edge
      (length picks_from_right_edge / 2)
    = Ok (true, picks_from_right_edge)
  ∧ (∃ met_obs,
       MeteorObsRMS.init "AB1234" 0%Z pp_720x576 picks_from_right_edge "AB1234/night"
       = Ok met_obs
       ∧ MeteorObsRMS.fov_beg met_obs = true
       ∧ MeteorObsRMS.data met_obs = picks_from_right_edge)
  ∧ (∃ (x_pre_begin y_pre_begin : float) (px py : Q),
       MeteorObsRMS.pre_begin picks_from_bottom_edge (length picks_from_bottom_edge / 2)
       = Ok (x_pre_begin, y_pre_begin)
       ∧ float_value x_pre_begin = Some px
       ∧ float_value y_pre_begin = Some py
       ∧ (px == 100)%Q ∧ (py == Y_res pp_720x576)%Q)
  ∧ MeteorObsRMS.trim_begin pp_720x576 picks_from_bottom_edge
      (length picks_from_bottom_edge / 2)
    = Ok (false, tail picks_from_bottom_edge)
  ∧ (∃ (x_post_end y_post_end : float) (px py : Q),
       MeteorObsRMS.post_end picks_to_corner (length picks_to_corner / 2)
       = Ok (x_post_end, y_post_end)
       ∧ float_value x_post_end = Some px
       ∧ float_value y_post_end = Some py
       ∧ (px == X_res pp_720x576)%Q ∧ (py == Y_res pp_720x576)%Q)
  ∧ MeteorObsRMS.trim_end pp_720x576 picks_to_corner (length picks_to_corner / 2)
    = Ok (true, picks_to_corner).
Proof.
  split.
  { do 4 eexists. split; [by vm_compute|]. split; [by vm_compute|].
    split; [by vm_compute|]. split; [by vm_compute|]. split; [by vm_compute|].
    split; by vm_compute. }
  split; [by vm_compute|].
  split.
  { eexists. split; [by vm_compute|]. split; by vm_compute. }
  split.
  { do 4 eexists. split; [by vm_compute|]. split; [by vm_compute|].
    split; [by vm_compute|]. split; by vm_compute. }
  split; [by vm_compute|].
  split; [|by vm_compute].
  do 4 eexists. split; [by vm_compute|]. split; [by vm_compute|].
  split; [by vm_compute|]. split; by vm_compute.
Qed.

(** C4, amended: the test at the end of the track has closed upper bounds
    on both axes ([x <= X_res] and [y <= Y_res]); the test at the start of
    the track has a closed upper bound on x ([x <= X_res]) and a strict one
    on y ([y < Y_res]); the lower bounds are strict ([> 0]) in both.  Stated
    of the two halves of [__init__] and of the object it returns: the first
    pick stays exactly when the point predicted before it is finite and
    within the bounds of the start, the last pick exactly when the point
    predicted after it is finite and within the bounds of the end, and the
    flags [fov_beg] and [fov_end] say which. *)
Theorem fov_boundary_checks (pp : PlateparDummy) (data : list MeteorPointRMS.t)
    (half_index : nat) :
  (∀ x_pre_begin y_pre_begin : float,
     MeteorObsRMS.pre_begin data half_index = Ok (x_pre_begin, y_pre_begin) →
     (MeteorObsRMS.trim_begin pp data half_index = Ok (true, data)
      ↔ ∃ px py : Q,
          float_value x_pre_begin = Some px ∧ float_value y_pre_begin = Some py
          ∧ (0 < px)%Q ∧ (px <= X_res pp)%Q ∧ (0 < py)%Q ∧ (py < Y_res pp)%Q)
     ∧ (MeteorObsRMS.trim_begin pp data half_index = Ok (true, data)
        ∨ MeteorObsRMS.trim_begin pp data half_index = Ok (false, tail data)))
  ∧ (∀ x_post_end y_post_end : float,
       MeteorObsRMS.post_end data half_index = Ok (x_post_end, y_post_end) →
       (MeteorObsRMS.trim_end pp data half_index = Ok (true, data)
        ↔ ∃ px py : Q,
            float_value x_post_end = Some px ∧ float_value y_post_end = Some py
            ∧ (0 < px)%Q ∧ (px <= X_res pp)%Q ∧ (0 < py)%Q ∧ (py <= Y_res pp)%Q)
       ∧ (MeteorObsRMS.trim_end pp data half_index = Ok (true, data)
          ∨ MeteorObsRMS.trim_end pp data half_index = Ok (false, removelast data)))
  ∧ (∀ (station_code : string) (reference_dt : datetime) (rel_proc_path : string)
       (met_obs : MeteorObsRMS.t),
       MeteorObsRMS.init station_code reference_dt pp data rel_proc_path = Ok met_obs →
       ∃ x_pre_begin y_pre_begin x_post_end y_post_end : float,
         MeteorObsRMS.pre_begin data (length data / 2) = Ok (x_pre_begin, y_pre_begin)
         ∧ MeteorObsRMS.post_end (if MeteorObsRMS.fov_beg met_obs then data else tail data)
             (length data / 2)
           = Ok (x_post_end, y_post_end)
         ∧ (MeteorObsRMS.fov_beg met_obs = true
            ↔ ∃ px py : Q,
                float_value x_pre_begin = Some px ∧ float_value y_pre_begin = Some py
                ∧ (0 < px)%Q ∧ (px <= X_res pp)%Q ∧ (0 < py)%Q ∧ (py < Y_res pp)%Q)
         ∧ (MeteorObsRMS.fov_end met_obs = true
            ↔ ∃ px py : Q,
                float_value x_post_end = Some px ∧ float_value y_post_end = Some py
                ∧ (0 < px)%Q ∧ (px <= X_res pp)%Q ∧ (0 < py)%Q ∧ (py <= Y_res pp)%Q)).
Proof.
  split; [|split].
  - intros xb yb Hpre. rewrite (trim_begin_eq pp data half_index xb yb Hpre).
    rewrite <- in_fov_beg_iff.
    destruct (in_fov_beg pp xb yb); split; try (by left); try (by right);
      split; congruence.
  - intros xe ye Hpost. rewrite (trim_end_eq pp data half_index xe ye Hpost).
    rewrite <- in_fov_end_iff.
    destruct (in_fov_end pp xe ye); split; try (by left); try (by right);
      split; congruence.
  - intros sc ref rel met_obs Hinit.
    destruct (init_points sc ref pp data rel met_obs Hinit)
      as (xb & yb & xe & ye & Hpre & Hpost & Hfb & Hfe & _).
    exists xb, yb, xe, ye. split; [done|]. split; [done|].
    by rewrite Hfb, Hfe, in_fov_beg_iff, in_fov_end_iff.
Qed.

(** C5, as stated, fails whichever way "inside the field of view" is read.
    Read as in the specification, strictly inside, the point (720, 10)
    predicted by [picks_from_right_edge] on a 720 by 576 frame is not
    inside, yet [__init__] sets [fov_beg] and keeps the first pick.  Read
    with the edges included, the point (100, 576) predicted by
    [picks_from_bottom_edge] is inside, yet [__init__] clears [fov_beg] and
    drops the first pick. *)
Lemma first_pick_kept_on_the_right_edge :
  (∃ (x_pre_begin y_pre_begin : float) (px py : Q) (met_obs : MeteorObsRMS.t),
     MeteorObsRMS.pre_begin picks_from_right_edge (length picks_from_right_edge / 2)
     = Ok (x_pre_begin, y_pre_begin)
     ∧ float_value x_pre_begin = Some px
     ∧ float_value y_pre_begin = Some py
     ∧ (px == 720)%Q ∧ (py == 10)%Q
     ∧ ¬ ((0 < px)%Q ∧ (px < X_res pp_720x576)%Q
          ∧ (0 < py)%Q ∧ (py < Y_res pp_720x576)%Q)
     ∧ MeteorObsRMS.init "AB1234" 0%Z pp_720x576 picks_from_right_edge "AB1234/night"
       = Ok met_obs
     ∧ MeteorObsRMS.fov_beg met_obs = true
     ∧ MeteorObsRMS.data met_obs = picks_from_right_edge)
  ∧ (∃ (x_pre_begin y_pre_begin : float) (px py : Q) (met_obs : MeteorObsRMS.t),
       MeteorObsRMS.pre_begin picks_from_bottom_edge (length picks_from_bottom_edge / 2)
       = Ok (x_pre_begin, y_pre_begin)
       ∧ float_value x_pre_begin = Some px
       ∧ float_value y_pre_begin = Some py
       ∧ (px == 100)%Q ∧ (py == 576)%Q
       ∧ ((0 <= px)%Q ∧ (px <= X_res pp_720x576)%Q
          ∧ (0 <= py)%Q ∧ (py <= Y_res pp_720x576)%Q)
       ∧ MeteorObsRMS.init "AB1234" 0%Z pp_720x576 picks_from_bottom_edge "AB1234/night"
         = Ok met_obs
       ∧ MeteorObsRMS.fov_beg met_obs = false
       ∧ MeteorObsRMS.data met_obs = tail picks_from_bottom_edge).
Proof.
  split.
  - do 5 eexists.
    split; [by vm_compute|]. split; [by vm_compute|]. split; [by vm_compute|].
    split; [by vm_compute|]. split; [by vm_compute|].
    split; [intros (_ & H & _); by vm_compute in H|].
    split; [by vm_compute|]. split; by vm_compute.
  - do 5 eexists.
    split; [by vm_compute|]. split; [by vm_compute|]. split; [by vm_compute|].
    split; [by vm_compute|]. split; [by vm_compute|].
    split; [repeat split; by vm_compute|].
    split; [by vm_compute|]. split; by vm_compute.
Qed.

(** C5, amended: for every pick sequence and frame size, the point two
    frames before the first pick is predicted, in float arithmetic, with
    the pixel velocity per frame between the first pick and the pick at
    [len(data)//2], and it decides the start of the track.  When the point
    is finite with [0 < x <= X_res] and [0 < y < Y_res], [fov_beg] is true
    and the working sequence keeps its first pick; otherwise, an infinite
    or undefined point included, [fov_beg] is false and the working
    sequence is [data[1:]].  A predicted point (-5, 10) on a 720 by 576
    frame gives false and drops the first pick; (100, 100) gives true and
    keeps all picks.  An object that [__init__] returns carries that flag
    and that working sequence, less its last pick at most. *)
Theorem trim_begin_by_predicted_point (pp : PlateparDummy) (data : list MeteorPointRMS.t) :
  (∀ p0 ph : MeteorPointRMS.t,
     data !! 0%nat = Some p0 →
     data !! (length data / 2)%nat = Some ph →
     MeteorObsRMS.pre_begin data (length data / 2)
     = dxdf_beg ← truediv
                    (fsub (float_of_Q (MeteorPointRMS.x ph)) (float_of_Q (MeteorPointRMS.x p0)))
                    (fsub (float_of_Q (MeteorPointRMS.frame ph))
                          (float_of_Q (MeteorPointRMS.frame p0)));
       dydf_beg ← truediv
                    (fsub (float_of_Q (MeteorPointRMS.y ph)) (float_of_Q (MeteorPointRMS.y p0)))
                    (fsub (float_of_Q (MeteorPointRMS.frame ph))
                          (float_of_Q (MeteorPointRMS.frame p0)));
       Ok (fsub (float_of_Q (MeteorPointRMS.x p0)) (fmul (float_of_Q 2) dxdf_beg),
           fsub (float_of_Q (MeteorPointRMS.y p0)) (fmul (float_of_Q 2) dydf_beg)))
  ∧ (∀ x_pre_begin y_pre_begin : float,
       MeteorObsRMS.pre_begin data (length data / 2) = Ok (x_pre_begin, y_pre_begin) →
       ((∃ px py : Q,
           float_value x_pre_begin = Some px ∧ float_value y_pre_begin = Some py
           ∧ (0 < px)%Q ∧ (px <= X_res pp)%Q ∧ (0 < py)%Q ∧ (py < Y_res pp)%Q) →
        MeteorObsRMS.trim_begin pp data (length data / 2) = Ok (true, data))
       ∧ (¬ (∃ px py : Q,
               float_value x_pre_begin = Some px ∧ float_value y_pre_begin = Some py
               ∧ (0 < px)%Q ∧ (px <= X_res pp)%Q ∧ (0 < py)%Q ∧ (py < Y_res pp)%Q) →
          MeteorObsRMS.trim_begin pp data (length data / 2) = Ok (false, tail data))
       ∧ (∀ px py : Q,
            float_value x_pre_begin = Some px → float_value y_pre_begin = Some py →
            (px == -5)%Q → (py == 10)%Q → (X_res pp == 720)%Q → (Y_res pp == 576)%Q →
            MeteorObsRMS.trim_begin pp data (length data / 2) = Ok (false, tail data))
       ∧ (∀ px py : Q,
            float_value x_pre_begin = Some px → float_value y_pre_begin = Some py →
            (px == 100)%Q → (py == 100)%Q → (X_res pp == 720)%Q → (Y_res pp == 576)%Q →
            MeteorObsRMS.trim_begin pp data (length data / 2) = Ok (true, data))
       ∧ (∀ (station_code : string) (reference_dt : datetime) (rel_proc_path : string)
            (met_obs : MeteorObsRMS.t),
            MeteorObsRMS.init station_code reference_dt pp data rel_proc_path = Ok met_obs →
            (MeteorObsRMS.fov_beg met_obs = true
             ↔ ∃ px py : Q,
                 float_value x_pre_begin = Some px ∧ float_value y_pre_begin = Some py
                 ∧ (0 < px)%Q ∧ (px <= X_res pp)%Q ∧ (0 < py)%Q ∧ (py < Y_res pp)%Q)
            ∧ (MeteorObsRMS.fov_beg met_obs = true →
               MeteorObsRMS.data met_obs = data
               ∨ MeteorObsRMS.data met_obs = removelast data)
            ∧ (MeteorObsRMS.fov_beg met_obs = false →
               MeteorObsRMS.data met_obs = tail data
               ∨ MeteorObsRMS.data met_obs = removelast (tail data)))).
Proof.
  split.
  { intros p0 ph H0 Hh. unfold MeteorObsRMS.pre_begin, getitem. by rewrite Hh, H0. }
  intros xb yb Hpre.
  pose proof (trim_begin_eq pp data (length data / 2) xb yb Hpre) as Htrim.
  pose proof (in_fov_beg_iff pp xb yb) as Hin.
  split; [intros Hb; apply Hin in Hb; by rewrite Htrim, Hb|].
  split.
  { intros Hb. rewrite Htrim.
    destruct (in_fov_beg pp xb yb); [|done]. destruct Hb. by apply Hin. }
  split.
  { intros px py Hx Hy Ex Ey EX EY. rewrite Htrim.
    destruct (in_fov_beg pp xb yb); [|done].
    destruct (proj1 Hin eq_refl) as (px' & py' & Hx' & Hy' & Hpos & _).
    rewrite Hx in Hx'. injection Hx' as <-. rewrite Ex in Hpos. by vm_compute in Hpos. }
  split.
  { intros px py Hx Hy Ex Ey EX EY. rewrite Htrim.
    assert (Hb : in_fov_beg pp xb yb = true).
    { apply Hin. exists px, py. split; [done|]. split; [done|].
      rewrite Ex, Ey, EX, EY. repeat split; by vm_compute. }
    by rewrite Hb. }
  intros sc ref rel met_obs Hinit.
  destruct (init_points sc ref pp data rel met_obs Hinit)
    as (xb' & yb' & xe & ye & Hpre' & _ & Hfb & _ & Hdata).
  rewrite Hpre in Hpre'. injection Hpre' as <- <-.
  split; [by rewrite Hfb|].
  split; intros E; rewrite E in Hdata; rewrite Hdata;
    destruct (MeteorObsRMS.fov_end met_obs); auto.
Qed.

Lemma trim_begin_by_predicted_point_witness :
  (∃ x_pre_begin y_pre_begin px py,
     MeteorObsRMS.pre_begin picks_from_outside (length picks_from_outside / 2)
     = Ok (x_pre_begin, y_pre_begin)
     ∧ float_value x_pre_begin = Some px ∧ float_value y_pre_begin = Some py
     ∧ (px == -5)%Q ∧ (py == 10)%Q
     ∧ MeteorObsRMS.trim_begin pp_720x576 picks_from_outside (length picks_from_outside / 2)
       = Ok (false, tail picks_from_outside))
  ∧ (∃ x_pre_begin y_pre_begin px py,
       MeteorObsRMS.pre_begin picks_inside (length picks_inside / 2)
       = Ok (x_pre_begin, y_pre_begin)
       ∧ float_value x_pre_begin = Some px ∧ float_value y_pre_begin = Some py
       ∧ (px == 100)%Q ∧ (py == 100)%Q
       ∧ MeteorObsRMS.trim_begin pp_720x576 picks_inside (length picks_inside / 2)
         = Ok (true, picks_inside)).
Proof.
  split.
  - destruct (MeteorObsRMS.pre_begin picks_from_outside (length picks_from_outside / 2))
      as [[xb yb]|e] eqn:Hpre; [|by vm_compute in Hpre].
    destruct (float_value xb) as [px|] eqn:Hx;
      [|vm_compute in Hpre; injection Hpre as <- <-; by vm_compute in Hx].
    destruct (float_value yb) as [py|] eqn:Hy;
      [|vm_compute in Hpre; injection Hpre as <- <-; by vm_compute in Hy].
    assert (Ex : (px == -5)%Q).
    { vm_compute in Hpre. injection Hpre as <- <-. vm_compute in Hx. by injection Hx as <-. }
    assert (Ey : (py == 10)%Q).
    { vm_compute in Hpre. injection Hpre as <- <-. vm_compute in Hy. by injection Hy as <-. }
    exists xb, yb, px, py. repeat (split; [done|]).
    destruct (trim_begin_by_predicted_point pp_720x576 picks_from_outside) as [_ Hdecide].
    destruct (Hdecide xb yb Hpre) as (_ & _ & Hout & _).
    by apply (Hout px py).
  - destruct (MeteorObsRMS.pre_begin picks_inside (length picks_inside / 2))
      as [[xb yb]|e] eqn:Hpre; [|by vm_compute in Hpre].
    destruct (float_value xb) as [px|] eqn:Hx;
      [|vm_compute in Hpre; injection Hpre as <- <-; by vm_compute in Hx].
    destruct (float_value yb) as [py|] eqn:Hy;
      [|vm_compute in Hpre; injection Hpre as <- <-; by vm_compute in Hy].
    assert (Ex : (px == 100)%Q).
    { vm_compute in Hpre. injection Hpre as <- <-. vm_compute in Hx. by injection Hx as <-. }
    assert (Ey : (py == 100)%Q).
    { vm_compute in Hpre. injection Hpre as <- <-. vm_compute in Hy. by injection Hy as <-. }
    exists xb, yb, px, py. repeat (split; [done|]).
    destruct (trim_begin_by_predicted_point pp_720x576 picks_inside) as [_ Hdecide].
    destruct (Hdecide xb yb Hpre) as (_ & _ & _ & Hin & _).
    by apply (Hin px py).
Defined.

(** The two sequences of the specification through the whole of
    [__init__]: the first loses its first pick only, the second keeps all. *)
Lemma init_on_sample_sequences :
  (∃ met_obs,
     MeteorObsRMS.init "AB1234" 0%Z pp_720x576 picks_from_outside "AB1234/night" = Ok met_obs
     ∧ MeteorObsRMS.fov_beg met_obs = false
     ∧ MeteorObsRMS.fov_end met_obs = true
     ∧ MeteorObsRMS.data met_obs = tail picks_from_outside)
  ∧ (∃ met_obs,
       MeteorObsRMS.init "AB1234" 0%Z pp_720x576 picks_inside "AB1234/night" = Ok met_obs
       ∧ MeteorObsRMS.fov_beg met_obs = true
       ∧ MeteorObsRMS.fov_end met_obs = true
       ∧ MeteorObsRMS.data met_obs = picks_inside).
Proof.
  split; eexists; (split; [by vm_compute|]); by vm_compute.
Qed.

(** The predicted point is what float arithmetic gives.  For
    [picks_from_left_edge] the exact value of [x - 2*dxdf] is positive,
    but the float is zero, so the test at the start fails and the first
    pick is dropped. *)
Lemma predicted_point_is_rounded :
  ∃ (p0 ph : MeteorPointRMS.t) (x_pre_begin y_pre_begin : float),
    picks_from_left_edge !! 0%nat = Some p0
    ∧ picks_from_left_edge !! (length picks_from_left_edge / 2)%nat = Some ph
    ∧ (0 < MeteorPointRMS.x p0
           - 2 * ((MeteorPointRMS.x ph - MeteorPointRMS.x p0)
                  / (MeteorPointRMS.frame ph - MeteorPointRMS.frame p0)))%Q
    ∧ MeteorObsRMS.pre_begin picks_from_left_edge (length picks_from_left_edge / 2)
      = Ok (x_pre_begin, y_pre_begin)
    ∧ float_value x_pre_begin = Some 0%Q
    ∧ MeteorObsRMS.trim_begin pp_720x576 picks_from_left_edge
        (length picks_from_left_edge / 2)
      = Ok (false, tail picks_from_left_edge).
Proof.
  do 4 eexists. split; [reflexivity|]. split; [reflexivity|].
  split; [by vm_compute|]. split; [by vm_compute|]. split; by vm_compute.
Qed.

(** C10: there is a sequence within the data model invariant (two picks,
    increasing frames) on which [__init__] raises IndexError.  [half_index]
    is 1, from the length before trimming; the predicted first point
    (-5, 10) is outside, so the first pick is dropped, and the velocity at
    the end then reads [data[1]] of a sequence of length one. *)
Theorem init_index_error_on_two_picks :
  ∃ (data : list MeteorPointRMS.t) (pp : PlateparDummy),
    (2 ≤ length data)%nat
    ∧ frames_increasing data = true
    ∧ MeteorObsRMS.pre_begin data (length data / 2) = Ok (float_of_Q (-5), float_of_Q 10)
    ∧ in_fov_beg pp (float_of_Q (-5)) (float_of_Q 10) = false
    ∧ MeteorObsRMS.trim_begin pp data (length data / 2) = Ok (false, tail data)
    ∧ length (tail data) = 1%nat
    ∧ getitem (tail data) (length data / 2) = Raise IndexError
    ∧ MeteorObsRMS.trim_end pp (tail data) (length data / 2) = Raise IndexError
    ∧ ∀ (station_code : string) (reference_dt : datetime) (rel_proc_path : string),
        MeteorObsRMS.init station_code reference_dt pp data rel_proc_path = Raise IndexError.
Proof.
  exists two_picks_from_outside, pp_720x576.
  split; [simpl; lia|]. split; [reflexivity|].
  split; [by vm_compute|]. split; [by vm_compute|].
  split; [by vm_compute|]. split; [reflexivity|]. split; [reflexivity|].
  split; [by vm_compute|].
  intros sc ref rel. by vm_compute.
Qed.

(** ** Time pairing *)

(** [abs(seconds) <= max_toffset] on the float [seconds]: the float is
    finite and its absolute value is at most [max_toffset]. *)
Lemma float_le_fabs_iff (seconds : float) (max_toffset : Q) :
  float_le (fabs seconds) max_toffset = true
  ↔ ∃ v : Q, float_value seconds = Some v ∧ (Qabs v <= max_toffset)%Q.
Proof.
  destruct (float_value seconds) as [v|] eqn:Ev.
  - rewrite (float_le_value (fabs seconds) (Qabs v)).
    + split; [intros H; by exists v|]. by intros (v' & [= <-] & H).
    + by rewrite float_value_fabs, Ev.
  - split; [|by intros (v' & ? & _)].
    by destruct seconds as [?|?| |? ? ?].
Qed.

Lemma is_time_pair_iff (met_obs met_obs2 : MeteorObsRMS.t) (max_toffset : Q) :
  is_time_pair met_obs max_toffset met_obs2 = true
  ↔ MeteorObsRMS.station_code met_obs ≠ MeteorObsRMS.station_code met_obs2
    ∧ ∃ seconds : Q,
        float_value (total_seconds (MeteorObsRMS.mean_dt met_obs - MeteorObsRMS.mean_dt met_obs2))
        = Some seconds
        ∧ (Qabs seconds <= max_toffset)%Q.
Proof.
  unfold is_time_pair.
  by rewrite andb_true_iff, negb_true_iff, String.eqb_neq, float_le_fabs_iff.
Qed.

Lemma findTimePairs_loop_filter (met_obs : MeteorObsRMS.t) (pool : list MeteorObsRMS.t)
    (max_toffset : Q) (found_pairs : list MeteorObsRMS.t) :
  findTimePairs_loop met_obs pool max_toffset found_pairs
  = (found_pairs ++ List.filter (is_time_pair met_obs max_toffset) pool)%list.
Proof.
  revert found_pairs. induction pool as [|met_obs2 rest IH]; intros found_pairs; simpl.
  - by rewrite app_nil_r.
  - unfold is_time_pair at 1.
    destruct (String.eqb _ _); simpl; [apply IH|].
    destruct (float_le _ _); simpl; [|apply IH].
    rewrite IH. by rewrite <- app_assoc.
Qed.

(** [total_seconds] rounds as the division of Python does: the 300000
    microseconds between [obs_A] and [obs_D] come to the float nearest to
    0.3, and with that float as the offset each of the two is paired with
    the other. *)
Lemma findTimePairs_compares_floats :
  ∃ max_toffset : Q,
    float_value (float_of_Q (3 # 10)) = Some max_toffset
    ∧ max_toffset = (5404319552844595 # 18014398509481984)%Q
    ∧ total_seconds (MeteorObsRMS.mean_dt obs_D - MeteorObsRMS.mean_dt obs_A)
      = float_of_Q (3 # 10)
    ∧ findTimePairs obs_A [obs_D] max_toffset = [obs_D]
    ∧ findTimePairs obs_D [obs_A] max_toffset = [obs_A].
Proof.
  eexists. split; [by vm_compute|]. split; [by vm_compute|].
  split; [by vm_compute|]. split; by vm_compute.
Qed.


(** ** The station scan *)

Lemma is_station_code_matches (name : string) :
  is_station_code name = true → re_match_station name = true.
Proof.
  unfold is_station_code, re_match_station.
  do 6 (destruct name as [|? name]; [done|]).
  destruct name as [|? name]; [|done]. simpl.
  rewrite !andb_true_iff. intros [[-> ->] (-> & -> & -> & -> & _)]. done.
Qed.

Lemma re_match_station_cases (name : string) :
  re_match_station name = true →
  is_station_code name = true ∨ endswith (String nl EmptyString) name = true.
Proof.
  unfold re_match_station. intros H.
  destruct name as [|a name]; [done|]. simpl in H.
  destruct (is_upper a) eqn:Ea; [|done].
  destruct name as [|b name]; [done|]. simpl in H.
  destruct (is_upper b) eqn:Eb; [|done].
  destruct name as [|c name]; [done|]. simpl in H.
  destruct (is_upper c || is_digit c) eqn:Ec; [|done].
  destruct name as [|d name]; [done|].
  destruct (is_upper d || is_digit d) eqn:Ed; [|done].
  destruct name as [|e name]; [done|].
  destruct (is_upper e || is_digit e) eqn:Ee; [|done].
  destruct name as [|f name]; [done|].
  destruct (is_upper f || is_digit f) eqn:Ef; [|done].
  destruct name as [|g name].
  - left. unfold is_station_code. simpl. by rewrite Ea, Eb, Ec, Ed, Ee, Ef.
  - right. unfold re_dollar in H. simpl in H.
    destruct (Ascii.eqb_spec g nl) as [->|]; [|done].
    destruct name; done.
Qed.

Lemma re_match_station_is_station_code (name : string) :
  endswith (String nl EmptyString) name = false →
  re_match_station name = is_station_code name.
Proof.
  intros Hnl. apply eq_true_iff_eq. split.
  - intros H. destruct (re_match_station_cases name H) as [|E]; [done|congruence].
  - apply is_station_code_matches.
Qed.

Lemma loadStations_loop_spec (w : World) (dir_path : string) (names : list string)
    (out : list diag) (station_list : list string) :
  loadStations_loop w dir_path names out station_list
  = ((out ++ flat_map (station_diag w dir_path) names)%list,
     (station_list ++ List.filter (station_accepted w dir_path) names)%list).
Proof.
  revert out station_list.
  induction names as [|dir_name rest IH]; intros out station_list; simpl.
  - by rewrite !app_nil_r.
  - unfold station_diag at 1, station_accepted at 1.
    destruct (isdir w (path_join dir_path dir_name)); simpl; [|apply IH].
    destruct (re_match_station dir_name); simpl; rewrite IH;
      by rewrite <- ?app_assoc.
Qed.

Lemma station_diag_In (w : World) (dir_path dir_name : string) (d : diag) :
  In d (station_diag w dir_path dir_name)
  ↔ isdir w (path_join dir_path dir_name) = true
    ∧ ((re_match_station dir_name = true ∧ d = UsingStation dir_name)
       ∨ (re_match_station dir_name = false ∧ d = SkippingDirectory dir_name)).
Proof.
  unfold station_diag.
  destruct (isdir w (path_join dir_path dir_name)); [|simpl; intuition discriminate].
  destruct (re_match_station dir_name); simpl; intuition (try discriminate; auto).
Qed.

(** C7, as stated, fails: an entry of the root that is not a directory is
    skipped without a diagnostic.  The ledger file itself is such an entry:
    it is listed, its name is not a station code, and nothing is printed
    about it. *)
Lemma non_directory_skipped_silently :
  listdir world_stations "/data"
  = Ok ["AB1234"; "ab1234"; "A1234"; "ABCDEFG"; "processed_trajectories.json"]
  ∧ is_station_code "processed_trajectories.json" = false
  ∧ loadStations world_stations "/data"
    = Ok ([UsingStation "AB1234"; SkippingDirectory "ab1234";
           SkippingDirectory "A1234"; SkippingDirectory "ABCDEFG"],
          ["AB1234"])
  ∧ ¬ In (SkippingDirectory "processed_trajectories.json")
         [UsingStation "AB1234"; SkippingDirectory "ab1234";
          SkippingDirectory "A1234"; SkippingDirectory "ABCDEFG"].
Proof.
  split; [by vm_compute|]. split; [by vm_compute|]. split; [by vm_compute|].
  simpl. intuition discriminate.
Qed.

(** The other way in which the scan departs from the pattern as worded: a
    directory whose name is a station code followed by one newline is
    taken as a station, because [$] also matches before a final newline. *)
Lemma newline_name_accepted :
  is_station_code name_with_newline = false
  ∧ re_match_station name_with_newline = true
  ∧ loadStations world_newline "/data"
    = Ok ([UsingStation name_with_newline], [name_with_newline]).
Proof. split; [by vm_compute|]. split; by vm_compute. Qed.

(** C7, amended: for every entry of the root whose name does not end in a
    newline, [loadStations] accepts it as a station if and only if it is a
    directory and its name is exactly two uppercase letters followed by
    exactly four uppercase letters or digits.  A directory whose name does
    not match is skipped with the diagnostic "Skipping directory"; an entry
    that is not a directory is skipped without any diagnostic; neither is
    an error.  Of "AB1234", "ab1234", "A1234" and "ABCDEFG" only "AB1234"
    is accepted. *)
Theorem loadStations_spec (w : World) (dir_path : string) (names : list string) :
  listdir w dir_path = Ok names →
  ∃ (out : list diag) (station_list : list string),
    loadStations w dir_path = Ok (out, station_list)
    ∧ (∀ name, endswith (String nl EmptyString) name = false →
         (In name station_list
          ↔ In name names
            ∧ isdir w (path_join dir_path name) = true
            ∧ is_station_code name = true))
    ∧ (∀ name, endswith (String nl EmptyString) name = false →
         (In (SkippingDirectory name) out
          ↔ In name names
            ∧ isdir w (path_join dir_path name) = true
            ∧ is_station_code name = false))
    ∧ (∀ name, isdir w (path_join dir_path name) = false →
         ¬ In name station_list
         ∧ ¬ In (UsingStation name) out
         ∧ ¬ In (SkippingDirectory name) out)
    ∧ List.filter re_match_station ["AB1234"; "ab1234"; "A1234"; "ABCDEFG"] = ["AB1234"]
    ∧ List.filter is_station_code ["AB1234"; "ab1234"; "A1234"; "ABCDEFG"] = ["AB1234"].
Proof.
  intros Hls. eexists. eexists.
  split.
  { unfold loadStations. rewrite Hls, bind_Ok.
    rewrite loadStations_loop_spec. reflexivity. }
  simpl.
  split.
  { intros name Hnl. rewrite filter_In. unfold station_accepted.
    by rewrite andb_true_iff, (re_match_station_is_station_code name Hnl). }
  split.
  { intros name Hnl. rewrite in_flat_map. split.
    - intros (n & Hn & Hd). apply station_diag_In in Hd as (Hdir & [[_ [=]]|[Hm [= ->]]]).
      by rewrite <- (re_match_station_is_station_code n Hnl).
    - intros (Hn & Hdir & Hm). exists name. split; [done|].
      apply station_diag_In. split; [done|]. right.
      by rewrite (re_match_station_is_station_code name Hnl). }
  split.
  { intros name Hdir. split; [|split].
    - rewrite filter_In. unfold station_accepted. rewrite Hdir. simpl. by intros [_ ?].
    - rewrite in_flat_map. intros (n & Hn & Hd).
      apply station_diag_In in Hd as (Hd & [[_ [= ->]]|[_ [=]]]). congruence.
    - rewrite in_flat_map. intros (n & Hn & Hd).
      apply station_diag_In in Hd as (Hd & [[_ [=]]|[_ [= ->]]]). congruence. }
  split; by vm_compute.
Qed.

Lemma loadStations_spec_witness :
  listdir world_stations "/data"
  = Ok ["AB1234"; "ab1234"; "A1234"; "ABCDEFG"; "processed_trajectories.json"]
  ∧ ∃ (out : list diag) (station_list : list string),
      loadStations world_stations "/data" = Ok (out, station_list)
      ∧ In "AB1234" station_list
      ∧ ¬ In "processed_trajectories.json" station_list.
Proof.
  split; [reflexivity|].
  destruct (loadStations_spec world_stations "/data"
              ["AB1234"; "ab1234"; "A1234"; "ABCDEFG"; "processed_trajectories.json"])
    as (out & station_list & Hrun & Hacc & _ & Hnodir & _).
  - reflexivity.
  - exists out, station_list. split; [exact Hrun|]. split.
    + apply Hacc; [reflexivity|]. split; [simpl; tauto|]. split; reflexivity.
    + apply (Hnodir "processed_trajectories.json"). reflexivity.
Defined.

(** ** Discovery and loading *)

Section Loader.

Variable strptime : string → option datetime.
Variable json_load_platepars : string → result (list (string * PlateparDummy)).
Variable loadFTPDetectInfo : World → string → string → Q → Q → Q → result (list CamsObs.t).
Variable np_radians np_degrees : Q → Q.
Variable jd2Date : Q → datetime.

#[local] Abbreviation load_unit' :=
(load_unit json_load_platepars loadFTPDetectInfo np_radians np_degrees jd2Date).
#[local] Abbreviation load_loop' :=
(loadUnprocessedObservations_loop json_load_platepars loadFTPDetectInfo
   np_radians np_degrees jd2Date).
#[local] Abbreviation load' :=
(loadUnprocessedObservations json_load_platepars loadFTPDetectInfo
   np_radians np_degrees jd2Date).

(** Every station of the list is a key of [processed_dirs] once
  [findUnprocessedFolders] has gone through it without an error. *)
Lemma findUnprocessedFolders_loop_registers (dir_path : string) (station_list : list string)
  (st st' : State) (pl : list ProcessingUnit) (sk : nat) (r : list ProcessingUnit * nat) :
findUnprocessedFolders_loop strptime dir_path station_list st pl sk = (st', Ok r) →
∀ station_name,
  In station_name station_list ∨ is_Some (processed_dirs (db st) !! station_name) →
  is_Some (processed_dirs (db st') !! station_name).
Proof.
revert st pl sk. induction station_list as [|s rest IH]; intros st pl sk Hrun name Hin.
- simpl in Hrun. injection Hrun as <- _. by destruct Hin.
- simpl in Hrun.
  destruct (listdir (world st) (path_join dir_path s)) as [night_names|e]; [|done].
  destruct (findUnprocessedFolders_nights _ _ _ _ _ _ _ _) as [[out pl'] sk'].
  eapply IH; [exact Hrun|]. simpl.
  destruct (decide (name = s)) as [->|Hne].
  + right. apply register_station_lookup.
  + destruct Hin as [[?|?]|Hreg]; [congruence|by left|]. right.
    unfold register_station.
    destruct (processed_dirs (db st) !! s); [done|]. simpl.
    by rewrite lookup_insert_ne.
Qed.


(** A folder without its FTPdetectinfo file or without its platepar file:
  a line is printed, the folder is put on the ledger in memory, and the
  disk is left as it was. *)
Lemma load_unit_missing_files (unit : ProcessingUnit) (st : State)
  (acc : list MeteorObsRMS.t) (names : list string) :
listdir (world st) (proc_path unit) = Ok names →
(find_data_files names None None).1 = None ∨ (find_data_files names None None).2 = None →
load_unit' unit st acc
= ({| world := world st;
      db := addProcessedDir (db st) (station_code unit) (rel_proc_path unit);
      stdout := (stdout st ++ [SkippingMissingData (rel_proc_path unit)])%list |},
   Ok acc).
Proof.
intros Hls Hmiss. unfold load_unit. rewrite Hls.
destruct (find_data_files names None None) as [[ftp|] [ppn|]]; simpl in Hmiss;
  try done; by destruct Hmiss.
Qed.

Lemma format_observations_world (unit : ProcessingUnit)
  (platepars : list (string * PlateparDummy)) (cams : list CamsObs.t)
  (st : State) (acc : list MeteorObsRMS.t) :
world (format_observations np_degrees jd2Date unit platepars cams st acc).1 = world st.
Proof.
revert st acc. induction cams as [|c rest IH]; intros st acc; [done|]. simpl.
destruct (dict_getitem platepars (CamsObs.ff_name c)); [|done].
destruct (MeteorObsRMS.init _ _ _ _ _); [|done].
by rewrite IH.
Qed.

(** A folder with both files: the ledger is written to disk before
  anything of the folder is read, and nothing else touches the disk. *)
Lemma load_unit_files_present (unit : ProcessingUnit) (st : State)
  (acc : list MeteorObsRMS.t) (names : list string) (ftp ppn : string) :
listdir (world st) (proc_path unit) = Ok names →
find_data_files names None None = (Some ftp, Some ppn) →
world (load_unit' unit st acc).1 = save (db st) (world st).
Proof.
intros Hls Hfound. unfold load_unit. rewrite Hls, Hfound.
destruct (read_file _ _ ≫= json_load_platepars) as [platepars|e]; [|done].
destruct (initMeteorObs _ _ _ _ _ _) as [cams|e]; [|done].
by rewrite format_observations_world.
Qed.


(** C3 (a folder with missing input files is marked processed, the ledger
    is saved at that point, a diagnostic is printed and no observation
    comes out of it): the code does all of it but the save.  The only
    folder of the list lacks its platepar file: the loader prints the
    diagnostic, marks the folder on the ledger in memory and returns no
    observation, but the disk is untouched: the ledger file still holds
    the old text, which does not list the folder.  ([self.db.save()]
    stands after the [continue] of the missing-files branch, under the
    comment "Save database to mark those with missing data files".) *)
Theorem missing_files_unit_is_not_saved :
let marked :=
  addProcessedDir db_before (station_code broken_unit) (rel_proc_path broken_unit) in
load' [broken_unit] None state_broken
= ({| world := world_broken;
      db := marked;
      stdout := [SkippingMissingData (rel_proc_path broken_unit)] |},
   Ok [])
∧ processed_dirs marked !! "AB1234"
  = Some ["AB1234/AB1234_20190707_192835_241084_detected"]
∧ files world_broken !! db_file_path db_before = Some (dumps db_before)
∧ dumps db_before ≠ dumps marked
∧ files (save marked world_broken) !! db_file_path db_before = Some (dumps marked).
Proof.
split; [by vm_compute|]. split; [by vm_compute|]. split; [by vm_compute|].
split; by vm_compute.
Qed.

End Loader.

(** * Further properties *)

(** ** The ledger, further *)

Lemma addProcessedDir_cases (self : DatabaseJSON) (station_name rel_proc_path : string) :
  (addProcessedDir self station_name rel_proc_path = self
   ∧ (processed_dirs self !! station_name = None
      ∨ rel_proc_path ∈ recorded self station_name))
  ∨ (∃ paths,
       processed_dirs self !! station_name = Some paths
       ∧ (rel_proc_path ∉ paths)
       ∧ addProcessedDir self station_name rel_proc_path
         = set_processed_dirs self
             (<[station_name := (paths ++ [rel_proc_path])%list]> (processed_dirs self))).
Proof.
  unfold addProcessedDir, recorded.
  destruct (processed_dirs self !! station_name) as [paths|] eqn:E; [|left; auto].
  case_bool_decide as Hin; [left; auto|]. right. by exists paths.
Qed.

Lemma addProcessedDir_recorded (self : DatabaseJSON) (station_name rel_proc_path s : string) :
  recorded (addProcessedDir self station_name rel_proc_path) s = recorded self s
  ∨ (s = station_name
     ∧ is_Some (processed_dirs self !! station_name)
     ∧ (rel_proc_path ∉ recorded self station_name)
     ∧ recorded (addProcessedDir self station_name rel_proc_path) s
       = (recorded self station_name ++ [rel_proc_path])%list).
Proof.
  destruct (addProcessedDir_cases self station_name rel_proc_path)
    as [[-> _]|(paths & E & Hnin & ->)]; [by left|].
  unfold recorded. simpl.
  destruct (decide (s = station_name)) as [->|Hne].
  - right. rewrite lookup_insert_eq, E. simpl. by eauto.
  - left. by rewrite lookup_insert_ne.
Qed.

(** X1: marking is idempotent.  A second [addProcessedDir] with the same
    station and path changes nothing, and a path that is already on the
    list of its station leaves the ledger as it is. *)
Theorem addProcessedDir_twice (self : DatabaseJSON) (station_name rel_proc_path : string) :
  addProcessedDir (addProcessedDir self station_name rel_proc_path) station_name rel_proc_path
  = addProcessedDir self station_name rel_proc_path
  ∧ (rel_proc_path ∈ recorded self station_name →
     addProcessedDir self station_name rel_proc_path = self)
  ∧ (is_Some (processed_dirs self !! station_name) →
     rel_proc_path ∈ recorded (addProcessedDir self station_name rel_proc_path) station_name).
Proof.
  split; [apply addProcessedDir_idempotent|]. split.
  - intros Hin.
    destruct (addProcessedDir_cases self station_name rel_proc_path)
      as [[-> _]|(paths & E & Hnin & _)]; [done|].
    unfold recorded in Hin. rewrite E in Hin. done.
  - intros [paths E].
    destruct (addProcessedDir_registered self station_name rel_proc_path paths E)
      as (paths' & E' & Hin).
    unfold recorded. by rewrite E'.
Qed.

Lemma addProcessedDir_frame (self : DatabaseJSON) (station_name rel_proc_path : string) :
  let after := addProcessedDir self station_name rel_proc_path in
  db_file_path after = db_file_path self
  ∧ trajectories after = trajectories self
  ∧ dom (processed_dirs after) = dom (processed_dirs self)
  ∧ (∀ s, s ≠ station_name → processed_dirs after !! s = processed_dirs self !! s)
  ∧ (∀ s q, q ∈ recorded self s → q ∈ recorded after s)
  ∧ (∀ s q, q ∈ recorded after s →
       q ∈ recorded self s ∨ (s = station_name ∧ q = rel_proc_path)).
Proof.
  simpl.
  destruct (addProcessedDir_cases self station_name rel_proc_path)
    as [[-> _]|(paths & E & Hnin & ->)].
  { repeat split; auto. }
  simpl. split; [done|]. split; [done|]. split.
  { rewrite dom_insert_L. apply elem_of_dom_2 in E.
    apply set_eq. intros s. rewrite elem_of_union, elem_of_singleton.
    split; [intros [->|?]; done | auto]. }
  split; [intros s Hs; by rewrite lookup_insert_ne|].
  unfold recorded. simpl. split; intros s q.
  - destruct (decide (s = station_name)) as [->|Hne].
    + rewrite lookup_insert_eq, E. simpl. rewrite elem_of_app. auto.
    + by rewrite lookup_insert_ne.
  - destruct (decide (s = station_name)) as [->|Hne].
    + rewrite lookup_insert_eq, E. simpl.
      rewrite elem_of_app, list_elem_of_singleton. intros [Hq|Hq]; auto.
    + rewrite lookup_insert_ne by done. auto.
Qed.

(** X2: [addProcessedDir] only ever adds the one path under the one
    station.  The file path, the trajectories and the set of stations stay
    as they were, the lists of the other stations are untouched, no path
    that was recorded is lost, and the only path that can be new is the one
    passed in, under the station passed in. *)
Theorem addProcessedDir_only_adds (self : DatabaseJSON) (station_name rel_proc_path : string) :
  let after := addProcessedDir self station_name rel_proc_path in
  db_file_path after = db_file_path self
  ∧ trajectories after = trajectories self
  ∧ dom (processed_dirs after) = dom (processed_dirs self)
  ∧ (∀ s, s ≠ station_name → processed_dirs after !! s = processed_dirs self !! s)
  ∧ (∀ s q, q ∈ recorded self s → q ∈ recorded after s)
  ∧ (∀ s q, q ∈ recorded after s →
       q ∈ recorded self s ∨ (s = station_name ∧ q = rel_proc_path)).
Proof. apply addProcessedDir_frame. Qed.

(** X3: [addProcessedDir] keeps the lists free of duplicates: if no list of
    the ledger holds a path twice, none does afterwards. *)
Theorem addProcessedDir_no_duplicates (self : DatabaseJSON)
    (station_name rel_proc_path : string) :
  (∀ s, NoDup (recorded self s)) →
  ∀ s, NoDup (recorded (addProcessedDir self station_name rel_proc_path) s).
Proof.
  intros Hnd s.
  destruct (addProcessedDir_recorded self station_name rel_proc_path s)
    as [->|(-> & _ & Hnin & ->)]; [done|].
  apply NoDup_app. split; [done|]. split; [|apply NoDup_singleton].
  intros q Hq ->%list_elem_of_singleton. done.
Qed.

Lemma addProcessedDir_no_duplicates_witness :
  (∀ s, NoDup (recorded db_old s))
  ∧ ∀ s, NoDup (recorded db_new s).
Proof.
  assert (H : ∀ s, NoDup (recorded db_old s)).
  { intros s. unfold recorded, db_old. simpl.
    destruct (decide (s = "HR0001")) as [->|Hne].
    - rewrite lookup_singleton_eq. simpl. apply NoDup_singleton.
    - rewrite lookup_singleton_ne by done. apply NoDup_nil_2. }
  split; [exact H|].
  exact (addProcessedDir_no_duplicates db_old "HR0001"
           "HR0001/HR0001_20190708_193001_112233_detected" H).
Defined.

Lemma fs_run_save_ops_overwrites (self : DatabaseJSON) (w w' : World) :
  dirs w' = dirs w →
  (∀ p, p ≠ db_file_path self → files w' !! p = files w !! p) →
  save self w' = save self w.
Proof.
  intros Hd Hf. unfold save, save_ops, fs_run. simpl.
  rewrite !lookup_insert_eq. simpl. unfold set_files. simpl. f_equal; [|done].
  apply map_eq. intros p. destruct (decide (p = db_file_path self)) as [->|Hne].
  - by rewrite !lookup_insert_eq.
  - rewrite !lookup_insert_ne by done. by apply Hf.
Qed.

(** X4: a complete [save] makes up for whatever an earlier [save] to the
    same path left behind, finished or cut short: the disk is as if only
    the last [save] had run. *)
Theorem save_overwrites (self1 self2 : DatabaseJSON) (w : World) (k : nat) :
  db_file_path self1 = db_file_path self2 →
  save self2 (save_interrupted k self1 w) = save self2 w
  ∧ save self2 (save self1 w) = save self2 w
  ∧ save self2 (save self2 w) = save self2 w.
Proof.
  intros Hpath.
  assert (Hk : ∀ k self, db_file_path self = db_file_path self2 →
                 save self2 (save_interrupted k self w) = save self2 w).
  { intros k' self Hp. apply fs_run_save_ops_overwrites.
    - by destruct k' as [|[|[|?]]].
    - intros p Hne. rewrite <- Hp in Hne.
      destruct k' as [|[|[|?]]]; [done| |by apply save_other_files..].
      unfold save_interrupted, save_ops, fs_run. simpl. by rewrite lookup_insert_ne. }
  split; [by apply Hk|]. split.
  - by apply (Hk 2%nat self1).
  - by apply (Hk 2%nat self2).
Qed.

Lemma save_overwrites_witness :
  db_file_path db_old = db_file_path db_new
  ∧ save db_new (save_interrupted 1 db_old world_old) = save db_new world_old.
Proof.
  split; [reflexivity|].
  apply (save_overwrites db_old db_new world_old 1). reflexivity.
Defined.

(** ** The construction of an observation, further *)

Section Construction.

Import MeteorPointRMS.
Implicit Types (pp : PlateparDummy) (data : list MeteorPointRMS.t).

Lemma init_fields (sc : string) (ref : datetime) pp data (rel : string)
    (met_obs : MeteorObsRMS.t) :
  MeteorObsRMS.init sc ref pp data rel = Ok met_obs →
  MeteorObsRMS.station_code met_obs = sc
  ∧ MeteorObsRMS.rel_proc_path met_obs = rel
  ∧ MeteorObsRMS.reference_dt met_obs = ref.
Proof.
  intros (dt & fb & data1 & fe & data2 & _ & _ & _ & ->)%init_inv. done.
Qed.

(** With one pick the two velocities at the start are quotients by
    [frame - frame]: a zero, which raises, or nan, which makes the
    predicted point nan and drops the pick. *)
Lemma trim_begin_one_pick pp (p : MeteorPointRMS.t) :
  MeteorObsRMS.trim_begin pp [p] 0 = Raise ZeroDivisionError
  ∨ MeteorObsRMS.trim_begin pp [p] 0 = Ok (false, []).
Proof.
  unfold MeteorObsRMS.trim_begin, MeteorObsRMS.pre_begin, getitem.
  cbn [lookup list_lookup]. rewrite !bind_Ok. unfold truediv.
  destruct (fsub_diag (float_of_Q (frame p))) as [-> | ->].
  - by left.
  - right. cbn [SFeqb SFcompare]. rewrite !bind_Ok, !fdiv_nan_r, !fmul_nan_r, !fsub_nan_r.
    reflexivity.
Qed.

Lemma init_needs_two_picks_aux (station_code : string) (reference_dt : datetime) pp data
    (rel_proc_path : string) :
  (length data < 2)%nat →
  ∃ e, MeteorObsRMS.init station_code reference_dt pp data rel_proc_path = Raise e.
Proof.
  intros Hlen. destruct data as [|p [|q rest]]; [| |simpl in Hlen; lia].
  - by exists ValueError.
  - unfold MeteorObsRMS.init.
    destruct (timedelta_of_mean (map time_rel [p])) as [dt|e]; [|by exists e].
    rewrite bind_Ok. change (length [p] / 2)%nat with 0%nat.
    destruct (trim_begin_one_pick pp p) as [-> | ->].
    + by exists ZeroDivisionError.
    + by exists IndexError.
Qed.







Lemma post_end_end_point data (half_index : nat) :
  MeteorObsRMS.post_end data half_index
  = (pl ← getlast data; ph ← getitem data half_index; end_point pl ph).
Proof. reflexivity. Qed.

Lemma last_tail_Some {A} (l : list A) (a : A) : last (tail l) = Some a → last l = Some a.
Proof.
  destruct l as [|b l]; [done|]. simpl tail. intros H. by rewrite last_cons, H.
Qed.

End Construction.

Section ConstructionProperties.

Import MeteorPointRMS.
Implicit Types (pp : PlateparDummy) (data : list MeteorPointRMS.t).

(** X5: no observation is built from fewer than two picks: [__init__]
    raises, with a ValueError when there is no pick at all. *)
Theorem init_needs_two_picks (station_code : string) (reference_dt : datetime) pp data
    (rel_proc_path : string) :
  (length data < 2)%nat →
  (∃ e, MeteorObsRMS.init station_code reference_dt pp data rel_proc_path = Raise e)
  ∧ (data = [] →
     MeteorObsRMS.init station_code reference_dt pp data rel_proc_path = Raise ValueError).
Proof.
  intros Hlen. split; [by apply init_needs_two_picks_aux|]. by intros ->.
Qed.

Lemma init_needs_two_picks_witness :
  (length [pick 10 5 20] < 2)%nat
  ∧ ∃ e, MeteorObsRMS.init "AB1234" 0%Z pp_720x576 [pick 10 5 20] "AB1234/night" = Raise e.
Proof.
  split; [simpl; lia|].
  apply (init_needs_two_picks "AB1234" 0%Z pp_720x576 [pick 10 5 20] "AB1234/night").
  simpl; lia.
Defined.



(** X7: what a successful [__init__] returns.  The station code, the
    reference time, the platepar and the folder are the arguments; the
    flags [processed] and [paired] are false; the picks are the input less
    its first pick when [fov_beg] is false and less its last pick when
    [fov_end] is false; and the input had two picks at least. *)
Theorem init_result_shape (station_code : string) (reference_dt : datetime) pp data
    (rel_proc_path : string) (met_obs : MeteorObsRMS.t) :
  MeteorObsRMS.init station_code reference_dt pp data rel_proc_path = Ok met_obs →
  MeteorObsRMS.station_code met_obs = station_code
  ∧ MeteorObsRMS.reference_dt met_obs = reference_dt
  ∧ MeteorObsRMS.platepar met_obs = pp
  ∧ MeteorObsRMS.rel_proc_path met_obs = rel_proc_path
  ∧ MeteorObsRMS.processed met_obs = false
  ∧ MeteorObsRMS.paired met_obs = false
  ∧ MeteorObsRMS.data met_obs
    = (let working := if MeteorObsRMS.fov_beg met_obs then data else tail data in
       if MeteorObsRMS.fov_end met_obs then working else removelast working)
  ∧ (2 ≤ length data)%nat.
Proof.
  intros Hinit.
  assert (Hlen : (2 ≤ length data)%nat).
  { destruct (decide (length data < 2)%nat) as [Hlt|]; [|lia].
    destruct (init_needs_two_picks_aux station_code reference_dt pp data rel_proc_path Hlt)
      as [e He]. congruence. }
  destruct (init_inv _ _ _ _ _ _ Hinit)
    as (dt & fb & data1 & fe & data2 & Hdt & Hb & He & ->).
  apply trim_begin_inv in Hb as (xb & yb & _ & _ & ->).
  apply trim_end_inv in He as (xe & ye & _ & _ & ->).
  simpl. by repeat (split; [done|]).
Qed.

Lemma init_result_shape_witness :
  ∃ met_obs,
    MeteorObsRMS.init "AB1234" 0%Z pp_720x576 picks_from_outside "AB1234/night" = Ok met_obs
    ∧ MeteorObsRMS.data met_obs = tail picks_from_outside
    ∧ MeteorObsRMS.platepar met_obs = pp_720x576.
Proof.
  destruct (MeteorObsRMS.init "AB1234" 0%Z pp_720x576 picks_from_outside "AB1234/night")
    as [met_obs|e] eqn:E; [|by vm_compute in E].
  exists met_obs. split; [reflexivity|].
  destruct (init_result_shape _ _ _ _ _ _ E) as (_ & _ & Hp & _ & _ & _ & Hd & _).
  assert (Hfb : MeteorObsRMS.fov_beg met_obs = false) by (vm_compute in E; by injection E as <-).
  assert (Hfe : MeteorObsRMS.fov_end met_obs = true) by (vm_compute in E; by injection E as <-).
  rewrite Hfb, Hfe in Hd. split; [exact Hd|exact Hp].
Defined.

(** X8: [half_index] is taken from the input and is not taken again after
    the first pick is dropped.  In the object that [__init__] returns,
    [fov_end] is the test of the end on the point predicted from the last
    pick of the input and the pick at [half_index] of the input when the
    first pick was kept, but the pick at [half_index + 1] of the input when
    it was dropped. *)
Theorem end_velocity_after_drop (station_code : string) (reference_dt : datetime) pp data
    (rel_proc_path : string) (met_obs : MeteorObsRMS.t) :
  MeteorObsRMS.init station_code reference_dt pp data rel_proc_path = Ok met_obs →
  ∃ (pl ph : MeteorPointRMS.t) (x_post_end y_post_end : float),
    last data = Some pl
    ∧ data !! (if MeteorObsRMS.fov_beg met_obs
               then length data / 2 else S (length data / 2))%nat = Some ph
    ∧ end_point pl ph = Ok (x_post_end, y_post_end)
    ∧ MeteorObsRMS.fov_end met_obs = in_fov_end pp x_post_end y_post_end.
Proof.
  intros Hinit.
  destruct (init_points station_code reference_dt pp data rel_proc_path met_obs Hinit)
    as (xb & yb & xe & ye & _ & Hpost & _ & Hfe & _).
  cbv zeta in Hpost. rewrite post_end_end_point in Hpost.
  unfold getlast, getitem in Hpost.
  destruct (MeteorObsRMS.fov_beg met_obs).
  - destruct (last data) as [pl|]; [|done]. rewrite bind_Ok in Hpost.
    destruct (data !! (length data / 2)%nat) as [ph|]; [|done]. rewrite bind_Ok in Hpost.
    by exists pl, ph, xe, ye.
  - destruct (last (tail data)) as [pl|] eqn:Hl; [|done]. rewrite bind_Ok in Hpost.
    rewrite lookup_tail in Hpost.
    destruct (data !! S (length data / 2)) as [ph|]; [|done]. rewrite bind_Ok in Hpost.
    exists pl, ph, xe, ye. split; [by apply last_tail_Some|]. done.
Qed.

Lemma end_velocity_after_drop_witness :
  ∃ (met_obs : MeteorObsRMS.t) (pl ph : MeteorPointRMS.t) (x_post_end y_post_end : float),
    MeteorObsRMS.init "AB1234" 0%Z pp_720x576 six_picks_slowing_down "AB1234/night"
    = Ok met_obs
    ∧ MeteorObsRMS.fov_beg met_obs = false
    ∧ MeteorObsRMS.fov_end met_obs = true
    ∧ last six_picks_slowing_down = Some pl
    ∧ six_picks_slowing_down !! 4%nat = Some ph
    ∧ end_point pl ph = Ok (x_post_end, y_post_end)
    ∧ MeteorObsRMS.fov_end met_obs = in_fov_end pp_720x576 x_post_end y_post_end.
Proof.
  destruct (MeteorObsRMS.init "AB1234" 0%Z pp_720x576 six_picks_slowing_down "AB1234/night")
    as [met_obs|e] eqn:E; [|by vm_compute in E].
  assert (Hfb : MeteorObsRMS.fov_beg met_obs = false) by (vm_compute in E; by injection E as <-).
  assert (Hfe : MeteorObsRMS.fov_end met_obs = true) by (vm_compute in E; by injection E as <-).
  destruct (end_velocity_after_drop _ _ _ _ _ _ E) as (pl & ph & xe & ye & Hl & Hh & Hp & Hf).
  rewrite Hfb in Hh.
  exists met_obs, pl, ph, xe, ye. by repeat split.
Defined.

End ConstructionProperties.

(** ** Time pairing, further *)

Lemma findTimePairs_In (met_obs met_obs2 : MeteorObsRMS.t) (pool : list MeteorObsRMS.t)
    (max_toffset : Q) :
  In met_obs2 (findTimePairs met_obs pool max_toffset)
  ↔ In met_obs2 pool ∧ is_time_pair met_obs max_toffset met_obs2 = true.
Proof.
  unfold findTimePairs. rewrite findTimePairs_loop_filter. simpl. apply filter_In.
Qed.

(** The timedelta the other way round is the opposite one, and
    [total_seconds] of it the opposite float. *)
Lemma total_seconds_swap (t1 t2 : Z) :
  fabs (total_seconds (t1 - t2)) = fabs (total_seconds (t2 - t1)).
Proof.
  unfold total_seconds. replace (t2 - t1)%Z with (- (t1 - t2))%Z by lia.
  symmetry. apply fabs_float_of_Q_opp.
Qed.

Lemma is_time_pair_sym (a b : MeteorObsRMS.t) (max_toffset : Q) :
  is_time_pair a max_toffset b = is_time_pair b max_toffset a.
Proof.
  unfold is_time_pair.
  rewrite (total_seconds_swap (MeteorObsRMS.mean_dt a) (MeteorObsRMS.mean_dt b)).
  by rewrite (String.eqb_sym (MeteorObsRMS.station_code a)).
Qed.

(** X9: pairing in time is symmetric.  If [b] comes out of
    [findTimePairs] for [a], then [a] comes out of [findTimePairs] for [b]
    from any pool that holds [a], with the same offset. *)
Theorem findTimePairs_symmetric (a b : MeteorObsRMS.t) (pool pool' : list MeteorObsRMS.t)
    (max_toffset : Q) :
  In b (findTimePairs a pool max_toffset) →
  In a pool' →
  In a (findTimePairs b pool' max_toffset).
Proof.
  rewrite !findTimePairs_In. intros [_ Hpair] Hin. split; [done|].
  by rewrite is_time_pair_sym.
Qed.

Lemma findTimePairs_symmetric_witness :
  In obs_B (findTimePairs obs_A [obs_B; obs_C] 5)
  ∧ In obs_A [obs_A; obs_C]
  ∧ In obs_A (findTimePairs obs_B [obs_A; obs_C] 5).
Proof.
  assert (H1 : In obs_B (findTimePairs obs_A [obs_B; obs_C] 5)) by (vm_compute; auto).
  assert (H2 : In obs_A [obs_A; obs_C]) by (simpl; auto).
  split; [exact H1|]. split; [exact H2|].
  exact (findTimePairs_symmetric obs_A obs_B [obs_B; obs_C] [obs_A; obs_C] 5 H1 H2).
Defined.

(** X10: a larger offset never loses a pair: what [findTimePairs] returns
    for [max_toffset] it also returns for every larger offset. *)
Theorem findTimePairs_monotone (met_obs met_obs2 : MeteorObsRMS.t)
    (pool : list MeteorObsRMS.t) (max_toffset max_toffset' : Q) :
  (max_toffset <= max_toffset')%Q →
  In met_obs2 (findTimePairs met_obs pool max_toffset) →
  In met_obs2 (findTimePairs met_obs pool max_toffset').
Proof.
  rewrite !findTimePairs_In, !is_time_pair_iff.
  intros Hle (Hin & Hne & seconds & Hs & Hoff). repeat split; try done.
  exists seconds. split; [done|]. by eapply Qle_trans.
Qed.

Lemma findTimePairs_monotone_witness :
  (5 <= 10)%Q
  ∧ In obs_B (findTimePairs obs_A [obs_B; obs_C] 5)
  ∧ In obs_B (findTimePairs obs_A [obs_B; obs_C] 10).
Proof.
  assert (H1 : (5 <= 10)%Q) by (by vm_compute).
  assert (H2 : In obs_B (findTimePairs obs_A [obs_B; obs_C] 5)) by (vm_compute; auto).
  split; [exact H1|]. split; [exact H2|].
  exact (findTimePairs_monotone obs_A obs_B [obs_B; obs_C] 5 10 H1 H2).
Defined.

Lemma filter_sublist {A} (f : A → bool) (l : list A) : sublist (List.filter f l) l.
Proof.
  induction l as [|a l IH]; simpl; [constructor|].
  destruct (f a); by constructor.
Qed.

(** X11: [findTimePairs] selects from the pool and nothing more.  The
    result is a sublist of the pool (same order, no more elements), the
    result for two pools put end to end is the two results put end to end,
    no returned observation has the station of the given one (so an
    observation is never paired with itself), and a negative offset
    returns nothing. *)
Theorem findTimePairs_selects (met_obs : MeteorObsRMS.t) (pool pool' : list MeteorObsRMS.t)
    (max_toffset : Q) :
  sublist (findTimePairs met_obs pool max_toffset) pool
  ∧ findTimePairs met_obs (pool ++ pool')%list max_toffset
    = (findTimePairs met_obs pool max_toffset
       ++ findTimePairs met_obs pool' max_toffset)%list
  ∧ (∀ met_obs2, In met_obs2 (findTimePairs met_obs pool max_toffset) →
       MeteorObsRMS.station_code met_obs2 ≠ MeteorObsRMS.station_code met_obs)
  ∧ ¬ In met_obs (findTimePairs met_obs pool max_toffset)
  ∧ ((max_toffset < 0)%Q → findTimePairs met_obs pool max_toffset = []).
Proof.
  assert (Heq : ∀ l, findTimePairs met_obs l max_toffset
                     = List.filter (is_time_pair met_obs max_toffset) l).
  { intros l. unfold findTimePairs. by rewrite findTimePairs_loop_filter. }
  split; [rewrite Heq; apply filter_sublist|].
  split; [rewrite !Heq; apply List.filter_app|].
  split.
  { intros met_obs2 [_ [Hne _]%is_time_pair_iff]%findTimePairs_In. congruence. }
  split.
  { intros [_ [Hne _]%is_time_pair_iff]%findTimePairs_In. congruence. }
  intros Hneg. rewrite Heq.
  induction pool as [|o rest IH]; [done|]. simpl.
  destruct (is_time_pair met_obs max_toffset o) eqn:E; [|exact IH].
  apply is_time_pair_iff in E as [_ (seconds & _ & Hle)]. exfalso.
  apply (Qlt_irrefl 0). eapply Qle_lt_trans; [apply (Qabs_nonneg seconds)|].
  eapply Qle_lt_trans; [exact Hle|exact Hneg].
Qed.

(** ** The station scan, further *)

(** X12: the names [re.match("^[A-Z]{2}[A-Z0-9]{4}$", name)] accepts are
    the six-character station codes and the six-character station codes
    followed by one newline, and no other. *)
Theorem re_match_station_language (name : string) :
  re_match_station name = true
  ↔ is_station_code name = true
    ∨ ∃ code, is_station_code code = true ∧ name = code ++ String nl EmptyString.
Proof.
  split.
  - unfold re_match_station. intros H.
    destruct name as [|a name]; [done|]. simpl in H.
    destruct (is_upper a) eqn:Ea; [|done].
    destruct name as [|b name]; [done|]. simpl in H.
    destruct (is_upper b) eqn:Eb; [|done].
    destruct name as [|c name]; [done|]. simpl in H.
    destruct (is_upper c || is_digit c) eqn:Ec; [|done].
    destruct name as [|d name]; [done|].
    destruct (is_upper d || is_digit d) eqn:Ed; [|done].
    destruct name as [|e name]; [done|].
    destruct (is_upper e || is_digit e) eqn:Ee; [|done].
    destruct name as [|f name]; [done|].
    destruct (is_upper f || is_digit f) eqn:Ef; [|done].
    assert (Hcode : is_station_code
              (String a (String b (String c (String d (String e (String f EmptyString))))))
            = true).
    { unfold is_station_code. simpl. by rewrite Ea, Eb, Ec, Ed, Ee, Ef. }
    destruct name as [|g name]; [by left|].
    right. unfold re_dollar in H. simpl in H.
    destruct (Ascii.eqb_spec g nl) as [->|]; [|done].
    destruct name; [|done]. eexists. split; [exact Hcode|done].
  - intros [H|(code & H & ->)]; [by apply is_station_code_matches|].
    unfold is_station_code in H.
    do 6 (destruct code as [|? code]; [done|]).
    destruct code as [|? code]; [|done]. simpl in H.
    apply andb_true_iff in H as [[Ha Hb]%andb_true_iff H].
    apply andb_true_iff in H as [Hc H]. apply andb_true_iff in H as [Hd H].
    apply andb_true_iff in H as [He H]. apply andb_true_iff in H as [Hf _].
    unfold re_match_station. simpl. rewrite Ha, Hb. simpl. rewrite Hc. simpl.
    rewrite Hd. simpl. rewrite He. simpl. by rewrite Hf.
Qed.

(** X13: [loadStations] raises OSError when the root cannot be listed.
    Otherwise it returns the stations in the order of the listing (a
    sublist of it, so without repeats when the listing has none), each of
    them a directory whose name matches the pattern, and it prints exactly
    one line for each directory of the listing. *)
Theorem loadStations_outcome (w : World) (dir_path : string) :
  (dirs w !! dir_path = None → loadStations w dir_path = Raise OSError)
  ∧ (∀ names, dirs w !! dir_path = Some names →
       ∃ out station_list,
         loadStations w dir_path = Ok (out, station_list)
         ∧ sublist station_list names
         ∧ (NoDup names → NoDup station_list)
         ∧ Forall (λ dir_name, isdir w (path_join dir_path dir_name) = true
                               ∧ re_match_station dir_name = true) station_list
         ∧ length out
           = length (List.filter (λ dir_name, isdir w (path_join dir_path dir_name)) names)).
Proof.
  split.
  - intros Hnone. unfold loadStations, listdir. by rewrite Hnone.
  - intros names Hsome. eexists. eexists. split.
    { unfold loadStations, listdir. rewrite Hsome, bind_Ok.
      rewrite loadStations_loop_spec. reflexivity. }
    simpl. split; [apply filter_sublist|].
    split; [intros Hnd; exact (sublist_NoDup _ names Hnd (filter_sublist _ names))|].
    split.
    { apply Forall_forall. intros dir_name [_ Hacc]%list_elem_of_In%filter_In.
      unfold station_accepted in Hacc. by apply andb_true_iff in Hacc. }
    clear Hsome. induction names as [|dir_name rest IH]; [done|]. simpl.
    rewrite length_app, IH. unfold station_diag.
    destruct (isdir w (path_join dir_path dir_name)); [|done].
    by destruct (re_match_station dir_name).
Qed.

(** ** Discovery of unprocessed folders, further *)

Lemma addProcessedDir_recorded_iff (self : DatabaseJSON)
    (station_name rel_proc_path s q : string) :
  is_Some (processed_dirs self !! station_name) →
  q ∈ recorded (addProcessedDir self station_name rel_proc_path) s
  ↔ q ∈ recorded self s ∨ (s = station_name ∧ q = rel_proc_path).
Proof.
  intros [paths E].
  destruct (addProcessedDir_cases self station_name rel_proc_path)
    as [[-> [Hnone|Hin]]|(paths' & E' & Hnin & ->)].
  - congruence.
  - split; [auto|]. intros [?|[-> ->]]; done.
  - unfold recorded. simpl. destruct (decide (s = station_name)) as [->|Hne].
    + rewrite lookup_insert_eq, E'. simpl.
      rewrite elem_of_app, list_elem_of_singleton. tauto.
    + rewrite lookup_insert_ne by done. split; [auto|]. intros [?|[? _]]; done.
Qed.

Lemma foldl_register_keeps (self : DatabaseJSON) (stations : list string) :
  db_file_path (foldl register_station self stations) = db_file_path self
  ∧ trajectories (foldl register_station self stations) = trajectories self
  ∧ (∀ s, is_Some (processed_dirs (foldl register_station self stations) !! s)
          ↔ is_Some (processed_dirs self !! s) ∨ In s stations).
Proof.
  revert self. induction stations as [|s' rest IH]; intros self; simpl.
  - split; [done|]. split; [done|]. intros s. tauto.
  - destruct (IH (register_station self s')) as (Hp & Ht & Hk).
    assert (Hreg : db_file_path (register_station self s') = db_file_path self
                   ∧ trajectories (register_station self s') = trajectories self
                   ∧ ∀ s, is_Some (processed_dirs (register_station self s') !! s)
                          ↔ is_Some (processed_dirs self !! s) ∨ s' = s).
    { unfold register_station.
      destruct (processed_dirs self !! s') as [paths|] eqn:E.
      - split; [done|]. split; [done|]. intros s. split; [auto|].
        intros [?| <-]; [done|]. by rewrite E.
      - simpl. split; [done|]. split; [done|]. intros s.
        destruct (decide (s = s')) as [->|Hne].
        + rewrite lookup_insert_eq. split; [auto|by eexists].
        + rewrite lookup_insert_ne by done. split; [auto|].
          intros [?|?]; [done|congruence]. }
    destruct Hreg as (Hp' & Ht' & Hk').
    split; [congruence|]. split; [congruence|].
    intros s. rewrite Hk, Hk'. tauto.
Qed.

Section Discovery.

Variable strptime : string → option datetime.

Implicit Types (w : World) (self : DatabaseJSON) (st : State).

Lemma recorded_register_station self (station_name s : string) :
  recorded (register_station self station_name) s = recorded self s.
Proof.
  unfold register_station, recorded.
  destruct (processed_dirs self !! station_name) as [paths|] eqn:E; [done|]. simpl.
  destruct (decide (s = station_name)) as [->|Hne].
  - by rewrite lookup_insert_eq, E.
  - by rewrite lookup_insert_ne.
Qed.

Lemma is_recorded_register_station self (station_name s night_name : string) :
  is_recorded (register_station self station_name) s night_name = is_recorded self s night_name.
Proof. unfold is_recorded. by rewrite recorded_register_station. Qed.

Lemma findUnprocessedFolders_nights_spec self (dir_path station_name : string)
    (night_names : list string) (out : list diag) (pl : list ProcessingUnit) (sk : nat) :
  findUnprocessedFolders_nights strptime dir_path station_name
    (recorded self station_name) night_names out pl sk
  = ((out ++ flat_map (night_diag strptime dir_path station_name) night_names)%list,
     (pl ++ map (night_unit strptime dir_path station_name)
              (List.filter (λ n, negb (is_recorded self station_name n)) night_names))%list,
     (sk + length (List.filter (is_recorded self station_name) night_names))%nat).
Proof.
  revert out pl sk. induction night_names as [|night_name rest IH]; intros out pl sk.
  - simpl. by rewrite !app_nil_r, Nat.add_0_r.
  - simpl.
    change (bool_decide (path_join station_name night_name ∈ recorded self station_name))
      with (is_recorded self station_name night_name).
    unfold night_diag at 1.
    destruct (is_recorded self station_name night_name); simpl; rewrite IH;
      destruct (strptime (night_date_text night_name)) eqn:Edt; simpl;
      rewrite <- ?app_assoc; simpl; f_equal; try lia;
      unfold night_unit; by rewrite Edt.
Qed.

(** What the loop over the stations leaves when every station directory
    can be listed. *)
Lemma findUnprocessedFolders_loop_ok (dir_path : string) (station_list : list string) st
    (pl : list ProcessingUnit) (sk : nat) :
  Forall (λ s, is_Some (dirs (world st) !! path_join dir_path s)) station_list →
  findUnprocessedFolders_loop strptime dir_path station_list st pl sk
  = ({| world := world st;
        db := foldl register_station (db st) station_list;
        stdout := (stdout st
                   ++ flat_map (λ s, flat_map (night_diag strptime dir_path s)
                                       (station_nights (world st) dir_path s))
                        station_list)%list |},
     Ok ((pl ++ flat_map (station_units strptime (world st) (db st) dir_path)
                  station_list)%list,
         (sk + list_sum (map (station_skipped (world st) (db st) dir_path)
                           station_list))%nat)).
Proof.
  revert st pl sk. induction station_list as [|s rest IH]; intros st pl sk Hall.
  - simpl. rewrite !app_nil_r, Nat.add_0_r. by destruct st.
  - apply Forall_cons in Hall as [[nights Hs] Hall]. simpl.
    unfold listdir. simpl. rewrite Hs.
    change (default [] (processed_dirs (register_station (db st) s) !! s))
      with (recorded (register_station (db st) s) s).
    rewrite findUnprocessedFolders_nights_spec.
    rewrite IH by done. simpl.
    unfold station_units at 2, station_skipped at 2, station_nights. rewrite Hs. simpl.
    f_equal; [f_equal|f_equal; f_equal].
    + by rewrite <- app_assoc.
    + rewrite <- app_assoc. f_equal. f_equal.
      * f_equal. apply filter_ext. intros n.
        by rewrite is_recorded_register_station.
      * apply flat_map_ext. intros s'. unfold station_units. f_equal.
        apply filter_ext. intros n. by rewrite is_recorded_register_station.
    + rewrite <- Nat.add_assoc. f_equal. f_equal.
      * f_equal. apply filter_ext. intros n. by rewrite is_recorded_register_station.
      * f_equal. apply map_ext. intros s'. unfold station_skipped. f_equal.
        apply filter_ext. intros n. by rewrite is_recorded_register_station.
Qed.

(** What the loop leaves in any case: the disk is as it was, the ledger
    has at most gained stations with empty lists, and only an OSError can
    be raised. *)
Lemma findUnprocessedFolders_loop_any (dir_path : string) (station_list : list string) st
    (pl : list ProcessingUnit) (sk : nat) :
  let res := findUnprocessedFolders_loop strptime dir_path station_list st pl sk in
  world res.1 = world st
  ∧ (∃ k, db res.1 = foldl register_station (db st) (take k station_list))
  ∧ (∀ e, res.2 = Raise e →
       e = OSError ∧ Exists (λ s, dirs (world st) !! path_join dir_path s = None) station_list).
Proof.
  revert st pl sk. induction station_list as [|s rest IH]; intros st pl sk; simpl.
  - split; [done|]. split; [by exists 0%nat|done].
  - unfold listdir. simpl.
    destruct (dirs (world st) !! path_join dir_path s) as [nights|] eqn:Hs.
    + destruct (findUnprocessedFolders_nights _ _ _ _ _ _ _ _) as [[out pl'] sk'].
      specialize (IH {| world := world st; db := register_station (db st) s; stdout := out |}
                     pl' sk').
      simpl in IH. destruct IH as (Hw & [k Hk] & He).
      split; [done|]. split; [by exists (S k)|].
      intros e Hr. destruct (He e Hr) as [-> Hex]. split; [done|]. by apply Exists_cons_tl.
    + simpl. split; [done|]. split; [by exists 1%nat|].
      intros e [= <-]. split; [done|]. by apply Exists_cons_hd.
Qed.

Lemma recorded_foldl_register self (stations : list string) (s : string) :
  recorded (foldl register_station self stations) s = recorded self s.
Proof.
  revert self. induction stations as [|s' rest IH]; intros self; [done|]. simpl.
  by rewrite IH, recorded_register_station.
Qed.

End Discovery.

Section DiscoveryProperties.

Variable strptime : string → option datetime.

Implicit Types (w : World) (self : DatabaseJSON) (st : State).

Lemma findUnprocessedFolders_loop_Ok_listable (dir_path : string) (station_list : list string)
    st (pl : list ProcessingUnit) (sk : nat) (r : list ProcessingUnit * nat) :
  (findUnprocessedFolders_loop strptime dir_path station_list st pl sk).2 = Ok r →
  Forall (λ s, is_Some (dirs (world st) !! path_join dir_path s)) station_list.
Proof.
  revert st pl sk. induction station_list as [|s rest IH]; intros st pl sk Hr; [done|].
  simpl in Hr. unfold listdir in Hr. simpl in Hr.
  destruct (dirs (world st) !! path_join dir_path s) as [nights|] eqn:Hs; [|done].
  destruct (findUnprocessedFolders_nights _ _ _ _ _ _ _ _) as [[out pl'] sk'].
  apply Forall_cons. split; [by eexists|]. by apply IH in Hr.
Qed.

Lemma station_units_In w self (dir_path : string) (station_list : list string)
    (unit : ProcessingUnit) :
  In unit (flat_map (station_units strptime w self dir_path) station_list)
  ↔ ∃ station_name night_name,
      In station_name station_list
      ∧ In night_name (station_nights w dir_path station_name)
      ∧ (path_join station_name night_name ∉ recorded self station_name)
      ∧ unit = night_unit strptime dir_path station_name night_name.
Proof.
  rewrite in_flat_map. unfold station_units. split.
  - intros (s & Hs & Hu). apply in_map_iff in Hu as (n & <- & Hn).
    apply filter_In in Hn as [Hn Hrec]. exists s, n. repeat split; try done.
    unfold is_recorded in Hrec. apply negb_true_iff in Hrec.
    by apply bool_decide_eq_false in Hrec.
  - intros (s & n & Hs & Hn & Hrec & ->). exists s. split; [done|].
    apply in_map. apply filter_In. split; [done|].
    unfold is_recorded. apply negb_true_iff. by apply bool_decide_eq_false.
Qed.

Lemma findUnprocessedFolders_ok (dir_path : string) (station_list : list string) st :
  Forall (λ s, is_Some (dirs (world st) !! path_join dir_path s)) station_list →
  ∃ out,
    findUnprocessedFolders strptime dir_path station_list st
    = ({| world := world st;
          db := foldl register_station (db st) station_list;
          stdout := out |},
       Ok (flat_map (station_units strptime (world st) (db st) dir_path) station_list))
    ∧ out = (stdout st
             ++ flat_map (λ s, flat_map (night_diag strptime dir_path s)
                                 (station_nights (world st) dir_path s)) station_list
             ++ match list_sum (map (station_skipped (world st) (db st) dir_path)
                                  station_list) with
                | O => []
                | S n => [SkippedProcessed (S n)]
                end)%list.
Proof.
  intros Hall. unfold findUnprocessedFolders.
  rewrite (findUnprocessedFolders_loop_ok strptime) by done. simpl.
  destruct (list_sum _) as [|n]; eexists; (split; [reflexivity|]).
  - by rewrite app_nil_r.
  - simpl. by rewrite <- app_assoc.
Qed.

End DiscoveryProperties.

(** X14: when every station directory can be listed,
    [findUnprocessedFolders] returns exactly the night folders the ledger
    does not hold, station by station in the order of the station list and
    night by night in the order of the listings: a unit is returned if and
    only if it is the unit of a night folder of a listed station whose
    relative path is not on the list of that station. *)
Theorem findUnprocessedFolders_exact (strptime : string → option datetime)
    (dir_path : string) (station_list : list string) (st : State) :
  Forall (λ s, is_Some (dirs (world st) !! path_join dir_path s)) station_list →
  (findUnprocessedFolders strptime dir_path station_list st).2
  = Ok (flat_map (station_units strptime (world st) (db st) dir_path) station_list)
  ∧ ∀ unit,
      In unit (flat_map (station_units strptime (world st) (db st) dir_path) station_list)
      ↔ ∃ station_name night_name,
          In station_name station_list
          ∧ In night_name (station_nights (world st) dir_path station_name)
          ∧ (path_join station_name night_name ∉ recorded (db st) station_name)
          ∧ unit = {| station_code := station_name;
                      rel_proc_path := path_join station_name night_name;
                      proc_path := path_join (path_join dir_path station_name) night_name;
                      night_dt := strptime (night_date_text night_name) |}.
Proof.
  intros Hall.
  destruct (findUnprocessedFolders_ok strptime dir_path station_list st Hall) as (out & -> & _).
  split; [done|]. intros unit. apply station_units_In.
Qed.

Lemma findUnprocessedFolders_exact_witness :
  Forall (λ s, is_Some (dirs (world state_broken) !! path_join "/data" s)) ["AB1234"]
  ∧ (findUnprocessedFolders no_date "/data" ["AB1234"] state_broken).2 = Ok [broken_unit].
Proof.
  assert (H : Forall (λ s, is_Some (dirs (world state_broken) !! path_join "/data" s))
                     ["AB1234"]).
  { apply Forall_cons. split; [by eexists|apply Forall_nil_2]. }
  split; [exact H|].
  destruct (findUnprocessedFolders_exact no_date "/data" ["AB1234"] state_broken H) as [-> _].
  reflexivity.
Defined.

Lemma filter_split_length {A} (f : A → bool) (l : list A) :
  (length (List.filter (λ a, negb (f a)) l) + length (List.filter f l) = length l)%nat.
Proof.
  induction l as [|a l IH]; [done|]. simpl. destruct (f a); simpl; lia.
Qed.

(** X15: every night folder is either returned or counted as skipped.
    When every station directory can be listed, the number of units
    returned plus the number of folders found on the ledger is the number
    of night folders listed, and the line "Skipped n processed directories"
    is printed, as the last line, exactly when that number n is not zero. *)
Theorem findUnprocessedFolders_counts (strptime : string → option datetime)
    (dir_path : string) (station_list : list string) (st : State) :
  Forall (λ s, is_Some (dirs (world st) !! path_join dir_path s)) station_list →
  ∃ processing_list skipped_dirs parse_lines,
    (findUnprocessedFolders strptime dir_path station_list st).2 = Ok processing_list
    ∧ (length processing_list + skipped_dirs
       = length (flat_map (station_nights (world st) dir_path) station_list))%nat
    ∧ skipped_dirs
      = list_sum (map (station_skipped (world st) (db st) dir_path) station_list)
    ∧ Forall (λ d, ∃ night_path, d = CouldNotParseDate night_path) parse_lines
    ∧ stdout (findUnprocessedFolders strptime dir_path station_list st).1
      = (stdout st ++ parse_lines
         ++ match skipped_dirs with
            | O => []
            | S _ => [SkippedProcessed skipped_dirs]
            end)%list.
Proof.
  intros Hall.
  destruct (findUnprocessedFolders_ok strptime dir_path station_list st Hall)
    as (out & -> & ->).
  exists (flat_map (station_units strptime (world st) (db st) dir_path) station_list),
         (list_sum (map (station_skipped (world st) (db st) dir_path) station_list)),
         (flat_map (λ s, flat_map (night_diag strptime dir_path s)
                           (station_nights (world st) dir_path s)) station_list).
  split; [reflexivity|]. simpl.
  split; [|split; [reflexivity|split; [|by destruct (list_sum _)]]].
  - clear Hall. induction station_list as [|s rest IH]; [done|]. simpl.
    rewrite !length_app, <- IH. unfold station_units at 1, station_skipped at 1.
    rewrite length_map.
    pose proof (filter_split_length (is_recorded (db st) s)
                  (station_nights (world st) dir_path s)). lia.
  - clear Hall. apply Forall_forall. intros d Hd%list_elem_of_In.
    apply in_flat_map in Hd as (s & _ & Hd). apply in_flat_map in Hd as (n & _ & Hd).
    unfold night_diag in Hd. destruct (strptime (night_date_text n)); [done|].
    destruct Hd as [<-|[]]. by eexists.
Qed.

Lemma findUnprocessedFolders_counts_witness :
  Forall (λ s, is_Some (dirs (world state_broken) !! path_join "/data" s)) ["AB1234"]
  ∧ ∃ processing_list skipped_dirs,
      (findUnprocessedFolders no_date "/data" ["AB1234"] state_broken).2 = Ok processing_list
      ∧ (length processing_list + skipped_dirs
         = length (flat_map (station_nights (world state_broken) "/data") ["AB1234"]))%nat.
Proof.
  assert (H : Forall (λ s, is_Some (dirs (world state_broken) !! path_join "/data" s))
                     ["AB1234"]).
  { apply Forall_cons. split; [by eexists|apply Forall_nil_2]. }
  split; [exact H|].
  destruct (findUnprocessedFolders_counts no_date "/data" ["AB1234"] state_broken H)
    as (pl & sk & _ & Hr & Hlen & _).
  by exists pl, sk.
Defined.

(** X16: what [findUnprocessedFolders] does to its surroundings, whether it
    returns or raises.  The disk is not touched; in the ledger the file
    path, the trajectories and every list of paths stay as they were, and
    the only new keys are stations of the station list, with empty lists;
    when it returns, every station of the list is a key.  It raises only
    OSError, and it does so exactly when some station directory cannot be
    listed. *)
Theorem findUnprocessedFolders_effect (strptime : string → option datetime)
    (dir_path : string) (station_list : list string) (st : State) :
  let res := findUnprocessedFolders strptime dir_path station_list st in
  world res.1 = world st
  ∧ db_file_path (db res.1) = db_file_path (db st)
  ∧ trajectories (db res.1) = trajectories (db st)
  ∧ (∀ s, recorded (db res.1) s = recorded (db st) s)
  ∧ (∀ s, is_Some (processed_dirs (db st) !! s) → is_Some (processed_dirs (db res.1) !! s))
  ∧ (∀ s, is_Some (processed_dirs (db res.1) !! s) →
          is_Some (processed_dirs (db st) !! s) ∨ In s station_list)
  ∧ (∀ processing_list, res.2 = Ok processing_list →
       ∀ s, In s station_list → is_Some (processed_dirs (db res.1) !! s))
  ∧ (∀ e, res.2 = Raise e → e = OSError)
  ∧ (res.2 = Raise OSError
     ↔ Exists (λ s, dirs (world st) !! path_join dir_path s = None) station_list).
Proof.
  simpl.
  pose proof (findUnprocessedFolders_loop_any strptime dir_path station_list st [] 0) as Hany.
  pose proof (findUnprocessedFolders_loop_Ok_listable strptime dir_path station_list st [] 0)
    as Hok.
  pose proof (findUnprocessedFolders_loop_registers strptime dir_path station_list st) as Hreg.
  unfold findUnprocessedFolders.
  destruct (findUnprocessedFolders_loop strptime dir_path station_list st [] 0)
    as [st' r] eqn:Eloop.
  simpl in Hany, Hok. destruct Hany as (Hw & [k Hk] & He).
  destruct (foldl_register_keeps (db st) (take k station_list)) as (Hp & Ht & Hkeys).
  assert (Htake : ∀ s, In s (take k station_list) → In s station_list).
  { intros s Hs. rewrite <- (take_drop k station_list). apply in_app_iff. by left. }
  assert (Hfacts :
    world st' = world st
    ∧ db_file_path (db st') = db_file_path (db st)
    ∧ trajectories (db st') = trajectories (db st)
    ∧ (∀ s, recorded (db st') s = recorded (db st) s)
    ∧ (∀ s, is_Some (processed_dirs (db st) !! s) → is_Some (processed_dirs (db st') !! s))
    ∧ (∀ s, is_Some (processed_dirs (db st') !! s) →
            is_Some (processed_dirs (db st) !! s) ∨ In s station_list)).
  { rewrite Hk. split; [done|]. split; [done|]. split; [done|].
    split; [intros s; apply recorded_foldl_register|].
    split; intros s Hs; apply Hkeys in Hs || apply Hkeys; intuition. }
  destruct Hfacts as (F1 & F2 & F3 & F4 & F5 & F6).
  destruct r as [[pl sk]|e]; simpl.
  - assert (Hdb : db (match sk with
                      | O => st'
                      | S _ => print st' (SkippedProcessed sk)
                      end) = db st') by (by destruct sk).
    assert (Hwo : world (match sk with
                         | O => st'
                         | S _ => print st' (SkippedProcessed sk)
                         end) = world st') by (by destruct sk).
    rewrite Hdb, Hwo. repeat (split; [done|]).
    split.
    { intros _ _ s Hs. apply (Hreg st' [] 0%nat (pl, sk) Eloop). by left. }
    split; [done|]. split; [done|].
    intros Hex. specialize (Hok (pl, sk) eq_refl).
    apply Exists_exists in Hex as (s & Hs & Hnone).
    rewrite Forall_forall in Hok. specialize (Hok s Hs).
    rewrite Hnone in Hok. by destruct Hok.
  - repeat (split; [done|]).
    destruct (He e eq_refl) as [-> Hex]. split; [by intros e0 [= <-]|]. by split.
Qed.

(** X17: a folder that has been marked is not found again.  After a run of
    [findUnprocessedFolders] that returned [unit], and [addProcessedDir]
    with the station and the relative path of [unit], a second run over the
    same disk returns the units of the first run except those with that
    station and that path, [unit] among them. *)
Theorem marked_unit_not_rediscovered (strptime : string → option datetime)
    (dir_path : string) (station_list : list string) (st st1 : State)
    (processing_list : list ProcessingUnit) (unit : ProcessingUnit) :
  findUnprocessedFolders strptime dir_path station_list st = (st1, Ok processing_list) →
  In unit processing_list →
  ∃ st2 processing_list2,
    findUnprocessedFolders strptime dir_path station_list
      (set_db st1 (addProcessedDir (db st1) (station_code unit) (rel_proc_path unit)))
    = (st2, Ok processing_list2)
    ∧ ¬ In unit processing_list2
    ∧ ∀ v, In v processing_list2
           ↔ In v processing_list
             ∧ ¬ (station_code v = station_code unit
                  ∧ rel_proc_path v = rel_proc_path unit).
Proof.
  intros Hrun Hunit.
  assert (Hall : Forall (λ s, is_Some (dirs (world st) !! path_join dir_path s)) station_list).
  { unfold findUnprocessedFolders in Hrun.
    destruct (findUnprocessedFolders_loop strptime dir_path station_list st [] 0)
      as [st' [[pl sk]|e]] eqn:Eloop; [|done].
    apply (findUnprocessedFolders_loop_Ok_listable strptime dir_path station_list st [] 0
             (pl, sk)). by rewrite Eloop. }
  destruct (findUnprocessedFolders_ok strptime dir_path station_list st Hall) as (out & Hok & _).
  rewrite Hok in Hrun. injection Hrun as <- <-. simpl.
  set (db1 := foldl register_station (db st) station_list).
  set (db2 := addProcessedDir db1 (station_code unit) (rel_proc_path unit)).
  destruct (findUnprocessedFolders_ok strptime dir_path station_list
              (set_db {| world := world st; db := db1; stdout := out |} db2) Hall)
    as (out2 & Hok2 & _).
  simpl in Hok2. eexists. eexists. split; [exact Hok2|].
  apply station_units_In in Hunit as (su & nu & Hsu & Hnu & Hrecu & Hu).
  assert (Hreg : is_Some (processed_dirs db1 !! station_code unit)).
  { apply foldl_register_keeps. right. by rewrite Hu. }
  assert (Hrec2 : ∀ s q, q ∈ recorded db2 s
                         ↔ q ∈ recorded (db st) s
                           ∨ (s = station_code unit ∧ q = rel_proc_path unit)).
  { intros s q. unfold db2. rewrite addProcessedDir_recorded_iff by done.
    unfold db1. by rewrite recorded_foldl_register. }
  assert (Hiff : ∀ v, In v (flat_map (station_units strptime (world st) db2 dir_path)
                              station_list)
                      ↔ In v (flat_map (station_units strptime (world st) (db st) dir_path)
                                station_list)
                        ∧ ¬ (station_code v = station_code unit
                             ∧ rel_proc_path v = rel_proc_path unit)).
  { intros v. rewrite !station_units_In. split.
    - intros (s & n & Hs & Hn & Hrec & ->). split.
      + exists s, n. repeat split; try done. intros Hin. apply Hrec, Hrec2. by left.
      + simpl. intros [Hs' Hp']. apply Hrec, Hrec2. right. done.
    - intros [(s & n & Hs & Hn & Hrec & ->) Hnot]. exists s, n. repeat split; try done.
      intros [Hin|Heq]%Hrec2; [done|]. by apply Hnot. }
  split; [|exact Hiff].
  intros [_ Hnot]%Hiff. by apply Hnot.
Qed.

Lemma marked_unit_not_rediscovered_witness :
  let run1 := findUnprocessedFolders no_date "/data" ["AB1234"] state_broken in
  run1 = (run1.1, Ok [broken_unit])
  ∧ In broken_unit [broken_unit]
  ∧ ∃ st2 processing_list2,
      findUnprocessedFolders no_date "/data" ["AB1234"]
        (set_db run1.1 (addProcessedDir (db run1.1) (station_code broken_unit)
                          (rel_proc_path broken_unit)))
      = (st2, Ok processing_list2)
      ∧ ¬ In broken_unit processing_list2.
Proof.
  set (run1 := findUnprocessedFolders no_date "/data" ["AB1234"] state_broken).
  assert (H1 : run1 = (run1.1, Ok [broken_unit])) by (vm_compute; reflexivity).
  assert (H2 : In broken_unit [broken_unit]) by (simpl; auto).
  split; [exact H1|]. split; [exact H2|].
  destruct (marked_unit_not_rediscovered no_date "/data" ["AB1234"] state_broken run1.1
              [broken_unit] broken_unit H1 H2) as (st2 & pl2 & Hrun & Hnot & _).
  exists st2, pl2. split; assumption.
Defined.

(** ** Loading, further *)

Section LoaderSteps.

Variable json_load_platepars : string → result (list (string * PlateparDummy)).
Variable loadFTPDetectInfo : World → string → string → Q → Q → Q → result (list CamsObs.t).
Variable np_radians np_degrees : Q → Q.
Variable jd2Date : Q → datetime.

#[local] Abbreviation format_observations' := (format_observations np_degrees jd2Date).
#[local] Abbreviation format_one' := (format_one np_degrees jd2Date).
#[local] Abbreviation load_unit' :=
  (load_unit json_load_platepars loadFTPDetectInfo np_radians np_degrees jd2Date).
#[local] Abbreviation load_loop' :=
  (loadUnprocessedObservations_loop json_load_platepars loadFTPDetectInfo
     np_radians np_degrees jd2Date).

(** The loop over the detections of a folder, in one piece: the
    observations of the detections before the first one that fails are
    built and printed; with no failing detection the result is the list so
    far followed by all of them, otherwise it is the exception of the first
    failing one. *)
Lemma format_observations_spec (unit : ProcessingUnit)
    (platepars : list (string * PlateparDummy)) (cams : list CamsObs.t)
    (st : State) (acc : list MeteorObsRMS.t) :
  ∃ built : list MeteorObsRMS.t,
    (format_observations' unit platepars cams st acc).1
    = {| world := world st; db := db st;
         stdout := (stdout st ++ map (loaded_line unit) built)%list |}
    ∧ ((Forall2 (λ c o, format_one' unit platepars c = Ok o) cams built
        ∧ (format_observations' unit platepars cams st acc).2 = Ok (acc ++ built)%list)
       ∨ (∃ pre c post e,
            cams = (pre ++ c :: post)%list
            ∧ Forall2 (λ c o, format_one' unit platepars c = Ok o) pre built
            ∧ format_one' unit platepars c = Raise e
            ∧ (format_observations' unit platepars cams st acc).2 = Raise e)).
Proof using Type.
  revert st acc. induction cams as [|c rest IH]; intros st acc.
  - exists []. simpl. rewrite !app_nil_r. split; [by destruct st|]. left. by split.
  - simpl.
    destruct (dict_getitem platepars (CamsObs.ff_name c)) as [pp|e] eqn:Epp.
    2:{ exists []. simpl. rewrite app_nil_r. split; [by destruct st|]. right.
        exists [], c, rest, e. repeat split; try done.
        unfold format_one. by rewrite Epp. }
    destruct (MeteorObsRMS.init _ _ _ _ _) as [met_obs|e] eqn:Einit.
    2:{ exists []. simpl. rewrite app_nil_r. split; [by destruct st|]. right.
        exists [], c, rest, e. repeat split; try done.
        unfold format_one. by rewrite Epp, bind_Ok. }
    assert (Hone : format_one' unit platepars c = Ok met_obs).
    { unfold format_one. by rewrite Epp, bind_Ok. }
    destruct (IH (print st (LoadedObservation (station_code unit)
                              (MeteorObsRMS.reference_dt met_obs) (rel_proc_path unit)))
                 (acc ++ [met_obs])%list) as (built & Hst & Hres).
    exists (met_obs :: built). split.
    { rewrite Hst. simpl. by rewrite <- app_assoc. }
    destruct Hres as [[Hall Hok]|(pre & c' & post & e & -> & Hpre & Hc & Hr)].
    + left. split; [by constructor|]. rewrite Hok. by rewrite <- app_assoc.
    + right. exists (c :: pre), c', post, e. repeat split; try done. by constructor.
Qed.

Lemma format_observations_state (unit : ProcessingUnit)
    (platepars : list (string * PlateparDummy)) (cams : list CamsObs.t)
    (st : State) (acc : list MeteorObsRMS.t) :
  world (format_observations' unit platepars cams st acc).1 = world st
  ∧ db (format_observations' unit platepars cams st acc).1 = db st.
Proof using Type.
  destruct (format_observations_spec unit platepars cams st acc) as (built & -> & _). done.
Qed.

(** One folder of the loop, whatever it holds: no file but the ledger
    file changes, and the ledger gains at most the path of the folder
    under the station of the folder. *)
Lemma load_unit_effect (unit : ProcessingUnit) (st : State) (acc : list MeteorObsRMS.t) :
  let res := load_unit' unit st acc in
  (∀ p, p ≠ db_file_path (db st) → files (world res.1) !! p = files (world st) !! p)
  ∧ db_file_path (db res.1) = db_file_path (db st)
  ∧ trajectories (db res.1) = trajectories (db st)
  ∧ dom (processed_dirs (db res.1)) = dom (processed_dirs (db st))
  ∧ (∀ s q, q ∈ recorded (db st) s → q ∈ recorded (db res.1) s)
  ∧ (∀ s q, q ∈ recorded (db res.1) s →
       q ∈ recorded (db st) s ∨ (s = station_code unit ∧ q = rel_proc_path unit)).
Proof using Type.
  simpl. unfold load_unit.
  destruct (listdir (world st) (proc_path unit)) as [names|e]; [|by auto 10].
  destruct (find_data_files names None None) as [[ftp|] [ppn|]];
    try (simpl; pose proof (addProcessedDir_frame (db st) (station_code unit)
                              (rel_proc_path unit)) as (F1 & F2 & F3 & _ & F5 & F6);
         by auto 10).
  assert (Hf : ∀ p, p ≠ db_file_path (db st) →
                    files (save (db st) (world st)) !! p = files (world st) !! p).
  { intros p Hp. by apply save_other_files. }
  destruct (read_file _ _ ≫= json_load_platepars) as [platepars|e]; [|simpl; by auto 10].
  destruct (initMeteorObs _ _ _ _ _ _) as [cams|e]; [|simpl; by auto 10].
  destruct (format_observations_state unit platepars cams
              (set_world st (save (db st) (world st))) acc) as [-> ->].
  simpl. by auto 10.
Qed.

End LoaderSteps.

Section LoaderLoop.

Variable json_load_platepars : string → result (list (string * PlateparDummy)).
Variable loadFTPDetectInfo : World → string → string → Q → Q → Q → result (list CamsObs.t).
Variable np_radians np_degrees : Q → Q.
Variable jd2Date : Q → datetime.

#[local] Abbreviation load_unit' :=
  (load_unit json_load_platepars loadFTPDetectInfo np_radians np_degrees jd2Date).
#[local] Abbreviation load_loop' :=
  (loadUnprocessedObservations_loop json_load_platepars loadFTPDetectInfo
     np_radians np_degrees jd2Date).

Lemma load_loop_effect (processing_list : list ProcessingUnit)
    (dt_range : option (datetime * datetime)) (st : State) (acc : list MeteorObsRMS.t) :
  let res := load_loop' processing_list dt_range st acc in
  (∀ p, p ≠ db_file_path (db st) → files (world res.1) !! p = files (world st) !! p)
  ∧ db_file_path (db res.1) = db_file_path (db st)
  ∧ trajectories (db res.1) = trajectories (db st)
  ∧ dom (processed_dirs (db res.1)) = dom (processed_dirs (db st))
  ∧ (∀ s q, q ∈ recorded (db st) s → q ∈ recorded (db res.1) s)
  ∧ (∀ s q, q ∈ recorded (db res.1) s →
       q ∈ recorded (db st) s
       ∨ ∃ unit, In unit processing_list
                 ∧ in_dt_range dt_range unit = true
                 ∧ s = station_code unit ∧ q = rel_proc_path unit).
Proof using Type.
  revert st acc. induction processing_list as [|unit rest IH]; intros st acc.
  { simpl. by auto 10. }
  simpl. destruct (outside_dt_range dt_range (night_dt unit)) eqn:Eout.
  { destruct (IH st acc) as (H2 & H3 & H4 & H5 & H6 & H7).
    repeat (split; [done|]). intros s q Hq.
    destruct (H7 s q Hq) as [?|(u & Hu & Hr & -> & ->)]; [by left|].
    right. exists u. by auto. }
  pose proof (load_unit_effect json_load_platepars loadFTPDetectInfo np_radians np_degrees
                jd2Date unit st acc) as Hstep.
  simpl in Hstep.
  destruct (load_unit' unit st acc) as [st' [acc'|e]]; simpl in Hstep.
  - destruct Hstep as (S2 & S3 & S4 & S5 & S6 & S7).
    destruct (IH st' acc') as (H2 & H3 & H4 & H5 & H6 & H7).
    split.
    { intros p Hp. rewrite H2 by congruence. by apply S2. }
    split; [congruence|]. split; [congruence|]. split; [congruence|].
    split; [auto|]. intros s q Hq.
    destruct (H7 s q Hq) as [Hq'|(u & Hu & Hr & -> & ->)].
    + destruct (S7 s q Hq') as [?|[-> ->]]; [by left|]. right. exists unit.
      unfold in_dt_range. rewrite Eout. by auto.
    + right. exists u. by auto.
  - destruct Hstep as (S2 & S3 & S4 & S5 & S6 & S7).
    repeat (split; [done|]). intros s q Hq.
    destruct (S7 s q Hq) as [?|[-> ->]]; [by left|]. right. exists unit.
    unfold in_dt_range. rewrite Eout. by auto.
Qed.

End LoaderLoop.

(** X18: [loadUnprocessedObservations] writes to no file but the ledger
    file, whether it returns or raises, and the ledger keeps its path. *)
Theorem loader_touches_only_the_ledger_file
    (json_load_platepars : string → result (list (string * PlateparDummy)))
    (loadFTPDetectInfo : World → string → string → Q → Q → Q → result (list CamsObs.t))
    (np_radians np_degrees : Q → Q) (jd2Date : Q → datetime)
    (processing_list : list ProcessingUnit) (dt_range : option (datetime * datetime))
    (st : State) :
  let res := loadUnprocessedObservations json_load_platepars loadFTPDetectInfo
               np_radians np_degrees jd2Date processing_list dt_range st in
  (∀ p, p ≠ db_file_path (db st) → files (world res.1) !! p = files (world st) !! p)
  ∧ db_file_path (db res.1) = db_file_path (db st).
Proof.
  destruct (load_loop_effect json_load_platepars loadFTPDetectInfo np_radians np_degrees
              jd2Date processing_list dt_range st []) as (H2 & H3 & _).
  by split.
Qed.

(** X19: through [loadUnprocessedObservations] the ledger in memory only
    grows, and only by folders of the processing list.  The trajectories
    and the set of stations stay as they were, no recorded path is lost,
    and every new path is the relative path of a unit of the list that the
    time filter let through, recorded under the station of that unit. *)
Theorem loader_ledger_grows
    (json_load_platepars : string → result (list (string * PlateparDummy)))
    (loadFTPDetectInfo : World → string → string → Q → Q → Q → result (list CamsObs.t))
    (np_radians np_degrees : Q → Q) (jd2Date : Q → datetime)
    (processing_list : list ProcessingUnit) (dt_range : option (datetime * datetime))
    (st : State) :
  let res := loadUnprocessedObservations json_load_platepars loadFTPDetectInfo
               np_radians np_degrees jd2Date processing_list dt_range st in
  trajectories (db res.1) = trajectories (db st)
  ∧ dom (processed_dirs (db res.1)) = dom (processed_dirs (db st))
  ∧ (∀ s q, q ∈ recorded (db st) s → q ∈ recorded (db res.1) s)
  ∧ (∀ s q, q ∈ recorded (db res.1) s →
       q ∈ recorded (db st) s
       ∨ ∃ unit, In unit processing_list
                 ∧ in_dt_range dt_range unit = true
                 ∧ s = station_code unit ∧ q = rel_proc_path unit).
Proof.
  destruct (load_loop_effect json_load_platepars loadFTPDetectInfo np_radians np_degrees
              jd2Date processing_list dt_range st []) as (_ & _ & H4 & H5 & H6 & H7).
  by repeat split.
Qed.

Section LoaderFolders.

Variable json_load_platepars : string → result (list (string * PlateparDummy)).
Variable loadFTPDetectInfo : World → string → string → Q → Q → Q → result (list CamsObs.t).
Variable np_radians np_degrees : Q → Q.
Variable jd2Date : Q → datetime.

#[local] Abbreviation load_unit' :=
  (load_unit json_load_platepars loadFTPDetectInfo np_radians np_degrees jd2Date).
#[local] Abbreviation load_loop' :=
  (loadUnprocessedObservations_loop json_load_platepars loadFTPDetectInfo
     np_radians np_degrees jd2Date).
#[local] Abbreviation load' :=
  (loadUnprocessedObservations json_load_platepars loadFTPDetectInfo
     np_radians np_degrees jd2Date).

(** X20: the mark of a folder with missing files reaches the disk when the
    loop comes to a later folder that has both files.  With a folder [u]
    lacking a data file followed by a folder [g] holding both, the ledger
    file after the loop holds the ledger with [u] marked, whatever becomes
    of the detections of [g]; after [u] alone the ledger file is untouched. *)
Theorem missing_files_mark_saved_by_next_folder (u g : ProcessingUnit) (st : State)
    (names_u names_g : list string) (ftp ppn : string) :
  listdir (world st) (proc_path u) = Ok names_u →
  (find_data_files names_u None None).1 = None
  ∨ (find_data_files names_u None None).2 = None →
  listdir (world st) (proc_path g) = Ok names_g →
  find_data_files names_g None None = (Some ftp, Some ppn) →
  files (world (load' [u; g] None st).1) !! db_file_path (db st)
  = Some (dumps (addProcessedDir (db st) (station_code u) (rel_proc_path u)))
  ∧ world (load' [u] None st).1 = world st.
Proof using Type.
  intros Hu Hmiss Hg Hfound.
  unfold loadUnprocessedObservations. simpl.
  rewrite (load_unit_missing_files _ _ _ _ _ u st [] names_u Hu Hmiss).
  split; [|done].
  set (st_u := {| world := world st;
                  db := addProcessedDir (db st) (station_code u) (rel_proc_path u);
                  stdout := (stdout st ++ [SkippingMissingData (rel_proc_path u)])%list |}).
  pose proof (load_unit_files_present json_load_platepars loadFTPDetectInfo np_radians
                np_degrees jd2Date g st_u [] names_g ftp ppn Hg Hfound) as Hw.
  assert (Hfile : files (world (load_unit' g st_u []).1) !! db_file_path (db st)
                  = Some (dumps (db st_u))).
  { rewrite Hw.
    replace (db_file_path (db st)) with (db_file_path (db st_u)); [apply save_file|].
    apply addProcessedDir_frame. }
  by destruct (load_unit' g st_u []) as [st' [acc'|e]].
Qed.

(** X21: a folder whose platepar file holds an empty dictionary gives no
    observation and is not marked.  The ledger is saved, the FTPdetectinfo
    file is not looked at, the list of observations stays as it was, and
    the ledger in memory is unchanged, so the folder is found again by the
    next run. *)
Theorem empty_platepar_folder_not_marked (unit : ProcessingUnit) (st : State)
    (acc : list MeteorObsRMS.t) (names : list string) (ftp ppn content : string) :
  listdir (world st) (proc_path unit) = Ok names →
  find_data_files names None None = (Some ftp, Some ppn) →
  read_file (save (db st) (world st)) (path_join (proc_path unit) ppn) = Ok content →
  json_load_platepars content = Ok [] →
  load_unit' unit st acc
  = ({| world := save (db st) (world st); db := db st; stdout := stdout st |}, Ok acc).
Proof using Type.
  intros Hls Hfound Hread Hjson. unfold load_unit. rewrite Hls, Hfound. simpl.
  by rewrite Hread, bind_Ok, Hjson.
Qed.

(** X22: the first detection of a folder that cannot be formatted aborts
    the whole load.  If the detections before it were built, and it has no
    platepar under its FF name (KeyError) or [MeteorObsRMS.__init__] raises
    on its picks, then [loadUnprocessedObservations] raises that exception:
    the observations gathered so far are lost, the lines of the
    observations built before it have been printed, and the ledger had
    been saved before the folder was read. *)
Theorem failing_detection_aborts_load (unit : ProcessingUnit)
    (rest : list ProcessingUnit) (dt_range : option (datetime * datetime)) (st : State)
    (acc : list MeteorObsRMS.t) (names : list string) (ftp ppn content : string)
    (platepars : list (string * PlateparDummy)) (pp0 : PlateparDummy)
    (pre post : list CamsObs.t) (c : CamsObs.t) (built : list MeteorObsRMS.t) (e : exn) :
  outside_dt_range dt_range (night_dt unit) = false →
  listdir (world st) (proc_path unit) = Ok names →
  find_data_files names None None = (Some ftp, Some ppn) →
  read_file (save (db st) (world st)) (path_join (proc_path unit) ppn) = Ok content →
  json_load_platepars content = Ok platepars →
  initMeteorObs loadFTPDetectInfo np_radians (save (db st) (world st)) (station_code unit)
    (path_join (proc_path unit) ftp) platepars = Ok (pre ++ c :: post)%list →
  Forall2 (λ c o, format_one np_degrees jd2Date unit platepars c = Ok o) pre built →
  format_one np_degrees jd2Date unit platepars c = Raise e →
  load_loop' (unit :: rest) dt_range st acc
  = ({| world := save (db st) (world st);
        db := db st;
        stdout := (stdout st ++ map (loaded_line unit) built)%list |},
     Raise e)
  ∧ (dict_getitem platepars (CamsObs.ff_name c) = Raise KeyError → e = KeyError).
Proof using Type.
  intros Hout Hls Hfound Hread Hjson Hinit Hpre Hc. split.
  2:{ intros Hkey. unfold format_one in Hc. rewrite Hkey in Hc. by injection Hc. }
  simpl. rewrite Hout. unfold load_unit. rewrite Hls, Hfound. simpl.
  rewrite Hread, bind_Ok, Hjson, Hinit.
  destruct (format_observations_spec np_degrees jd2Date unit platepars (pre ++ c :: post)
              (set_world st (save (db st) (world st))) acc) as (built' & Hst & Hres).
  assert (Hdet : ∀ (l1 l2 : list CamsObs.t) (b1 b2 : list MeteorObsRMS.t) c1 c2 p1 p2 e1 e2,
            (l1 ++ c1 :: p1 = l2 ++ c2 :: p2)%list →
            Forall2 (λ c o, format_one np_degrees jd2Date unit platepars c = Ok o) l1 b1 →
            Forall2 (λ c o, format_one np_degrees jd2Date unit platepars c = Ok o) l2 b2 →
            format_one np_degrees jd2Date unit platepars c1 = Raise e1 →
            format_one np_degrees jd2Date unit platepars c2 = Raise e2 →
            b1 = b2 ∧ e1 = e2).
  { clear. intros l1 l2 b1 b2 c1 c2 p1 p2 e1 e2 Heq H1. revert l2 b2 Heq.
    induction H1 as [|x o l1 b1 Hx H1 IH]; intros l2 b2 Heq H2 Hc1 Hc2.
    - destruct H2 as [|y o' l2 b2 Hy H2]; simpl in Heq.
      + injection Heq as -> _. split; [done|congruence].
      + injection Heq as -> _. congruence.
    - destruct H2 as [|y o' l2 b2 Hy H2]; simpl in Heq.
      + injection Heq as -> _. congruence.
      + injection Heq as -> Heq. destruct (IH l2 b2 Heq H2 Hc1 Hc2) as [-> ->].
        split; [|done]. f_equal. congruence. }
  destruct (format_observations _ _ _ _ _ _ _) as [st' r]. simpl in Hst, Hres.
  destruct Hres as [[Hall ->]|(pre' & c' & post' & e' & Heq & Hpre' & Hc' & ->)].
  - exfalso. clear -Hall Hpre Hc.
    revert built' Hall. induction Hpre as [|x o l b Hx Hp IH]; intros built' Hall.
    + simpl in Hall. inversion Hall; subst. congruence.
    + simpl in Hall. inversion Hall; subst. by eapply IH.
  - destruct (Hdet pre pre' built built' c c' post post' e e' Heq Hpre Hpre' Hc Hc')
      as [-> ->].
    by rewrite Hst.
Qed.

Lemma format_observations_In (unit : ProcessingUnit)
    (platepars : list (string * PlateparDummy)) (cams : list CamsObs.t)
    (st : State) (acc result : list MeteorObsRMS.t) (o : MeteorObsRMS.t) :
  (format_observations np_degrees jd2Date unit platepars cams st acc).2 = Ok result →
  In o result →
  In o acc
  ∨ (MeteorObsRMS.station_code o = station_code unit
     ∧ MeteorObsRMS.rel_proc_path o = rel_proc_path unit).
Proof using Type.
  intros Hr Hin.
  destruct (format_observations_spec np_degrees jd2Date unit platepars cams st acc)
    as (built & _ & [[Hall Hok]|(pre & c & post & e & _ & _ & _ & Hraise)]);
    [|congruence].
  rewrite Hok in Hr. injection Hr as <-. apply in_app_iff in Hin as [?|Hin]; [by left|].
  right. clear Hok. induction Hall as [|c o' cams' built' Hc Hall IH]; [done|].
  destruct Hin as [->|Hin]; [|by apply IH].
  unfold format_one in Hc.
  destruct (dict_getitem platepars (CamsObs.ff_name c)) as [pp|]; [|done].
  rewrite bind_Ok in Hc. by destruct (init_fields _ _ _ _ _ _ Hc) as (? & ? & _).
Qed.

Lemma load_unit_In (unit : ProcessingUnit) (st : State) (acc result : list MeteorObsRMS.t)
    (o : MeteorObsRMS.t) :
  (load_unit' unit st acc).2 = Ok result →
  In o result →
  In o acc
  ∨ (MeteorObsRMS.station_code o = station_code unit
     ∧ MeteorObsRMS.rel_proc_path o = rel_proc_path unit).
Proof using Type.
  unfold load_unit.
  destruct (listdir (world st) (proc_path unit)) as [names|e]; [|done].
  destruct (find_data_files names None None) as [[ftp|] [ppn|]];
    try (simpl; intros [= <-]; by left).
  destruct (read_file _ _ ≫= json_load_platepars) as [platepars|e]; [|done].
  destruct (initMeteorObs _ _ _ _ _ _) as [cams|e]; [|done].
  apply format_observations_In.
Qed.

(** X23: every observation [loadUnprocessedObservations] returns carries
    the station code and the relative path of a unit of the processing
    list that the time filter let through, so that
    [markObservationAsProcessed] on it marks that folder. *)
Theorem loaded_observation_names_its_folder (processing_list : list ProcessingUnit)
    (dt_range : option (datetime * datetime)) (st : State)
    (met_obs_list : list MeteorObsRMS.t) (met_obs : MeteorObsRMS.t) :
  (load' processing_list dt_range st).2 = Ok met_obs_list →
  In met_obs met_obs_list →
  ∃ unit,
    In unit processing_list
    ∧ in_dt_range dt_range unit = true
    ∧ MeteorObsRMS.station_code met_obs = station_code unit
    ∧ MeteorObsRMS.rel_proc_path met_obs = rel_proc_path unit
    ∧ ∀ self, markObservationAsProcessed self met_obs
              = addProcessedDir self (station_code unit) (rel_proc_path unit).
Proof using Type.
  unfold loadUnprocessedObservations.
  assert (Hloop : ∀ pl st acc result,
            (load_loop' pl dt_range st acc).2 = Ok result →
            In met_obs result →
            In met_obs acc
            ∨ ∃ unit, In unit pl ∧ in_dt_range dt_range unit = true
                      ∧ MeteorObsRMS.station_code met_obs = station_code unit
                      ∧ MeteorObsRMS.rel_proc_path met_obs = rel_proc_path unit).
  { clear. induction pl as [|unit rest IH]; intros st acc result Hr Hin.
    - simpl in Hr. injection Hr as <-. by left.
    - simpl in Hr. destruct (outside_dt_range dt_range (night_dt unit)) eqn:Eout.
      + destruct (IH st acc result Hr Hin) as [?|(u & Hu & Hd & Hs & Hp)]; [by left|].
        right. exists u. split; [by right|by repeat split].
      + pose proof (load_unit_In unit st acc) as Hunit.
        destruct (load_unit' unit st acc) as [st' [acc'|e]]; [|done]. simpl in Hunit.
        destruct (IH st' acc' result Hr Hin) as [Hacc|(u & Hu & Hd & Hs & Hp)].
        * destruct (Hunit acc' met_obs eq_refl Hacc) as [?|[Hs Hp]]; [by left|].
          right. exists unit. unfold in_dt_range. rewrite Eout.
          split; [by left|by repeat split].
        * right. exists u. split; [by right|by repeat split]. }
  intros Hr Hin. destruct (Hloop processing_list st [] met_obs_list Hr Hin)
    as [[]|(unit & Hu & Hd & Hs & Hp)].
  exists unit. repeat (split; [done|]). intros self.
  unfold markObservationAsProcessed. by rewrite Hs, Hp.
Qed.

End LoaderFolders.

Lemma missing_files_mark_saved_by_next_folder_witness :
  listdir (world state_two) (proc_path broken_unit)
  = Ok ["FTPdetectinfo_AB1234_20190707_192835_241084.txt"]
  ∧ (find_data_files ["FTPdetectinfo_AB1234_20190707_192835_241084.txt"] None None).2 = None
  ∧ listdir (world state_two) (proc_path good_unit)
    = Ok ["FTPdetectinfo_AB1234_20190708_193001_112233.txt";
          "platepars_all_recalibrated.json"]
  ∧ find_data_files ["FTPdetectinfo_AB1234_20190708_193001_112233.txt";
                     "platepars_all_recalibrated.json"] None None
    = (Some "FTPdetectinfo_AB1234_20190708_193001_112233.txt",
       Some "platepars_all_recalibrated.json")
  ∧ files (world (loadUnprocessedObservations sample_platepars sample_loadFTPDetectInfo
                    same_angle same_angle sample_jd2Date [broken_unit; good_unit] None
                    state_two).1) !! db_file_path (db state_two)
    = Some (dumps (addProcessedDir (db state_two) (station_code broken_unit)
                     (rel_proc_path broken_unit))).
Proof.
  assert (H1 : listdir (world state_two) (proc_path broken_unit)
               = Ok ["FTPdetectinfo_AB1234_20190707_192835_241084.txt"])
    by (vm_compute; reflexivity).
  assert (H2 : (find_data_files ["FTPdetectinfo_AB1234_20190707_192835_241084.txt"]
                  None None).2 = None) by (vm_compute; reflexivity).
  assert (H3 : listdir (world state_two) (proc_path good_unit)
               = Ok ["FTPdetectinfo_AB1234_20190708_193001_112233.txt";
                     "platepars_all_recalibrated.json"]) by (vm_compute; reflexivity).
  assert (H4 : find_data_files ["FTPdetectinfo_AB1234_20190708_193001_112233.txt";
                                "platepars_all_recalibrated.json"] None None
               = (Some "FTPdetectinfo_AB1234_20190708_193001_112233.txt",
                  Some "platepars_all_recalibrated.json")) by (vm_compute; reflexivity).
  split; [exact H1|]. split; [exact H2|]. split; [exact H3|]. split; [exact H4|].
  exact (proj1 (missing_files_mark_saved_by_next_folder sample_platepars
                  sample_loadFTPDetectInfo same_angle same_angle sample_jd2Date
                  broken_unit good_unit state_two _ _ _ _ H1 (or_intror H2) H3 H4)).
Defined.

Lemma empty_platepar_folder_not_marked_witness :
  listdir (world state_two) (proc_path good_unit)
  = Ok ["FTPdetectinfo_AB1234_20190708_193001_112233.txt";
        "platepars_all_recalibrated.json"]
  ∧ load_unit empty_platepars sample_loadFTPDetectInfo same_angle same_angle sample_jd2Date
      good_unit state_two []
    = ({| world := save (db state_two) (world state_two);
          db := db state_two;
          stdout := stdout state_two |}, Ok []).
Proof.
  assert (H1 : listdir (world state_two) (proc_path good_unit)
               = Ok ["FTPdetectinfo_AB1234_20190708_193001_112233.txt";
                     "platepars_all_recalibrated.json"]) by (vm_compute; reflexivity).
  split; [exact H1|].
  apply (empty_platepar_folder_not_marked empty_platepars sample_loadFTPDetectInfo
           same_angle same_angle sample_jd2Date good_unit state_two [] _
           "FTPdetectinfo_AB1234_20190708_193001_112233.txt"
           "platepars_all_recalibrated.json" "{}" H1);
    vm_compute; reflexivity.
Defined.

Lemma failing_detection_aborts_load_witness :
  load_unit sample_platepars stray_loadFTPDetectInfo same_angle same_angle sample_jd2Date
    good_unit state_two []
  = ({| world := save (db state_two) (world state_two);
        db := db state_two;
        stdout := stdout state_two |}, Raise KeyError)
  ∧ loadUnprocessedObservations_loop sample_platepars stray_loadFTPDetectInfo
      same_angle same_angle sample_jd2Date [good_unit] None state_two []
    = ({| world := save (db state_two) (world state_two);
          db := db state_two;
          stdout := (stdout state_two ++ map (loaded_line good_unit) [])%list |},
       Raise KeyError).
Proof.
  split; [vm_compute; reflexivity|].
  apply (failing_detection_aborts_load sample_platepars stray_loadFTPDetectInfo
           same_angle same_angle sample_jd2Date good_unit [] None state_two []
           ["FTPdetectinfo_AB1234_20190708_193001_112233.txt";
            "platepars_all_recalibrated.json"]
           "FTPdetectinfo_AB1234_20190708_193001_112233.txt"
           "platepars_all_recalibrated.json" "{}"
           [(sample_ff_name, pp_720x576)] pp_720x576
           [] [] (sample_detection "FF_AB1234_20190708_200000_000_0000000.fits") []
           KeyError);
    [vm_compute; reflexivity | vm_compute; reflexivity | vm_compute; reflexivity
    | vm_compute; reflexivity | vm_compute; reflexivity | vm_compute; reflexivity
    | constructor | vm_compute; reflexivity].
Defined.

Lemma loaded_observation_names_its_folder_witness :
  ∃ met_obs_list met_obs,
    (loadUnprocessedObservations sample_platepars sample_loadFTPDetectInfo
       same_angle same_angle sample_jd2Date [good_unit] None state_two).2 = Ok met_obs_list
    ∧ In met_obs met_obs_list
    ∧ ∃ unit, In unit [good_unit]
              ∧ MeteorObsRMS.station_code met_obs = station_code unit
              ∧ MeteorObsRMS.rel_proc_path met_obs = rel_proc_path unit.
Proof.
  destruct (loadUnprocessedObservations sample_platepars sample_loadFTPDetectInfo
              same_angle same_angle sample_jd2Date [good_unit] None state_two).2
    as [[|o l]|e] eqn:E; [by vm_compute in E| |by vm_compute in E].
  exists (o :: l), o. split; [reflexivity|]. split; [by left|].
  destruct (loaded_observation_names_its_folder sample_platepars sample_loadFTPDetectInfo
              same_angle same_angle sample_jd2Date [good_unit] None state_two (o :: l) o E
              (or_introl eq_refl)) as (unit & Hu & _ & Hs & Hp & _).
  exists unit. split; [exact Hu|]. split; assumption.
Defined.

(** ** The time limits of the data *)

Lemma foldl_min_spec (a : Z) (rest : list Z) :
  In (foldl Z.min a rest) (a :: rest)
  ∧ ∀ t, In t (a :: rest) → (foldl Z.min a rest <= t)%Z.
Proof.
  revert a. induction rest as [|b rest IH]; intros a; simpl.
  - split; [by left|]. intros t [<-|[]]. lia.
  - destruct (IH (Z.min a b)) as [Hin Hle]. split.
    + destruct Hin as [Hm|Hin]; [|by auto].
      rewrite <- Hm. destruct (Z.min_spec a b) as [[_ ->]|[_ ->]]; auto.
    + intros t [<-|[<-|Ht]].
      * etransitivity; [apply Hle; by left|]. lia.
      * etransitivity; [apply Hle; by left|]. lia.
      * apply Hle. by right.
Qed.

Lemma foldl_max_spec (a : Z) (rest : list Z) :
  In (foldl Z.max a rest) (a :: rest)
  ∧ ∀ t, In t (a :: rest) → (t <= foldl Z.max a rest)%Z.
Proof.
  revert a. induction rest as [|b rest IH]; intros a; simpl.
  - split; [by left|]. intros t [<-|[]]. lia.
  - destruct (IH (Z.max a b)) as [Hin Hle]. split.
    + destruct Hin as [Hm|Hin]; [|by auto].
      rewrite <- Hm. destruct (Z.max_spec a b) as [[_ ->]|[_ ->]]; auto.
    + intros t [<-|[<-|Ht]].
      * etransitivity; [|apply Hle; by left]. lia.
      * etransitivity; [|apply Hle; by left]. lia.
      * apply Hle. by right.
Qed.

Lemma proc_dir_dts_In (processing_list : list ProcessingUnit) (t : datetime) :
  In t (proc_dir_dts processing_list)
  ↔ (∃ unit, In unit processing_list ∧ night_dt unit = Some t)
    ∧ (t > datetime_2000_01_01)%Z.
Proof.
  unfold proc_dir_dts. rewrite filter_In, Z.gtb_gt, <- list_elem_of_In, list_elem_of_omap.
  split; intros [(u & Hu & Ht) Hgt]; (split; [|done]); exists u;
    by rewrite ?list_elem_of_In in *.
Qed.

(** X24: the limits of the data that the script computes before it makes
    its time bins.  They are the least and the greatest timestamp among the
    folders dated after 2000-01-01 00:00:00, so every such folder lies
    between them; folders without a timestamp or dated at or before that
    instant do not count, and when no folder counts the script stops with a
    ValueError.  A folder dated at or before that instant falls outside
    every time range that begins at or after the lower limit. *)
Theorem proc_dir_dt_limits_spec (processing_list : list ProcessingUnit) :
  (proc_dir_dt_limits processing_list = Raise ValueError
   ↔ ∀ unit t, In unit processing_list → night_dt unit = Some t →
               (t <= datetime_2000_01_01)%Z)
  ∧ (∀ e, proc_dir_dt_limits processing_list = Raise e → e = ValueError)
  ∧ ∀ proc_dir_dt_beg proc_dir_dt_end,
      proc_dir_dt_limits processing_list = Ok (proc_dir_dt_beg, proc_dir_dt_end) →
      (proc_dir_dt_beg <= proc_dir_dt_end)%Z
      ∧ (datetime_2000_01_01 < proc_dir_dt_beg)%Z
      ∧ (∃ unit, In unit processing_list ∧ night_dt unit = Some proc_dir_dt_beg)
      ∧ (∃ unit, In unit processing_list ∧ night_dt unit = Some proc_dir_dt_end)
      ∧ (∀ unit t, In unit processing_list → night_dt unit = Some t →
           (t > datetime_2000_01_01)%Z →
           (proc_dir_dt_beg <= t <= proc_dir_dt_end)%Z)
      ∧ (∀ t dt_beg dt_end,
           (t <= datetime_2000_01_01)%Z → (proc_dir_dt_beg <= dt_beg)%Z →
           outside_dt_range (Some (dt_beg, dt_end)) (Some t) = true).
Proof.
  unfold proc_dir_dt_limits.
  pose proof (proc_dir_dts_In processing_list) as Hdts.
  destruct (proc_dir_dts processing_list) as [|a rest] eqn:E; simpl.
  - split; [|split; [by intros e [= <-]|done]].
    split; [|done]. intros _ unit t Hu Ht.
    destruct (Z_le_gt_dec t datetime_2000_01_01) as [|Hgt]; [done|].
    exfalso. apply (proj2 (Hdts t)). split; [by exists unit|done].
  - split.
    { split; [done|]. intros Hall. exfalso.
      destruct (proj1 (Hdts a) (or_introl eq_refl)) as [(u & Hu & Ht) Hgt].
      specialize (Hall u a Hu Ht). lia. }
    split; [done|].
    intros b e [= <- <-].
    destruct (foldl_min_spec a rest) as [Hmin_in Hmin_le].
    destruct (foldl_max_spec a rest) as [Hmax_in Hmax_le].
    assert (Hb : (datetime_2000_01_01 < foldl Z.min a rest)%Z).
    { destruct (proj1 (Hdts _) Hmin_in) as [_ Hgt]. lia. }
    split; [etransitivity; [apply Hmin_le|apply Hmax_le]; by left|].
    split; [done|].
    split; [by destruct (proj1 (Hdts _) Hmin_in)|].
    split; [by destruct (proj1 (Hdts _) Hmax_in)|].
    split.
    + intros unit t Hu Ht Hgt.
      assert (Hin : In t (a :: rest)) by (apply Hdts; split; [by exists unit|done]).
      split; [by apply Hmin_le|by apply Hmax_le].
    + intros t dt_beg dt_end Hold Hbeg. simpl.
      apply orb_true_iff. left. apply Z.ltb_lt. lia.
Qed.

(** ** The date in a folder name and the data files of a folder *)

Lemma split_on_no_sep (sep : ascii) (s : string) :
  has_char sep s = false → split_on sep s = [s].
Proof.
  induction s as [|x s IH]; [done|]. simpl.
  intros [Hx Hs]%orb_false_iff. rewrite Hx. by rewrite (IH Hs).
Qed.

Lemma split_on_app (sep : ascii) (a s : string) :
  has_char sep a = false →
  split_on sep (a ++ String sep s) = a :: split_on sep s.
Proof.
  induction a as [|x a IH]; simpl.
  - intros _. by rewrite Ascii.eqb_refl.
  - intros [Hx Ha]%orb_false_iff. rewrite Hx. by rewrite (IH Ha).
Qed.

(** X25: which part of a folder name is read as its date.  For a name made
    of parts joined by underscores, the text handed to [strptime] is the
    second and the third part joined by an underscore, whatever follows;
    with two parts only it is the second part, and for a name without an
    underscore it is the empty text. *)
Theorem night_date_text_tokens (a b c rest : string) :
  has_char "_" a = false →
  has_char "_" b = false →
  has_char "_" c = false →
  night_date_text (a ++ "_" ++ b ++ "_" ++ c ++ "_" ++ rest) = b ++ "_" ++ c
  ∧ night_date_text (a ++ "_" ++ b ++ "_" ++ c) = b ++ "_" ++ c
  ∧ night_date_text (a ++ "_" ++ b) = b
  ∧ night_date_text a = EmptyString.
Proof.
  intros Ha Hb Hc. unfold night_date_text.
  change (a ++ "_" ++ b ++ "_" ++ c ++ "_" ++ rest)
    with (a ++ String "_" (b ++ String "_" (c ++ String "_" rest))).
  change (a ++ "_" ++ b ++ "_" ++ c) with (a ++ String "_" (b ++ String "_" c)).
  change (a ++ "_" ++ b) with (a ++ String "_" b).
  rewrite !split_on_app by done.
  rewrite (split_on_no_sep "_" a Ha), (split_on_no_sep "_" b Hb), (split_on_no_sep "_" c Hc).
  by repeat split.
Qed.

Lemma night_date_text_tokens_witness :
  has_char "_" "HR0001" = false
  ∧ has_char "_" "20190707" = false
  ∧ has_char "_" "192835" = false
  ∧ night_date_text ("HR0001" ++ "_" ++ "20190707" ++ "_" ++ "192835" ++ "_"
                     ++ "241084_detected")
    = "20190707" ++ "_" ++ "192835".
Proof.
  split; [reflexivity|]. split; [reflexivity|]. split; [reflexivity|].
  apply (night_date_text_tokens "HR0001" "20190707" "192835" "241084_detected");
    reflexivity.
Defined.

Lemma find_data_files_acc (names : list string) (ftp ppn : option string) :
  find_data_files names ftp ppn
  = (match last (List.filter is_ftpdetectinfo names) with
     | Some name => Some name
     | None => ftp
     end,
     if bool_decide ("platepars_all_recalibrated.json" ∈ names)
     then Some "platepars_all_recalibrated.json"
     else ppn).
Proof.
  revert ftp ppn. induction names as [|name rest IH]; intros ftp ppn.
  - cbn [find_data_files List.filter last].
    rewrite bool_decide_eq_false_2; [done|]. apply not_elem_of_nil.
  - cbn [find_data_files List.filter]. destruct (is_ftpdetectinfo name) eqn:Eftp.
    + rewrite IH. rewrite last_cons. f_equal.
      * by destruct (last (List.filter is_ftpdetectinfo rest)).
      * assert (Hne : "platepars_all_recalibrated.json" ≠ name).
        { intros <-. by vm_compute in Eftp. }
        erewrite (bool_decide_ext (_ ∈ name :: rest)); [done|].
        rewrite elem_of_cons. tauto.
    + destruct (String.eqb_spec name "platepars_all_recalibrated.json") as [->|Hne].
      * rewrite IH. f_equal.
        rewrite (bool_decide_eq_true_2 (_ ∈ _ :: _)) by (apply elem_of_cons; by left).
        by case_bool_decide.
      * rewrite IH. f_equal.
        erewrite (bool_decide_ext (_ ∈ name :: rest)); [done|].
        rewrite elem_of_cons. split; [intros [?|?]; [congruence|done]|auto].
Qed.

(** X26: the data files the loader picks in a folder.  The FTPdetectinfo
    file is the last name of the listing that starts with "FTPdetectinfo",
    ends with ".txt" and holds neither "backup" nor "uncalibrated", and
    there is none when no name is such; the platepar file is found exactly
    when the listing holds the name "platepars_all_recalibrated.json". *)
Theorem find_data_files_spec (names : list string) :
  (find_data_files names None None).1 = last (List.filter is_ftpdetectinfo names)
  ∧ ((find_data_files names None None).2 = Some "platepars_all_recalibrated.json"
     ↔ In "platepars_all_recalibrated.json" names)
  ∧ ((find_data_files names None None).2 = None
     ↔ ¬ In "platepars_all_recalibrated.json" names)
  ∧ (∀ name, (find_data_files names None None).1 = Some name →
       In name names
       ∧ startswith "FTPdetectinfo" name = true
       ∧ endswith ".txt" name = true
       ∧ contains "backup" name = false
       ∧ contains "uncalibrated" name = false).
Proof.
  rewrite find_data_files_acc. simpl. rewrite <- list_elem_of_In.
  split; [by destruct (last _)|].
  split; [case_bool_decide; split; done|].
  split; [case_bool_decide; split; done|].
  intros name Hname.
  assert (Hlast : last (List.filter is_ftpdetectinfo names) = Some name)
    by (by destruct (last _)).
  apply last_Some in Hlast as [l' Hl'].
  assert (Hin : In name (List.filter is_ftpdetectinfo names)).
  { rewrite Hl'. apply in_app_iff. right. by left. }
  apply filter_In in Hin as [Hin Hftp]. split; [done|].
  unfold is_ftpdetectinfo in Hftp.
  apply andb_true_iff in Hftp as [Hftp Hu]. apply andb_true_iff in Hftp as [Hftp Hb].
  apply andb_true_iff in Hftp as [Hs He].
  by rewrite negb_true_iff in Hb, Hu.
Qed.

(** ** Folders with missing files, and the end of a run *)

Section LoaderRuns.

Variable json_load_platepars : string → result (list (string * PlateparDummy)).
Variable loadFTPDetectInfo : World → string → string → Q → Q → Q → result (list CamsObs.t).
Variable np_radians np_degrees : Q → Q.
Variable jd2Date : Q → datetime.

#[local] Abbreviation load_loop' :=
  (loadUnprocessedObservations_loop json_load_platepars loadFTPDetectInfo
     np_radians np_degrees jd2Date).
#[local] Abbreviation load' :=
  (loadUnprocessedObservations json_load_platepars loadFTPDetectInfo
     np_radians np_degrees jd2Date).

(** X27: a run over folders that all lack a data file never writes to the
    disk.  The loader returns no observation, prints one line for each
    folder the time filter lets through, and marks these folders in turn
    on the ledger in memory; the disk is exactly as it was. *)
Theorem only_broken_folders_never_saved (processing_list : list ProcessingUnit)
    (dt_range : option (datetime * datetime)) (st : State) :
  Forall (lacks_data_files (world st)) processing_list →
  let loaded := List.filter (in_dt_range dt_range) processing_list in
  load' processing_list dt_range st
  = ({| world := world st;
        db := foldl (λ self unit,
                       addProcessedDir self (station_code unit) (rel_proc_path unit))
                    (db st) loaded;
        stdout := (stdout st
                   ++ map (λ unit, SkippingMissingData (rel_proc_path unit)) loaded)%list |},
     Ok []).
Proof using Type.
  intros Hall. simpl. unfold loadUnprocessedObservations. generalize (@nil MeteorObsRMS.t).
  revert st Hall. induction processing_list as [|unit rest IH]; intros st Hall acc.
  - simpl. rewrite app_nil_r. by destruct st.
  - apply Forall_cons in Hall as [(names & Hls & Hmiss) Hall].
    cbn [loadUnprocessedObservations_loop List.filter].
    destruct (outside_dt_range dt_range (night_dt unit)) eqn:Eout.
    + assert (Hin : in_dt_range dt_range unit = false)
        by (unfold in_dt_range; by rewrite Eout).
      rewrite Hin. by apply IH.
    + assert (Hin : in_dt_range dt_range unit = true)
        by (unfold in_dt_range; by rewrite Eout).
      rewrite Hin.
      rewrite (load_unit_missing_files _ _ _ _ _ unit st acc names);
        [|by unfold listdir; rewrite Hls|done].
      rewrite IH by done. simpl. by rewrite <- app_assoc.
Qed.

(** X28: [finish] after the loader puts the ledger, as the loader left it
    in memory, into the ledger file, and the whole of loading and finishing
    has changed no other file. *)
Theorem finish_persists_loader_state (processing_list : list ProcessingUnit)
    (dt_range : option (datetime * datetime)) (st : State) :
  let st' := (load' processing_list dt_range st).1 in
  files (world (finish st')) !! db_file_path (db st) = Some (dumps (db st'))
  ∧ (∀ p, p ≠ db_file_path (db st) →
       files (world (finish st')) !! p = files (world st) !! p)
  ∧ db (finish st') = db st'.
Proof using Type.
  cbv zeta.
  destruct (load_loop_effect json_load_platepars loadFTPDetectInfo np_radians np_degrees
              jd2Date processing_list dt_range st []) as (H2 & H3 & _).
  unfold loadUnprocessedObservations.
  set (st' := (load_loop' processing_list dt_range st []).1) in *.
  unfold finish, set_world. cbn [world db].
  split; [rewrite <- H3; apply save_file|].
  split; [|done].
  intros p Hp. rewrite save_other_files by congruence. by apply H2.
Qed.

End LoaderRuns.

Lemma only_broken_folders_never_saved_witness :
  Forall (lacks_data_files (world state_broken)) [broken_unit]
  ∧ world (loadUnprocessedObservations sample_platepars sample_loadFTPDetectInfo
             same_angle same_angle sample_jd2Date [broken_unit] None state_broken).1
    = world state_broken.
Proof.
  assert (H : Forall (lacks_data_files (world state_broken)) [broken_unit]).
  { apply Forall_cons. split; [|apply Forall_nil_2].
    exists ["FTPdetectinfo_AB1234_20190707_192835_241084.txt"].
    split; [vm_compute; reflexivity|]. right. vm_compute; reflexivity. }
  split; [exact H|].
  by rewrite (only_broken_folders_never_saved sample_platepars sample_loadFTPDetectInfo
                same_angle same_angle sample_jd2Date [broken_unit] None state_broken H).
Defined.
